(** * GatewayManager: selection, task fetching and result forwarding

    Shallow embedding of [neurons/validator/gateway/gateway_manager.py].

    The manager owns one list of gateways and talks to three collaborators
    that live outside the file: the gateway API (transport client), the
    gateway scorer and Python's [random] module.  The collaborators are the
    fields of the class [Environment]; every call to one of them is recorded
    in a history of events, and a collaborator may answer differently
    depending on the world (gateway list and history) in which it is called.

    Python exceptions are results: a computation is a function from the
    world to an outcome and the world it leaves behind, so that what was
    mutated before an exception was raised stays mutated.

    A gateway object is represented by the values of its attributes and
    [self._gateways] by the list of these values in order: an assignment to
    an attribute of a listed object is an update of the list at its position.
    The coroutines are run to completion one at a time. *)

From Stdlib Require Import List String ZArith Bool Arith Lia.
Import ListNotations.

Set Implicit Arguments.

(** ** Python values *)

(** The exception classes that matter to the manager.  [Http3Exception]
    stands for every instance of that class, [PyException] for an instance
    of any class the manager has no handler for. *)
Inductive Exception : Type :=
| Http3Exception (msg : string)
| IndexError (msg : string)
| ValueError (msg : string)
| PyException (cls msg : string).

Definition is_Http3Exception (e : Exception) : bool :=
  match e with
  | Http3Exception _ => true
  | _ => false
  end.

(** What a call does: it returns a value or raises. *)
Inductive Outcome (A : Type) : Type :=
| Returns (a : A)
| Raises (e : Exception).
Arguments Raises {A} e.

(** [Gateway]: the three attributes the manager reads or writes.  The score
    type is left open; the manager only ever compares scores with [>] (inside
    [max]) and [==]. *)
Record Gateway (Score : Type) : Type := mkGateway {
  url : string;
  score : Score;
  disabled : bool
}.

Definition set_disabled {Score} (b : bool) (g : Gateway Score) : Gateway Score :=
  {| url := url g; score := score g; disabled := b |}.

(** [GatewayTask(id=..., prompt=..., gateway_host=...)]. *)
Record GatewayTask : Type := mkGatewayTask {
  id : string;
  prompt : string;
  gateway_host : string
}.

(** [GatewayOrganicTask]: the attributes [add_result] reads, in a module of
    their own because two of them are named as those of [GatewayTask]. *)
Module GatewayOrganicTask.
Record t : Type := mk {
  id : string;
  prompt : string;
  gateway_url : string
}.
End GatewayOrganicTask.

(** The value of [await self._gateway_api.get_tasks(...)]. *)
Record GetGatewayTasksResult (Score : Type) : Type := mkGetGatewayTasksResult {
  tasks : list GatewayTask;
  gateways : list (Gateway Score)
}.

(** The keyword arguments of [GatewayApi.add_result]. *)
Record AddResultArgs (Keypair float : Type) : Type := mkAddResultArgs {
  arg_validator_hotkey : Keypair;
  arg_task : GatewayTask;
  arg_score : option float;
  arg_miner_hotkey : option string;
  arg_miner_uid : option Z;
  arg_miner_rating : option float;
  arg_asset : option (list Byte.byte);
  arg_error : option string
}.

(** ** Generic Python helpers *)

(** [max(first :: rest, key=key)]: CPython keeps the running maximum and
    replaces it only when a later key compares [>] to it, so among equal
    keys the earliest element wins. *)
Definition max_from {A K} (gt : K -> K -> bool) (key : A -> K)
    (first : A) (rest : list A) : A :=
  fold_left (fun best x => if gt (key x) (key best) then x else best) rest first.

Definition py_max {A K} (gt : K -> K -> bool) (key : A -> K)
    (l : list A) : Outcome A :=
  match l with
  | [] => Raises (ValueError "max() arg is an empty sequence")
  | first :: rest => Returns (max_from gt key first rest)
  end.

(** Truth value of a list: [not l] is true exactly for the empty list. *)
Definition py_not {A} (l : list A) : bool :=
  match l with
  | [] => true
  | _ :: _ => false
  end.


(** ** History and world *)

Inductive LogRecord (Score : Type) : Type :=
| GatewayUpdated (g : Gateway Score)   (* trace: "Gateway updated: ..." *)
| FailedFetching (e : Exception)       (* error: "Failed fetching gateway tasks: ..." *)
| GatewayDisabled (target : string).   (* trace: "Gateway ... is disabled ..." *)
Arguments FailedFetching {Score} e.
Arguments GatewayDisabled {Score} target.

Inductive Event (Score Keypair float : Type) : Type :=
| EvGetTasks (host : string) (validator_hotkey : Keypair) (task_count : Z)
             (out : Outcome (GetGatewayTasksResult Score))
| EvAddResult (args : AddResultArgs Keypair float) (out : Outcome unit)
| EvScore (input output : list (Gateway Score))
| EvRandBelow (n k : nat)
| EvLog (r : LogRecord Score).
Arguments EvGetTasks {Score Keypair float} host validator_hotkey task_count out.
Arguments EvAddResult {Score Keypair float} args out.
Arguments EvScore {Score Keypair float} input output.
Arguments EvRandBelow {Score Keypair float} n k.
Arguments EvLog {Score Keypair float} r.

(** The world: [self._gateways] and everything that happened so far. *)
Record World (Score Keypair float : Type) : Type := mkWorld {
  _gateways : list (Gateway Score);
  history : list (Event Score Keypair float)
}.
Arguments mkWorld {Score Keypair float} _ _.

(** ** Collaborators

    What the manager is constructed with or imports: the comparison of
    scores, [GatewayScorer.GATEWAY_MIN_SCORE], the two calls of the gateway
    API, the scorer (scoring never fails) and the draw behind [rd.choice]. *)
Class Environment (Score Keypair float : Type) : Type := {
  (** [a > b] and [a == b] on scores *)
  score_gt : Score -> Score -> bool;
  score_eq : Score -> Score -> bool;
  GATEWAY_MIN_SCORE : Score;
  (** [self._gateway_api.get_tasks(host=, validator_hotkey=, task_count=)] *)
  gateway_api_get_tasks :
    World Score Keypair float -> string -> Keypair -> Z ->
    Outcome (GetGatewayTasksResult Score);
  (** [self._gateway_api.add_result(...)] *)
  gateway_api_add_result :
    World Score Keypair float -> AddResultArgs Keypair float -> Outcome unit;
  (** [self._gateway_scorer.score(gateways=)] *)
  gateway_scorer_score :
    World Score Keypair float -> list (Gateway Score) -> list (Gateway Score);
  (** an index below [n], for a sequence of length [n] *)
  rd_randbelow : World Score Keypair float -> nat -> nat
}.

Section GatewayManager.

Context {Score Keypair float : Type} {env : Environment Score Keypair float}.

Abbreviation gateway := (Gateway Score).
Abbreviation event := (Event Score Keypair float).
Abbreviation world := (World Score Keypair float).

(** *** Computations *)

Definition M (A : Type) : Type := world -> Outcome A * world.

Definition ret {A} (a : A) : M A := fun w => (Returns a, w).

Definition raise {A} (e : Exception) : M A := fun w => (Raises e, w).

Definition bind {A B} (c : M A) (k : A -> M B) : M B :=
  fun w =>
    match c w with
    | (Returns a, w') => k a w'
    | (Raises e, w') => (Raises e, w')
    end.

(** A pure Python expression that may raise. *)
Definition lift {A} (o : Outcome A) : M A := fun w => (o, w).

(** [try: body / except Http3Exception as e: handler e].  Any other
    exception goes through; the world is the one at the [raise]. *)
Definition try_except_Http3 {A} (body : M A) (handler : Exception -> M A) : M A :=
  fun w =>
    match body w with
    | (Returns a, w') => (Returns a, w')
    | (Raises e, w') =>
        if is_Http3Exception e then handler e w' else (Raises e, w')
    end.

Definition get_gateways : M (list gateway) :=
  fun w => (Returns (_gateways w), w).

Definition set_gateways (gs : list gateway) : M unit :=
  fun w => (Returns tt, mkWorld gs (history w)).

Definition emit (ev : event) : M unit :=
  fun w => (Returns tt, mkWorld (_gateways w) (history w ++ [ev])).

Declare Scope py_scope.
Delimit Scope py_scope with py.
Notation "x <- c ;; k" := (bind c (fun x => k))
  (at level 61, c at next level, right associativity) : py_scope.
Notation "c ;; k" := (bind c (fun _ => k))
  (at level 61, right associativity) : py_scope.
Local Open Scope py_scope.

(** [for x in l: body x] *)
Fixpoint for_each {A} (l : list A) (body : A -> M unit) : M unit :=
  match l with
  | [] => ret tt
  | x :: rest => body x ;; for_each rest body
  end.

Definition log (r : LogRecord Score) : M unit := emit (EvLog r).

(** Calls to the collaborators: ask, record, hand the outcome back. *)
Definition call_api_get_tasks (host : string) (validator_hotkey : Keypair)
    (task_count : Z) : M (GetGatewayTasksResult Score) :=
  fun w =>
    let out := gateway_api_get_tasks w host validator_hotkey task_count in
    (out, mkWorld (_gateways w)
                  (history w ++ [EvGetTasks host validator_hotkey task_count out])).

Definition call_api_add_result (args : AddResultArgs Keypair float) : M unit :=
  fun w =>
    let out := gateway_api_add_result w args in
    (out, mkWorld (_gateways w) (history w ++ [EvAddResult args out])).

Definition call_scorer_score (gs : list gateway) : M (list gateway) :=
  fun w =>
    let out := gateway_scorer_score w gs in
    (Returns out, mkWorld (_gateways w) (history w ++ [EvScore gs out])).

(** [rd.choice(seq)]: [seq[randbelow(len(seq))]]; an empty sequence or an
    index out of range raises [IndexError]. *)
Definition rd_choice (seq : list gateway) : M gateway :=
  if py_not seq then raise (IndexError "Cannot choose from an empty sequence")
  else
    fun w =>
      let n := List.length seq in
      let k := rd_randbelow w n in
      let w' := mkWorld (_gateways w) (history w ++ [EvRandBelow n k]) in
      match nth_error seq k with
      | Some g => (Returns g, w')
      | None => (Raises (IndexError "list index out of range"), w')
      end.

(** *** The methods of [GatewayManager]

    The parameter [url] of [get_tasks] is [target] here and the parameter
    [score] of [add_result] is [score0], [url] and [score] being the
    attributes of a gateway. *)

(** [__init__]: no gateways yet. *)
Definition init : world := mkWorld [] [].

(** [for gateway in self._gateways: gateway.disabled = False] *)
Definition reset_disabled (gs : list gateway) : list gateway :=
  map (set_disabled false) gs.

(** [for gateway in self._gateways:
       if gateway.url == url: gateway.disabled = True; break] *)
Fixpoint disable_url (target : string) (gs : list gateway) : list gateway :=
  match gs with
  | [] => []
  | g :: rest =>
      if String.eqb (url g) target then set_disabled true g :: rest
      else g :: disable_url target rest
  end.

Definition get_best_gateway : M (option gateway) :=
  gs <- get_gateways ;;
  if py_not gs then ret None
  else
    best <- lift (py_max score_gt (@score Score) gs) ;;
    if score_eq (score best) GATEWAY_MIN_SCORE
    then g <- rd_choice gs ;; ret (Some g)
    else ret (Some best).

Definition _update_gateways (gs : list gateway) : M unit :=
  scored <- call_scorer_score gs ;;
  set_gateways scored ;;
  current <- get_gateways ;;
  for_each current (fun g => log (GatewayUpdated g)).

(** Lines 47-59: the [try] block with its handler.  The value is the local
    variable [tasks] as it stands after the block. *)
Definition fetch_step (target : string) (validator_hotkey : Keypair)
    (task_count : Z) : M (list GatewayTask) :=
  let tasks0 : list GatewayTask := [] in
  try_except_Http3
    (gs <- get_gateways ;;
     set_gateways (reset_disabled gs) ;;
     result <- call_api_get_tasks target validator_hotkey task_count ;;
     set_gateways (gateways result) ;;
     ret (tasks result))
    (fun e => log (FailedFetching e) ;; ret tasks0).

(** Lines 63-68: [if not tasks: ...]. *)
Definition disable_step (target : string) (fetched : list GatewayTask) : M unit :=
  if py_not fetched then
    log (GatewayDisabled target) ;;
    gs <- get_gateways ;;
    set_gateways (disable_url target gs)
  else ret tt.

Definition get_tasks (target : string) (validator_hotkey : Keypair)
    (task_count : Z) : M (list GatewayTask) :=
  fetched <- fetch_step target validator_hotkey task_count ;;
  disable_step target fetched ;;
  gs <- get_gateways ;;
  _update_gateways gs ;;
  ret fetched.

Definition add_result (validator_hotkey : Keypair) (task : GatewayOrganicTask.t)
    (score0 : option float) (miner_hotkey : option string)
    (miner_uid : option Z) (miner_rating : option float)
    (asset : option (list Byte.byte)) (error : option string) : M unit :=
  call_api_add_result
    {| arg_validator_hotkey := validator_hotkey;
       arg_task := {| id := GatewayOrganicTask.id task;
                      prompt := GatewayOrganicTask.prompt task;
                      gateway_host := GatewayOrganicTask.gateway_url task |};
       arg_score := score0;
       arg_miner_hotkey := miner_hotkey;
       arg_miner_uid := miner_uid;
       arg_miner_rating := miner_rating;
       arg_asset := asset;
       arg_error := error |}.

End GatewayManager.

(** ** Vocabulary of the properties *)

Section Vocabulary.

Context {Score Keypair float : Type} {env : Environment Score Keypair float}.

(** The world in which the transport client is consulted by [get_tasks]
    started in [w]: same history, every flag cleared. *)
Definition at_transport (w : World Score Keypair float) : World Score Keypair float :=
  mkWorld (reset_disabled (_gateways w)) (history w).

(** The calls to the scorer among some events, oldest first, each with the
    list it was given and the list it returned. *)
Fixpoint score_calls (evs : list (Event Score Keypair float))
    : list (list (Gateway Score) * list (Gateway Score)) :=
  match evs with
  | [] => []
  | EvScore input output :: rest => (input, output) :: score_calls rest
  | _ :: rest => score_calls rest
  end.

(** The result submissions among some events, oldest first. *)
Fixpoint add_result_calls (evs : list (Event Score Keypair float))
    : list (AddResultArgs Keypair float * Outcome unit) :=
  match evs with
  | [] => []
  | EvAddResult args out :: rest => (args, out) :: add_result_calls rest
  | _ :: rest => add_result_calls rest
  end.

(** The data-model invariant: a url names one gateway of the list. *)
Definition unique_urls (gs : list (Gateway Score)) : Prop :=
  NoDup (map (@url Score) gs).

(** A gateway [g'] that the scorer returned has the flag its url had in the
    list [input] the scorer was given.  Nothing is asked of the gateways the
    scorer returns with another flag, under a new url, or not at all. *)
Definition flag_carried_over (input : list (Gateway Score)) (g' : Gateway Score) : Prop :=
  exists g, In g input /\ url g = url g' /\ disabled g = disabled g'.

(** [m] is the maximum score of [gs]: some gateway has it, none exceeds it. *)
Definition is_max_score (m : Score) (gs : list (Gateway Score)) : Prop :=
  (exists g, In g gs /\ score g = m) /\
  (forall g, In g gs -> score_gt (score g) m = false).

(** Laws of the comparison of scores, assumed only where a proof needs them. *)
Definition gt_asymmetric : Prop :=
  forall a b : Score, score_gt a b = true -> score_gt b a = false.

Definition gt_transitive : Prop :=
  forall a b c : Score, score_gt a b = true -> score_gt b c = true -> score_gt a c = true.

Definition gt_total : Prop :=
  forall a b : Score, score_gt a b = false -> score_gt b a = false -> a = b.

Definition gt_excludes_eq : Prop :=
  forall a b : Score, score_gt a b = true -> score_eq a b = false.

(** The world in which [get_tasks] started in [w] reaches the disable step:
    the one the [try] block leaves. *)
Definition at_disable (target : string) (hotkey : Keypair) (n : Z)
    (w : World Score Keypair float) : World Score Keypair float :=
  snd (fetch_step target hotkey n w).

(** The world after lines 63-68, entered in [w] with [fetched] as the local
    [tasks]; and the world after [self._update_gateways(gateways=self._gateways)]. *)
Definition after_disable (target : string) (fetched : list GatewayTask)
    (w : World Score Keypair float) : World Score Keypair float :=
  snd (disable_step target fetched w).

Definition after_update (w : World Score Keypair float) : World Score Keypair float :=
  snd (_update_gateways (_gateways w) w).

(** Two lists that differ at most in the [disabled] flags. *)
Definition same_but_disabled (gs1 gs2 : list (Gateway Score)) : Prop :=
  Forall2 (fun g1 g2 => url g1 = url g2 /\ score g1 = score g2) gs1 gs2.

(** Two outcomes of [get_best_gateway], on [gs1] and on [gs2], that pick the
    same position: both nothing, both the gateway at one index, or both the
    same exception. *)
Definition same_position (gs1 gs2 : list (Gateway Score))
    (r1 r2 : Outcome (option (Gateway Score))) : Prop :=
  match r1, r2 with
  | Returns None, Returns None => True
  | Returns (Some g1), Returns (Some g2) =>
      exists i, nth_error gs1 i = Some g1 /\ nth_error gs2 i = Some g2
  | Raises e1, Raises e2 => e1 = e2
  | _, _ => False
  end.

(** The world after a draw for a sequence of length [len]. *)
Definition after_draw (w : World Score Keypair float) (len : nat)
    : World Score Keypair float :=
  mkWorld (_gateways w) (history w ++ [EvRandBelow len (rd_randbelow w len)]).

End Vocabulary.

(** ** A concrete environment

    Integer scores with minimum [0], an identity scorer, and a transport
    client whose answer depends on the host: ["a"] has no work, ["b"] has
    one task, ["down"] is unreachable, anything else trips a programming
    error inside the client. *)

Module Example.

Open Scope string_scope.
Open Scope Z_scope.

Definition gw (u : string) (s : Z) (d : bool) : Gateway Z :=
  {| url := u; score := s; disabled := d |}.

Definition task1 : GatewayTask :=
  {| id := "t-1"; prompt := "a red chair"; gateway_host := "b" |}.

Definition organic1 : GatewayOrganicTask.t :=
  GatewayOrganicTask.mk "t-1" "a red chair" "b".

Definition transport (w : World Z string Z) (host hotkey : string) (n : Z)
    : Outcome (GetGatewayTasksResult Z) :=
  if String.eqb host "a" then
    Returns {| tasks := []; gateways := [gw "a" 5 false; gw "b" 1 false] |}
  else if String.eqb host "b" then
    Returns {| tasks := [task1]; gateways := [gw "a" 5 false; gw "b" 1 false] |}
  else if String.eqb host "down" then
    Raises (Http3Exception "connection lost")
  else Raises (PyException "KeyError" "gateways").

Definition submit (w : World Z string Z) (args : AddResultArgs string Z)
    : Outcome unit :=
  match arg_error args with
  | Some _ => Raises (Http3Exception "stream reset")
  | None => Returns tt
  end.

Definition env : Environment Z string Z := {|
  score_gt := Z.gtb;
  score_eq := Z.eqb;
  GATEWAY_MIN_SCORE := 0;
  gateway_api_get_tasks := transport;
  gateway_api_add_result := submit;
  gateway_scorer_score := fun _ gs => gs;
  rd_randbelow := fun w n => Nat.modulo (List.length (history w)) n
|}.

Definition start (gs : list (Gateway Z)) : World Z string Z := mkWorld gs [].

(** Worlds the properties are tried on. *)
Definition w_idle : World Z string Z := start [gw "a" 5 false; gw "b" 1 true].
Definition w_down : World Z string Z := start [gw "a" 5 true; gw "down" 3 false].
Definition w_mixed : World Z string Z := start [gw "a" 5 true; gw "b" 1 false].
Definition w_top : World Z string Z :=
  start [gw "b" 0 false; gw "a" 5 true; gw "c" 0 false].
Definition w_unproven : World Z string Z :=
  mkWorld [gw "a" 0 false; gw "b" 0 false; gw "c" 0 false] [EvRandBelow 3 0].

Definition key_error : Exception := PyException "KeyError" "gateways".

End Example.

(** ** Environments of the counterexamples

    The collaborators are free in what they hand back.  A scorer may build
    its answer from new objects, which carry the default flag; a transport
    client may list a gateway as disabled in the very answer that brings a
    task; and nothing keeps two gateways from sharing a url. *)

Module Counter.

Import Example.
Open Scope string_scope.
Open Scope Z_scope.

(** A scorer that answers with new gateway objects: same urls, same
    scores, [disabled] at its default. *)
Definition fresh_scorer (w : World Z string Z) (gs : list (Gateway Z))
    : list (Gateway Z) :=
  map (fun g => gw (url g) (score g) false) gs.

Definition env_fresh : Environment Z string Z := {|
  score_gt := Z.gtb;
  score_eq := Z.eqb;
  GATEWAY_MIN_SCORE := 0;
  gateway_api_get_tasks := transport;
  gateway_api_add_result := submit;
  gateway_scorer_score := fresh_scorer;
  rd_randbelow := fun w n => Nat.modulo (List.length (history w)) n
|}.

(** A transport client whose host ["a"] has no work, and whose other hosts
    bring one task along with a list that has ["a"] disabled. *)
Definition relay (w : World Z string Z) (host hotkey : string) (n : Z)
    : Outcome (GetGatewayTasksResult Z) :=
  if String.eqb host "a" then
    Returns {| tasks := []; gateways := [gw "a" 5 false; gw "b" 1 false] |}
  else
    Returns {| tasks := [task1]; gateways := [gw "a" 5 true; gw "b" 1 false] |}.

Definition env_relay : Environment Z string Z := {|
  score_gt := Z.gtb;
  score_eq := Z.eqb;
  GATEWAY_MIN_SCORE := 0;
  gateway_api_get_tasks := relay;
  gateway_api_add_result := submit;
  gateway_scorer_score := fun _ gs => gs;
  rd_randbelow := fun w n => Nat.modulo (List.length (history w)) n
|}.

(** Two gateways under one url. *)
Definition w_twins : World Z string Z :=
  start [gw "down" 3 false; gw "down" 2 false].

(** Two cycles against the relaying transport: first host ["a"], which has
    no work, then host ["b"], which has. *)
Definition relay_cycle1 : Outcome (list GatewayTask) * World Z string Z :=
  get_tasks (env := env_relay) "a" "hk" 1 w_idle.

Definition relay_cycle2 : Outcome (list GatewayTask) * World Z string Z :=
  get_tasks (env := env_relay) "b" "hk" 1 (snd relay_cycle1).

End Counter.

(** ** More vocabulary: what a call leaves in the history *)

Section Traces.

Context {Score Keypair float : Type}.

(** The calls to the transport client's [get_tasks] among some events. *)
Fixpoint transport_calls (evs : list (Event Score Keypair float))
    : list (string * Keypair * Z * Outcome (GetGatewayTasksResult Score)) :=
  match evs with
  | [] => []
  | EvGetTasks host hotkey n out :: rest =>
      (host, hotkey, n, out) :: transport_calls rest
  | _ :: rest => transport_calls rest
  end.

(** The draws of the random source among some events. *)
Fixpoint draws (evs : list (Event Score Keypair float)) : list (nat * nat) :=
  match evs with
  | [] => []
  | EvRandBelow n k :: rest => (n, k) :: draws rest
  | _ :: rest => draws rest
  end.

(** The log records among some events. *)
Fixpoint log_records (evs : list (Event Score Keypair float))
    : list (LogRecord Score) :=
  match evs with
  | [] => []
  | EvLog r :: rest => r :: log_records rest
  | _ :: rest => log_records rest
  end.

(** How many gateways of a list are disabled; whether one has the url. *)
Definition count_disabled (gs : list (Gateway Score)) : nat :=
  List.length (filter (@disabled Score) gs).

Definition has_url (target : string) (gs : list (Gateway Score)) : bool :=
  existsb (fun g => String.eqb (url g) target) gs.

End Traces.

(** More worlds of the concrete environment. *)

Module MoreExample.

Import Example.
Local Open Scope string_scope.
Local Open Scope Z_scope.

Definition w_ties : World Z string Z :=
  start [gw "a" 2 false; gw "b" 7 true; gw "c" 7 false].

End MoreExample.

(** ** The load-test script [resources/test.py]

    The functions of the script that compute: the request headers, the
    sampling of prompts, the reduction of a response, one post and the retry
    loop around it.  What the script takes from libraries is a field of the
    class [ScriptEnv]: the JSON parser, the splitting of a url, the
    encoding of the payload, the construction of a request, the network, the
    random sources, the sleeping.  The network, [random.random] and
    [time.sleep] answer according to the events so far, and each call of
    them is recorded as an event, a sleep that raises included.  Every
    exception of the model is an instance of Python's [Exception]. *)

From Stdlib Require Import Permutation.

Module LoadTest.

Local Open Scope string_scope.
Local Open Scope list_scope.

(** A Python value as [json.loads] builds it.  A [dict] is the list of its
    items in insertion order, each key once. *)
#[local] Unset Elimination Schemes.
Inductive PyValue (float : Type) : Type :=
| PNone
| PBool (b : bool)
| PInt (z : Z)
| PFloat (f : float)
| PStr (s : string)
| PList (items : list (PyValue float))
| PDict (items : list (string * PyValue float)).
#[local] Set Elimination Schemes.
Arguments PNone {float}.
Arguments PBool {float} b.
Arguments PInt {float} z.
Arguments PFloat {float} f.
Arguments PStr {float} s.
Arguments PList {float} items.
Arguments PDict {float} items.

(** [d.get(k)] on a dict: the value under the key, [None] without it. *)
Fixpoint dict_get {float : Type} (d : list (string * PyValue float)) (k : string)
    : PyValue float :=
  match d with
  | [] => PNone
  | (k', v) :: rest => if String.eqb k' k then v else dict_get rest k
  end.

(** [seq[i]] on a list, negative indices counting from the end. *)
Definition py_getitem {A : Type} (l : list A) (i : Z) : Outcome A :=
  let len := Z.of_nat (List.length l) in
  let j := if (i <? 0)%Z then (len + i)%Z else i in
  if ((0 <=? j) && (j <? len))%Z then
    match nth_error l (Z.to_nat j) with
    | Some x => Returns x
    | None => Raises (IndexError "list index out of range")
    end
  else Raises (IndexError "list index out of range").

(** [range(n)] *)
Definition py_range (n : Z) : list Z :=
  map Z.of_nat (seq 0 (Z.to_nat n)).

(** Sequencing of expressions that may raise. *)
Definition and_then {A B : Type} (o : Outcome A) (k : A -> Outcome B) : Outcome B :=
  match o with
  | Returns a => k a
  | Raises e => Raises e
  end.

(** A request as the script builds it: the url, the payload, the method
    and the headers in the order they are added. *)
Record Request : Type := mkRequest {
  req_url : string;
  req_data : string;
  req_method : string;
  req_headers : list (string * string)
}.

(** What the [try] block of [post_prompt] runs into: the body read and
    decoded, an [HTTPError] (its [code] attribute or [None], and what
    reading its body gives), or any other exception. *)
Inductive Fetch (float : Type) : Type :=
| FetchBody (body : string)
| FetchHTTPError (code : PyValue float) (raw : Outcome string)
| FetchFailed (e : Exception).
Arguments FetchBody {float} body.
Arguments FetchHTTPError {float} code raw.
Arguments FetchFailed {float} e.

(** The argument of a [time.sleep]: [0.25 + r * 0.25] for a draw [r], or
    [backoff_s * (2 ** attempt)]. *)
Inductive Duration (float : Type) : Type :=
| Jitter (r : float)
| Backoff (backoff_s : float) (attempt : Z).
Arguments Jitter {float} r.
Arguments Backoff {float} backoff_s attempt.

Inductive SEvent (float : Type) : Type :=
| SUrlopen (req : Request) (timeout : float) (out : Fetch float)
| SRandom (r : float)
| SSleep (d : Duration float).
Arguments SUrlopen {float} req timeout out.
Arguments SRandom {float} r.
Arguments SSleep {float} d.

Class ScriptEnv (float : Type) : Type := {
  (** [f == 0] and [f == z] for a float [f] and an int [z] *)
  float_is_zero : float -> bool;
  float_eq_int : float -> Z -> bool;
  (** [json.loads(body)] *)
  json_loads : string -> Outcome (PyValue float);
  (** [repr(e)] *)
  py_repr : Exception -> string;
  (** [parse.urlencode({"prompt": prompt}).encode("utf-8")]: the payload,
      or the exception of a prompt that cannot be encoded *)
  encode_payload : string -> Outcome string;
  (** [urlsplit(url)]: scheme and netloc *)
  urlsplit : string -> Outcome (string * string);
  (** [request.Request(url, data=payload, method="POST")] *)
  new_request : string -> Outcome unit;
  (** the [try] block around [request.urlopen(req, timeout=timeout)] *)
  urlopen : list (SEvent float) -> Request -> float -> Fetch float;
  (** [random.random()] *)
  random_random : list (SEvent float) -> float;
  (** [time.sleep(d)], the evaluation of its argument included: it raises
      for a negative length, for one that is not a number or too large *)
  time_sleep : list (SEvent float) -> Duration float -> Outcome unit;
  (** [random.Random(seed)]: [shuffle] and [sample] *)
  rnd_shuffle : option Z -> list string -> list string;
  rnd_sample : option Z -> list string -> Z -> Outcome (list string)
}.

Definition DEFAULT_URL : string :=
  "https://3z9vr1u26myyp0-10006.proxy.runpod.net/generate_and_validate/".

Definition BROWSER_UAS : list string := [
  "Mozilla/5.0 (Windows NT 10.0; Win64; x64) AppleWebKit/537.36 (KHTML, like Gecko) Chrome/125.0.0.0 Safari/537.36";
  "Mozilla/5.0 (Macintosh; Intel Mac OS X 13_6) AppleWebKit/605.1.15 (KHTML, like Gecko) Version/17.4 Safari/605.1.15";
  "Mozilla/5.0 (X11; Linux x86_64) AppleWebKit/537.36 (KHTML, like Gecko) Chrome/124.0.0.0 Safari/537.36"
].

Section Script.

Context {float : Type} {env : ScriptEnv float}.

Abbreviation value := (PyValue float).
Abbreviation dict := (list (string * PyValue float)).

(** The truth value of a Python value. *)
Definition truthy (v : value) : bool :=
  match v with
  | PNone => false
  | PBool b => b
  | PInt z => negb (z =? 0)%Z
  | PFloat f => negb (float_is_zero f)
  | PStr s => negb (String.eqb s "")
  | PList items => negb (py_not items)
  | PDict items => negb (py_not items)
  end.

(** [a or b] *)
Definition py_or (a b : value) : value := if truthy a then a else b.

(** [v == z] for an int [z]. *)
Definition py_eq_int (v : value) (z : Z) : bool :=
  match v with
  | PInt x => (x =? z)%Z
  | PBool b => ((if b then 1 else 0) =? z)%Z
  | PFloat f => float_eq_int f z
  | _ => false
  end.

(** [v.get(k)]: only a dict has the method. *)
Definition py_get (v : value) (k : string) : Outcome value :=
  match v with
  | PDict items => Returns (dict_get items k)
  | _ => Raises (PyException "AttributeError" "object has no attribute 'get'")
  end.

Definition _browserish_headers (url : string) (ua_idx : Z)
    : Outcome (list (string * string)) :=
  and_then (urlsplit url) (fun parts =>
  let origin := (fst parts ++ "://" ++ snd parts)%string in
  and_then (py_getitem BROWSER_UAS (ua_idx mod Z.of_nat (List.length BROWSER_UAS)))
    (fun ua =>
  Returns [
    ("User-Agent", ua);
    ("Accept", "text/html,application/xhtml+xml,application/xml;q=0.9,application/json;q=0.8,*/*;q=0.7");
    ("Accept-Language", "en-US,en;q=0.9");
    ("Referer", (origin ++ "/")%string);
    ("Origin", origin);
    ("Connection", "keep-alive");
    ("Content-Type", "application/x-www-form-urlencoded")
  ])).

Definition sample_prompts (lines : list string) (n : Z) (seed : option Z)
    : Outcome (list string) :=
  if py_not lines then Returns []
  else if (n >=? Z.of_nat (List.length lines))%Z then Returns (rnd_shuffle seed lines)
  else rnd_sample seed lines n.

(** The [try] block of [_reduce_response]. *)
Definition reduce_body (prompt body : string) : Outcome (string * dict) :=
  and_then (json_loads body) (fun d =>
  and_then (py_get d "gen") (fun gen0 =>
  let gen := py_or gen0 (PDict []) in
  and_then (py_get d "validation") (fun val0 =>
  let val := py_or val0 (PDict []) in
  and_then (py_get gen "score") (fun clip =>
  and_then (py_get gen "attempts") (fun attempts =>
  and_then (py_get gen "elapsed_s") (fun elapsed_s =>
  and_then (py_get val "score") (fun validation_score =>
  and_then (py_get val "iqa") (fun iqa =>
  and_then (py_get val "alignment_score") (fun alignment_score =>
  and_then (py_get val "ssim") (fun ssim =>
  and_then (py_get val "lpips") (fun lpips =>
  Returns (prompt, [
    ("prompt", PStr prompt);
    ("clip", clip);
    ("attempts", attempts);
    ("elapsed_s", elapsed_s);
    ("validation_score", validation_score);
    ("iqa", iqa);
    ("alignment_score", alignment_score);
    ("ssim", ssim);
    ("lpips", lpips)
  ])))))))))))).

Definition _reduce_response (prompt body : string) : Outcome (string * dict) :=
  match reduce_body prompt body with
  | Returns r => Returns r
  | Raises _ =>
      Returns (prompt, [("prompt", PStr prompt); ("error", PBool true);
                        ("response_raw", PStr body)])
  end.

(** A computation of the script: from the events so far to an outcome and
    the events then. *)
Definition Run (A : Type) : Type := list (SEvent float) -> Outcome A * list (SEvent float).

Definition post_prompt (url prompt : string) (timeout : float) (ua_idx : Z)
    : Run (string * dict) :=
  fun h =>
    match encode_payload prompt with
    | Raises e => (Raises e, h)
    | Returns payload =>
    match new_request url with
    | Raises e => (Raises e, h)
    | Returns _ =>
        match _browserish_headers url ua_idx with
        | Raises e => (Raises e, h)
        | Returns headers =>
            let req := {| req_url := url;
                          req_data := payload;
                          req_method := "POST";
                          req_headers := headers |} in
            let out := urlopen h req timeout in
            let h' := h ++ [SUrlopen req timeout out] in
            match out with
            | FetchBody body =>
                match _reduce_response prompt body with
                | Returns r => (Returns r, h')
                | Raises e =>
                    (Returns (prompt, [("prompt", PStr prompt); ("error", PBool true);
                                       ("exception", PStr (py_repr e))]), h')
                end
            | FetchHTTPError code raw =>
                match raw with
                | Raises e => (Raises e, h')
                | Returns text =>
                    (Returns (prompt, [("prompt", PStr prompt); ("error", PBool true);
                                       ("status", code); ("response_raw", PStr text)]), h')
                end
            | FetchFailed e =>
                (Returns (prompt, [("prompt", PStr prompt); ("error", PBool true);
                                   ("exception", PStr (py_repr e))]), h')
            end
        end
    end
    end.

(** [time.sleep(d)]: the call is recorded, and it may raise. *)
Definition sleep (d : Duration float) : Run unit :=
  fun h => (time_sleep h d, h ++ [SSleep d]).

(** Lines 112-116, after a failed attempt: a jitter after a 403 and then
    the backoff, both only while attempts are left.  A sleep that raises
    ends them. *)
Definition pause_after (out : dict) (attempt retries : Z) (backoff_s : float)
    : Run unit :=
  fun h =>
    let jittered :=
      if (py_eq_int (dict_get out "status") 403 && (attempt <? retries)%Z)%bool
      then let r := random_random h in sleep (Jitter r) (h ++ [SRandom r])
      else (Returns tt, h) in
    match jittered with
    | (Raises e, h1) => (Raises e, h1)
    | (Returns _, h1) =>
        if (attempt <? retries)%Z then sleep (Backoff backoff_s attempt) h1
        else (Returns tt, h1)
    end.

(** The [for] loop of [post_with_retries] over the attempts still to make;
    [last] holds the locals [pr] and [out] once they are bound.  An
    exception of [post_prompt] or of a sleep leaves the loop. *)
Fixpoint attempt_loop (url prompt : string) (timeout : float) (retries : Z)
    (backoff_s : float) (attempts : list Z) (last : option (string * dict))
    : Run (string * dict) :=
  fun h =>
    match attempts with
    | [] =>
        match last with
        | Some r => (Returns r, h)
        | None =>
            (Raises (PyException "UnboundLocalError"
                       "cannot access local variable 'pr' where it is not associated with a value"),
             h)
        end
    | attempt :: rest =>
        match post_prompt url prompt timeout attempt h with
        | (Raises e, h1) => (Raises e, h1)
        | (Returns (pr, out), h1) =>
            if negb (truthy (dict_get out "error")) then (Returns (pr, out), h1)
            else
              match pause_after out attempt retries backoff_s h1 with
              | (Raises e, h2) => (Raises e, h2)
              | (Returns _, h2) =>
                  attempt_loop url prompt timeout retries backoff_s rest
                    (Some (pr, out)) h2
              end
        end
    end.

Definition post_with_retries (url prompt : string) (timeout : float) (retries : Z)
    (backoff_s : float) : Run (string * dict) :=
  attempt_loop url prompt timeout retries backoff_s (py_range (retries + 1)) None.

End Script.

(** *** Vocabulary for the script *)

Section Observations.

Context {float : Type} {env : ScriptEnv float}.

(** A value [_reduce_response] can read a section from: a dict, or anything
    falsy, which [or] replaces by the empty dict. *)
Definition usable (v : PyValue float) : bool :=
  match v with
  | PDict _ => true
  | _ => negb (truthy v)
  end.

(** The items read from such a value. *)
Definition fields_of (v : PyValue float) : list (string * PyValue float) :=
  match v with
  | PDict items => items
  | _ => []
  end.

(** A body whose JSON is an object with usable ["gen"] and ["validation"]. *)
Definition reducible (body : string) : bool :=
  match json_loads body with
  | Returns (PDict d) => usable (dict_get d "gen") && usable (dict_get d "validation")
  | _ => false
  end.

(** The sections of a body whose JSON is an object. *)
Definition section (body key : string) : list (string * PyValue float) :=
  match json_loads body with
  | Returns (PDict d) => fields_of (dict_get d key)
  | _ => []
  end.

(** The header of a name among the headers of a request. *)
Fixpoint header_get (headers : list (string * string)) (name : string) : option string :=
  match headers with
  | [] => None
  | (k, v) :: rest => if String.eqb k name then Some v else header_get rest name
  end.

(** The user agent the pool holds for an attempt. *)
Definition ua_at (attempt : Z) : option string :=
  nth_error BROWSER_UAS (Z.to_nat (attempt mod 3)).

(** The posts among some events, oldest first; the attempts of the backoff
    sleeps; the draws slept as jitter; the draws made. *)
Fixpoint posts (evs : list (SEvent float)) : list (Request * Fetch float) :=
  match evs with
  | [] => []
  | SUrlopen req _ out :: rest => (req, out) :: posts rest
  | _ :: rest => posts rest
  end.

Fixpoint backoffs (evs : list (SEvent float)) : list (float * Z) :=
  match evs with
  | [] => []
  | SSleep (Backoff b a) :: rest => (b, a) :: backoffs rest
  | _ :: rest => backoffs rest
  end.

Fixpoint jitters (evs : list (SEvent float)) : list float :=
  match evs with
  | [] => []
  | SSleep (Jitter r) :: rest => r :: jitters rest
  | _ :: rest => jitters rest
  end.

Fixpoint randoms (evs : list (SEvent float)) : list float :=
  match evs with
  | [] => []
  | SRandom r :: rest => r :: randoms rest
  | _ :: rest => randoms rest
  end.

(** A post answered by an [HTTPError] whose code compares equal to 403. *)
Definition is_403 (p : Request * Fetch float) : bool :=
  match snd p with
  | FetchHTTPError code _ => py_eq_int code 403
  | _ => false
  end.

(** The sleeps among some events, oldest first, those that raised
    included. *)
Fixpoint sleeps (evs : list (SEvent float)) : list (Duration float) :=
  match evs with
  | [] => []
  | SSleep d :: rest => d :: sleeps rest
  | _ :: rest => sleeps rest
  end.

(** The prompt can be encoded. *)
Definition encodable (prompt : string) : Prop :=
  exists payload, encode_payload prompt = Returns payload.

(** No sleep raises. *)
Definition sleeps_return : Prop :=
  forall h d, time_sleep h d = Returns tt.

(** The url can be made into a request and split. *)
Definition url_accepted (url : string) : Prop :=
  (exists u, new_request url = Returns u) /\ (exists parts, urlsplit url = Returns parts).

(** The body of every [HTTPError] can be read. *)
Definition errors_readable : Prop :=
  forall h req timeout code e, urlopen h req timeout <> FetchHTTPError code (Raises e).

(** What the library promises of [shuffle] and [sample]: a shuffle is a
    permutation; a sample of [k] items, [k] from 0 to the length, is a list
    of [k] items of the population, and any other [k] raises [ValueError]. *)
Definition random_contract : Prop :=
  (forall seed l, Permutation l (rnd_shuffle seed l)) /\
  (forall seed l k, (0 <= k <= Z.of_nat (List.length l))%Z ->
     exists r, rnd_sample seed l k = Returns r /\
               List.length r = Z.to_nat k /\ (forall x, In x r -> In x l)) /\
  (forall seed l k, (k < 0 \/ Z.of_nat (List.length l) < k)%Z ->
     exists msg, rnd_sample seed l k = Raises (ValueError msg)).

End Observations.

End LoadTest.

(** *** A concrete script environment

    The service answers the first two posts with a 403 and a 500 and the
    third with a result.  One prompt stands for those that cannot be
    encoded, and a sleep raises for a negative backoff. *)

Module ScriptExample.

Import LoadTest.
Local Open Scope string_scope.
Local Open Scope list_scope.
Local Open Scope Z_scope.

Definition parse (body : string) : Outcome (PyValue Z) :=
  if String.eqb body "ok" then
    Returns (PDict [("gen", PDict [("score", PInt 31); ("attempts", PInt 2)]);
                    ("validation", PNone);
                    ("error", PStr "late")])
  else if String.eqb body "list" then Returns (PList [PInt 1])
  else if String.eqb body "odd" then Returns (PDict [("gen", PStr "x")])
  else Raises (ValueError "Expecting value").

Definition network (h : list (SEvent Z)) (req : Request) (timeout : Z) : Fetch Z :=
  match List.length h with
  | O => FetchHTTPError (PInt 403) (Returns "blocked")
  | 4%nat => FetchHTTPError (PInt 500) (Returns "oops")
  | _ => FetchBody "ok"
  end.

Definition lone_surrogate : string := "\udc80".

Definition encode (prompt : string) : Outcome string :=
  if String.eqb prompt lone_surrogate then
    Raises (PyException "UnicodeEncodeError" "surrogates not allowed")
  else Returns ("prompt=" ++ prompt)%string.

Definition doze (h : list (SEvent Z)) (d : Duration Z) : Outcome unit :=
  match d with
  | Jitter _ => Returns tt
  | Backoff backoff_s _ =>
      if backoff_s <? 0 then Raises (ValueError "sleep length must be non-negative")
      else Returns tt
  end.

Definition env : ScriptEnv Z := {|
  float_is_zero := fun f => f =? 0;
  float_eq_int := fun f z => f =? z;
  json_loads := parse;
  py_repr := fun _ => "Exception()";
  encode_payload := encode;
  urlsplit := fun u => Returns ("https", "example.org");
  new_request := fun u => Returns tt;
  urlopen := network;
  random_random := fun h => 0;
  time_sleep := doze;
  rnd_shuffle := fun seed l => rev l;
  rnd_sample := fun seed l k =>
    if ((k <? 0) || (Z.of_nat (List.length l) <? k))%bool
    then Raises (ValueError "Sample larger than population or is negative")
    else Returns (firstn (Z.to_nat k) l)
|}.

End ScriptExample.


(** ** Properties *)

Unset Implicit Arguments.

Section Properties.

Context {Score Keypair float : Type} {env : Environment Score Keypair float}.

Implicit Types (w : World Score Keypair float) (gs : list (Gateway Score))
  (g : Gateway Score) (target : string) (hotkey : Keypair) (n : Z).

(** *** How the computations run *)

Lemma for_each_log_run gs w :
  for_each gs (fun g => log (GatewayUpdated g)) w =
  (Returns tt,
   mkWorld (_gateways w) (history w ++ map (fun g => EvLog (GatewayUpdated g)) gs)).
Proof.
  revert w; induction gs as [|g gs IH]; intros w; simpl.
  - unfold ret. rewrite app_nil_r. destruct w; reflexivity.
  - unfold bind, log, emit. rewrite IH. simpl.
    rewrite <- app_assoc. reflexivity.
Qed.

Lemma _update_gateways_run gs w :
  _update_gateways gs w =
  (Returns tt,
   mkWorld (gateway_scorer_score w gs)
     (history w ++ EvScore gs (gateway_scorer_score w gs)
        :: map (fun g => EvLog (GatewayUpdated g)) (gateway_scorer_score w gs))).
Proof.
  unfold _update_gateways, bind, call_scorer_score, set_gateways, get_gateways.
  simpl. rewrite for_each_log_run. simpl.
  rewrite <- app_assoc. reflexivity.
Qed.

Lemma fetch_step_returns target hotkey n w res :
  gateway_api_get_tasks (at_transport w) target hotkey n = Returns res ->
  fetch_step target hotkey n w =
  (Returns (tasks res),
   mkWorld (gateways res) (history w ++ [EvGetTasks target hotkey n (Returns res)])).
Proof.
  intros Hout.
  unfold fetch_step, try_except_Http3, bind, get_gateways, set_gateways,
    call_api_get_tasks, ret. simpl.
  fold (at_transport w). rewrite Hout. reflexivity.
Qed.

Lemma fetch_step_http3 target hotkey n w e :
  gateway_api_get_tasks (at_transport w) target hotkey n = Raises e ->
  is_Http3Exception e = true ->
  fetch_step target hotkey n w =
  (Returns [],
   mkWorld (reset_disabled (_gateways w))
     (history w ++ [EvGetTasks target hotkey n (Raises e); EvLog (FailedFetching e)])).
Proof.
  intros Hout He.
  unfold fetch_step, try_except_Http3, bind, get_gateways, set_gateways,
    call_api_get_tasks, ret, log, emit. simpl.
  fold (at_transport w). rewrite Hout, He. simpl.
  rewrite <- app_assoc. reflexivity.
Qed.

Lemma fetch_step_other target hotkey n w e :
  gateway_api_get_tasks (at_transport w) target hotkey n = Raises e ->
  is_Http3Exception e = false ->
  fetch_step target hotkey n w =
  (Raises e,
   mkWorld (reset_disabled (_gateways w))
     (history w ++ [EvGetTasks target hotkey n (Raises e)])).
Proof.
  intros Hout He.
  unfold fetch_step, try_except_Http3, bind, get_gateways, set_gateways,
    call_api_get_tasks, ret. simpl.
  fold (at_transport w). rewrite Hout, He. reflexivity.
Qed.


Lemma after_disable_empty target w :
  after_disable target [] w =
  mkWorld (disable_url target (_gateways w))
    (history w ++ [EvLog (GatewayDisabled target)]).
Proof. reflexivity. Qed.

Lemma after_disable_nonempty target t ts w :
  after_disable target (t :: ts) w = w.
Proof. reflexivity. Qed.

Lemma after_update_run w :
  after_update w =
  mkWorld (gateway_scorer_score w (_gateways w))
    (history w ++ EvScore (_gateways w) (gateway_scorer_score w (_gateways w))
       :: map (fun g => EvLog (GatewayUpdated g)) (gateway_scorer_score w (_gateways w))).
Proof. unfold after_update. rewrite _update_gateways_run. reflexivity. Qed.

Lemma disable_step_returns target fetched w :
  disable_step target fetched w = (Returns tt, after_disable target fetched w).
Proof. destruct fetched; reflexivity. Qed.

(** [get_tasks] is the fetch step followed, when that step does not raise,
    by the disable step and the re-scoring. *)
Lemma get_tasks_run target hotkey n w :
  get_tasks target hotkey n w =
  match fetch_step target hotkey n w with
  | (Returns fetched, w1) =>
      (Returns fetched, after_update (after_disable target fetched w1))
  | (Raises e, w1) => (Raises e, w1)
  end.
Proof.
  unfold get_tasks, bind at 1.
  destruct (fetch_step target hotkey n w) as [[fetched|e] w1]; [|reflexivity].
  unfold bind at 1. rewrite disable_step_returns.
  unfold bind, get_gateways. unfold after_update.
  destruct (_update_gateways _ _) as [[[]|e] w3] eqn:Hupd; simpl.
  - reflexivity.
  - rewrite _update_gateways_run in Hupd. discriminate.
Qed.


(** *** Lists of gateways *)

Lemma reset_disabled_cleared gs :
  Forall (fun g => disabled g = false) (reset_disabled gs).
Proof.
  unfold reset_disabled. apply Forall_forall. intros g Hin.
  apply in_map_iff in Hin. destruct Hin as [g0 [<- _]]. reflexivity.
Qed.

Lemma reset_disabled_fixed gs :
  reset_disabled gs = gs -> Forall (fun g => disabled g = false) gs.
Proof.
  intros Heq. rewrite <- Heq. apply reset_disabled_cleared.
Qed.

Lemma disable_url_absent target gs :
  (forall g, In g gs -> url g <> target) -> disable_url target gs = gs.
Proof.
  induction gs as [|g gs IH]; intros Habs; simpl; [reflexivity|].
  destruct (String.eqb_spec (url g) target) as [Heq|Hne].
  - exfalso. apply (Habs g); [left; reflexivity | exact Heq].
  - rewrite IH; [reflexivity|]. intros g' Hin. apply Habs. right. exact Hin.
Qed.

(** The first gateway with the url gets the flag; the others are as before. *)
Lemma disable_url_first target pre g post :
  (forall x, In x pre -> url x <> target) -> url g = target ->
  disable_url target (pre ++ g :: post) = pre ++ set_disabled true g :: post.
Proof.
  intros Hpre Hg. induction pre as [|x pre IH]; simpl.
  - rewrite Hg, String.eqb_refl. reflexivity.
  - destruct (String.eqb_spec (url x) target) as [Heq|Hne].
    + exfalso. apply (Hpre x); [left; reflexivity | exact Heq].
    + rewrite IH; [reflexivity|]. intros y Hy. apply Hpre. right. exact Hy.
Qed.

Lemma disable_url_In target gs g :
  In g (disable_url target gs) ->
  In g gs \/ (url g = target /\ disabled g = true).
Proof.
  induction gs as [|g0 gs IH]; simpl; [tauto|].
  destruct (String.eqb_spec (url g0) target) as [Heq|Hne]; simpl.
  - intros [<-|Hin]; [right; split; [exact Heq | reflexivity] | left; right; exact Hin].
  - intros [<-|Hin]; [left; left; reflexivity|].
    destruct (IH Hin) as [H|H]; [left; right; exact H | right; exact H].
Qed.

Lemma disable_url_target target gs g :
  unique_urls gs -> In g (disable_url target gs) -> url g = target ->
  disabled g = true.
Proof.
  unfold unique_urls.
  induction gs as [|g0 gs IH]; simpl; [tauto|].
  intros Hnd Hin Hg. apply NoDup_cons_iff in Hnd. destruct Hnd as [Hnotin Hnd].
  destruct (String.eqb_spec (url g0) target) as [Heq|Hne].
  - destruct Hin as [<-|Hin]; [reflexivity|].
    exfalso. apply Hnotin. rewrite Heq, <- Hg. apply in_map. exact Hin.
  - destruct Hin as [<-|Hin]; [congruence|]. apply IH; assumption.
Qed.

(** *** Events *)

Lemma score_calls_app (evs1 evs2 : list (Event Score Keypair float)) :
  score_calls (evs1 ++ evs2) = score_calls evs1 ++ score_calls evs2.
Proof.
  induction evs1 as [|ev evs1 IH]; simpl; [reflexivity|].
  destruct ev; simpl; rewrite IH; reflexivity.
Qed.

Lemma score_calls_updated gs :
  score_calls (map (fun g => @EvLog Score Keypair float (GatewayUpdated g)) gs) = [].
Proof. induction gs as [|g gs IH]; simpl; [reflexivity | exact IH]. Qed.

(** What the disable step and the re-scoring append to the history, and the
    one call to the scorer in it. *)
Lemma after_steps_history target fetched w1 :
  exists evs,
    history (after_update (after_disable target fetched w1)) = history w1 ++ evs /\
    score_calls evs =
      [(_gateways (after_disable target fetched w1),
        _gateways (after_update (after_disable target fetched w1)))].
Proof.
  rewrite after_update_run. simpl.
  destruct fetched as [|t ts].
  - rewrite after_disable_empty. simpl.
    eexists. split.
    + rewrite <- app_assoc. simpl. reflexivity.
    + simpl. rewrite score_calls_updated. reflexivity.
  - rewrite after_disable_nonempty.
    eexists. split; [reflexivity|].
    simpl. rewrite score_calls_updated. reflexivity.
Qed.


(** *** [get_tasks] *)

(** The fetch step yields an empty task list in exactly two ways: the
    transport client returned no task, or it raised a transport error. *)
Lemma fetch_step_empty_cases target hotkey n w w1 :
  fetch_step target hotkey n w = (Returns [], w1) ->
  (exists res,
     gateway_api_get_tasks (at_transport w) target hotkey n = Returns res /\
     tasks res = [] /\ _gateways w1 = gateways res) \/
  (exists e,
     gateway_api_get_tasks (at_transport w) target hotkey n = Raises e /\
     is_Http3Exception e = true /\ _gateways w1 = reset_disabled (_gateways w)).
Proof.
  intros Hfetch.
  destruct (gateway_api_get_tasks (at_transport w) target hotkey n) as [res|e] eqn:Hout.
  - left. exists res. rewrite (fetch_step_returns _ _ _ _ _ Hout) in Hfetch.
    inversion Hfetch; subst. auto.
  - right. exists e. destruct (is_Http3Exception e) eqn:He.
    + rewrite (fetch_step_http3 _ _ _ _ _ Hout He) in Hfetch.
      inversion Hfetch; subst. auto.
    + rewrite (fetch_step_other _ _ _ _ _ Hout He) in Hfetch. discriminate.
Qed.

Lemma disable_url_keeps target gs g :
  In g gs -> url g <> target -> In g (disable_url target gs).
Proof.
  induction gs as [|g0 gs IH]; simpl; [tauto|].
  intros [->|Hin] Hne.
  - destruct (String.eqb_spec (url g) target); [contradiction | left; reflexivity].
  - destruct (String.eqb_spec (url g0) target); right; auto.
Qed.

(** C1.  Let a call of [get_tasks] return the empty task list.  Then the
    transport client either returned no task or raised a transport error, and
    the final list is the scorer's answer on the list of the disable step
    with the first gateway under the target url disabled.  When the urls at
    the disable step are unique, every gateway under the target url is
    disabled in what the scorer is handed, and so is every gateway under the
    target url in the final list that the scorer returned with the flag its
    url had in that input (there is none when the scorer left the url out).
    When no gateway has the url at the disable step, the step leaves the
    list as it is. *)
Theorem get_tasks_empty_disables_target target hotkey n w w' :
  get_tasks target hotkey n w = (Returns [], w') ->
  ((exists res,
      gateway_api_get_tasks (at_transport w) target hotkey n = Returns res /\
      tasks res = [] /\ _gateways (at_disable target hotkey n w) = gateways res) \/
   (exists e,
      gateway_api_get_tasks (at_transport w) target hotkey n = Raises e /\
      is_Http3Exception e = true /\
      _gateways (at_disable target hotkey n w) = reset_disabled (_gateways w))) /\
  _gateways w' =
    gateway_scorer_score (after_disable target [] (at_disable target hotkey n w))
      (disable_url target (_gateways (at_disable target hotkey n w))) /\
  (forall pre g post,
     _gateways (at_disable target hotkey n w) = pre ++ g :: post ->
     (forall x, In x pre -> url x <> target) -> url g = target ->
     disable_url target (_gateways (at_disable target hotkey n w)) =
     pre ++ set_disabled true g :: post) /\
  (unique_urls (_gateways (at_disable target hotkey n w)) ->
   (forall g, In g (disable_url target (_gateways (at_disable target hotkey n w))) ->
              url g = target -> disabled g = true) /\
   (forall g', In g' (_gateways w') -> url g' = target ->
               flag_carried_over
                 (disable_url target (_gateways (at_disable target hotkey n w))) g' ->
               disabled g' = true)) /\
  ((forall g, In g (_gateways (at_disable target hotkey n w)) -> url g <> target) ->
   _gateways (after_disable target [] (at_disable target hotkey n w)) =
   _gateways (at_disable target hotkey n w)).
Proof.
  intros Hrun. unfold at_disable in *.
  rewrite get_tasks_run in Hrun.
  destruct (fetch_step target hotkey n w) as [[fetched|e] w1] eqn:Hfetch;
    [|discriminate].
  inversion Hrun; subst fetched w'. clear Hrun. simpl snd in *.
  split; [exact (fetch_step_empty_cases target hotkey n w w1 Hfetch)|].
  rewrite after_update_run, after_disable_empty. simpl.
  split; [reflexivity|]. split; [|split].
  - intros pre g post -> Hpre Hg. apply disable_url_first; assumption.
  - intros Huniq.
    split; [intros g; exact (disable_url_target target (_gateways w1) g Huniq)|].
    intros g' _ Hurl [g [Hg [Hu Hd]]].
    rewrite <- Hd. apply (disable_url_target target (_gateways w1) g Huniq); congruence.
  - apply disable_url_absent.
Qed.

(** C2.  Whenever the transport call returns (with or without tasks) or
    raises a transport error, [get_tasks] returns, and the events of the call
    hold exactly one call to the scorer: the one made in the world the
    disable step left, on the gateway list of that world, recorded with what
    the scorer answers there.  The gateway list afterwards is that answer,
    and [get_best_gateway] then runs on it. *)
Theorem get_tasks_scores_exactly_once target hotkey n w :
  (forall e, gateway_api_get_tasks (at_transport w) target hotkey n = Raises e ->
             is_Http3Exception e = true) ->
  exists fetched w' evs,
    get_tasks target hotkey n w = (Returns fetched, w') /\
    history w' = history w ++ evs /\
    score_calls evs =
      [(_gateways (after_disable target fetched (at_disable target hotkey n w)),
        gateway_scorer_score
          (after_disable target fetched (at_disable target hotkey n w))
          (_gateways (after_disable target fetched (at_disable target hotkey n w))))] /\
    _gateways w' =
      gateway_scorer_score
        (after_disable target fetched (at_disable target hotkey n w))
        (_gateways (after_disable target fetched (at_disable target hotkey n w))) /\
    get_best_gateway w' =
      get_best_gateway
        (mkWorld
           (gateway_scorer_score
              (after_disable target fetched (at_disable target hotkey n w))
              (_gateways (after_disable target fetched (at_disable target hotkey n w))))
           (history w')).
Proof.
  intros Hkind. rewrite get_tasks_run. unfold at_disable.
  assert (Hfetch : exists fetched w1 evs1,
             fetch_step target hotkey n w = (Returns fetched, w1) /\
             history w1 = history w ++ evs1 /\ score_calls evs1 = []).
  { destruct (gateway_api_get_tasks (at_transport w) target hotkey n) as [res|e] eqn:Hout.
    - rewrite (fetch_step_returns _ _ _ _ _ Hout). do 3 eexists.
      split; [reflexivity|]. split; reflexivity.
    - rewrite (fetch_step_http3 _ _ _ _ _ Hout (Hkind e eq_refl)). do 3 eexists.
      split; [reflexivity|]. split; reflexivity. }
  destruct Hfetch as [fetched [w1 [evs1 [-> [Hh1 Hs1]]]]].
  destruct (after_steps_history target fetched w1) as [evs2 [Hh2 Hs2]].
  exists fetched, (after_update (after_disable target fetched w1)), (evs1 ++ evs2).
  simpl snd.
  assert (Hfinal : _gateways (after_update (after_disable target fetched w1)) =
                   gateway_scorer_score (after_disable target fetched w1)
                     (_gateways (after_disable target fetched w1))).
  { rewrite after_update_run. reflexivity. }
  split; [reflexivity|]. split; [|split; [|split]].
  - rewrite Hh2, Hh1, app_assoc. reflexivity.
  - rewrite score_calls_app, Hs1, Hs2, Hfinal. reflexivity.
  - exact Hfinal.
  - rewrite <- Hfinal.
    destruct (after_update (after_disable target fetched w1)); reflexivity.
Qed.

(** C3.  When the transport call raises a transport error, the fetch step
    raises nothing: it yields the empty task list and leaves the gateway list
    exactly as it stood when the transport was called.  [get_tasks] then
    returns the empty list, and the final list is the scorer's answer on that
    list after the disable step. *)
Theorem get_tasks_absorbs_transport_error target hotkey n w msg :
  gateway_api_get_tasks (at_transport w) target hotkey n = Raises (Http3Exception msg) ->
  exists w1 w',
    fetch_step target hotkey n w = (Returns [], w1) /\
    _gateways w1 = _gateways (at_transport w) /\
    get_tasks target hotkey n w = (Returns [], w') /\
    w' = after_update (after_disable target [] w1) /\
    _gateways w' =
      gateway_scorer_score (after_disable target [] w1)
        (disable_url target (reset_disabled (_gateways w))).
Proof.
  intros Hout.
  pose proof (fetch_step_http3 _ _ _ _ _ Hout eq_refl) as Hfetch.
  eexists. eexists. split; [exact Hfetch|].
  split; [reflexivity|]. split; [rewrite get_tasks_run, Hfetch; reflexivity|].
  split; [reflexivity|].
  rewrite after_update_run, after_disable_empty. reflexivity.
Qed.

(** A gateway is disabled in the list the scorer of a returning call is
    handed for one of two reasons only: the call fetched no task and the
    gateway is under the target url, or the transport's own answer lists it.
    No flag of the list the call started with is among the reasons. *)
Lemma scorer_input_disabled target hotkey n w fetched w' :
  get_tasks target hotkey n w = (Returns fetched, w') ->
  forall g,
    In g (_gateways (after_disable target fetched (at_disable target hotkey n w))) ->
    disabled g = true ->
    (fetched = [] /\ url g = target) \/
    (exists res,
       gateway_api_get_tasks (at_transport w) target hotkey n = Returns res /\
       In g (gateways res)).
Proof.
  intros Hrun g Hin Hd. unfold at_disable in Hin. rewrite get_tasks_run in Hrun.
  destruct (gateway_api_get_tasks (at_transport w) target hotkey n) as [res|e] eqn:Hout.
  - rewrite (fetch_step_returns _ _ _ _ _ Hout) in Hrun, Hin.
    inversion Hrun; subst fetched. simpl snd in Hin.
    destruct (tasks res) as [|t ts].
    + rewrite after_disable_empty in Hin. simpl in Hin.
      destruct (disable_url_In _ _ _ Hin) as [Hold|[Hu _]].
      * right. exists res. auto.
      * left. auto.
    + rewrite after_disable_nonempty in Hin. right. exists res. auto.
  - destruct (is_Http3Exception e) eqn:He.
    + rewrite (fetch_step_http3 _ _ _ _ _ Hout He) in Hrun, Hin.
      inversion Hrun; subst fetched. simpl snd in Hin.
      rewrite after_disable_empty in Hin. simpl in Hin.
      destruct (disable_url_In _ _ _ Hin) as [Hold|[Hu _]]; [|left; auto].
      pose proof (reset_disabled_cleared (_gateways w)) as Hall.
      rewrite Forall_forall in Hall. rewrite (Hall g Hold) in Hd. discriminate.
    + rewrite (fetch_step_other _ _ _ _ _ Hout He) in Hrun. discriminate.
Qed.

(** The final list of a returning call is the scorer's answer, in the world
    the disable step left, on the list of that world. *)
Lemma get_tasks_final_list target hotkey n w fetched w' :
  get_tasks target hotkey n w = (Returns fetched, w') ->
  _gateways w' =
    gateway_scorer_score
      (after_disable target fetched (at_disable target hotkey n w))
      (_gateways (after_disable target fetched (at_disable target hotkey n w))).
Proof.
  intros Hrun. unfold at_disable. rewrite get_tasks_run in Hrun.
  destruct (fetch_step target hotkey n w) as [[fetched1|e] w1]; [|discriminate].
  inversion Hrun; subst. simpl snd. rewrite after_update_run. reflexivity.
Qed.

(** C4.  The transport client is consulted in a world that has the history
    of the start of the call and every flag cleared, and that consultation is
    the first event of the call.  Hence only flags set in this very call, or
    listed by the transport's answer to it, reach the scorer: after a
    transport error the scorer is handed the old list with no gateway
    disabled but one with the target url, every gateway under another url
    being there with its flag cleared whatever it was before the call; when
    tasks were fetched the scorer is handed the transport's list untouched;
    and in every returning call a gateway is disabled in what the scorer is
    handed only if the call fetched no task and the gateway is under the
    target url, or if the transport's answer lists it, the final list being
    the scorer's answer.  For two cycles: a gateway the earlier cycle left
    disabled is enabled when the later one consults the transport, and when
    the later cycle fetches tasks with an answer that lists no gateway as
    disabled, no gateway the scorer is handed is disabled. *)
Theorem get_tasks_resets_flags_first target hotkey n w :
  _gateways (at_transport w) = reset_disabled (_gateways w) /\
  Forall (fun g => disabled g = false) (_gateways (at_transport w)) /\
  history (at_transport w) = history w /\
  (exists later,
     history (snd (get_tasks target hotkey n w)) =
     history w ++
       EvGetTasks target hotkey n
         (gateway_api_get_tasks (at_transport w) target hotkey n) :: later) /\
  (forall e,
     gateway_api_get_tasks (at_transport w) target hotkey n = Raises e ->
     is_Http3Exception e = true ->
     exists evs input output,
       history (snd (get_tasks target hotkey n w)) = history w ++ evs /\
       score_calls evs = [(input, output)] /\
       input = disable_url target (reset_disabled (_gateways w)) /\
       (forall g, In g input -> disabled g = true -> url g = target) /\
       (forall g, In g (_gateways w) -> url g <> target ->
                  In (set_disabled false g) input)) /\
  (forall res,
     gateway_api_get_tasks (at_transport w) target hotkey n = Returns res ->
     tasks res <> [] ->
     exists evs output,
       history (snd (get_tasks target hotkey n w)) = history w ++ evs /\
       score_calls evs = [(gateways res, output)]) /\
  (forall fetched w',
     get_tasks target hotkey n w = (Returns fetched, w') ->
     _gateways w' =
       gateway_scorer_score
         (after_disable target fetched (at_disable target hotkey n w))
         (_gateways (after_disable target fetched (at_disable target hotkey n w))) /\
     (forall g,
        In g (_gateways (after_disable target fetched (at_disable target hotkey n w))) ->
        disabled g = true ->
        (fetched = [] /\ url g = target) \/
        (exists res,
           gateway_api_get_tasks (at_transport w) target hotkey n = Returns res /\
           In g (gateways res)))) /\
  (forall target0 hotkey0 n0 w0 g0,
     w = snd (get_tasks target0 hotkey0 n0 w0) ->
     In g0 (_gateways w) -> disabled g0 = true ->
     In (set_disabled false g0) (_gateways (at_transport w)) /\
     (forall fetched w' res,
        get_tasks target hotkey n w = (Returns fetched, w') ->
        fetched <> [] ->
        gateway_api_get_tasks (at_transport w) target hotkey n = Returns res ->
        Forall (fun g => disabled g = false) (gateways res) ->
        Forall (fun g => disabled g = false)
          (_gateways (after_disable target fetched (at_disable target hotkey n w))))).
Proof.
  split; [reflexivity|]. split; [apply reset_disabled_cleared|].
  split; [reflexivity|].
  split; [|split; [|split; [|split]]]; [rewrite get_tasks_run.. | |].
  - destruct (gateway_api_get_tasks (at_transport w) target hotkey n) as [res|e] eqn:Hout.
    + rewrite (fetch_step_returns _ _ _ _ _ Hout). simpl.
      destruct (after_steps_history target (tasks res)
                  (mkWorld (gateways res)
                     (history w ++ [EvGetTasks target hotkey n (Returns res)])))
        as [evs [-> _]].
      simpl. rewrite <- app_assoc. eexists. reflexivity.
    + destruct (is_Http3Exception e) eqn:He.
      * rewrite (fetch_step_http3 _ _ _ _ _ Hout He). simpl.
        destruct (after_steps_history target []
                    (mkWorld (reset_disabled (_gateways w))
                       (history w ++ [EvGetTasks target hotkey n (Raises e);
                                      EvLog (FailedFetching e)])))
          as [evs [-> _]].
        simpl. rewrite <- app_assoc. eexists. reflexivity.
      * rewrite (fetch_step_other _ _ _ _ _ Hout He). simpl.
        exists []. reflexivity.
  - intros e Hout He. rewrite (fetch_step_http3 _ _ _ _ _ Hout He). simpl.
    match goal with |- context [after_disable target [] ?w1] =>
      destruct (after_steps_history target [] w1) as [evs [Hh Hs]] end.
    rewrite Hh. simpl. rewrite <- app_assoc.
    do 3 eexists. split; [reflexivity|]. split.
    + rewrite score_calls_app. simpl. rewrite Hs. reflexivity.
    + split; [reflexivity|]. split.
      * intros g Hin Hd. simpl in Hin.
        destruct (disable_url_In _ _ _ Hin) as [Hold|[Hu _]]; [|exact Hu].
        pose proof (reset_disabled_cleared (_gateways w)) as Hall.
        rewrite Forall_forall in Hall. rewrite (Hall g Hold) in Hd. discriminate.
      * intros g Hin Hne. apply disable_url_keeps; [|exact Hne].
        unfold reset_disabled. apply in_map. exact Hin.
  - intros res Hout Htasks. rewrite (fetch_step_returns _ _ _ _ _ Hout). simpl.
    destruct (tasks res) as [|t ts] eqn:Ht; [congruence|].
    match goal with |- context [after_disable target (t :: ts) ?w1] =>
      destruct (after_steps_history target (t :: ts) w1) as [evs [Hh Hs]] end.
    rewrite Hh. simpl. rewrite <- app_assoc.
    do 2 eexists. split; [reflexivity|].
    rewrite score_calls_app. simpl. rewrite Hs. reflexivity.
  - intros fetched w' Hrun.
    split; [exact (get_tasks_final_list target hotkey n w fetched w' Hrun)|].
    exact (scorer_input_disabled target hotkey n w fetched w' Hrun).
  - intros target0 hotkey0 n0 w0 g0 _ Hin0 _. split.
    + unfold at_transport, reset_disabled. simpl. apply in_map. exact Hin0.
    + intros fetched w' res Hrun Hne Hout Hclean.
      apply Forall_forall. intros g Hin.
      destruct (disabled g) eqn:Hd; [|reflexivity].
      destruct (scorer_input_disabled target hotkey n w fetched w' Hrun g Hin Hd)
        as [[Hempty _]|[res' [Hout' Hres]]]; [contradiction|].
      rewrite Hout in Hout'. inversion Hout'; subst res'.
      rewrite Forall_forall in Hclean. rewrite (Hclean g Hres) in Hd. discriminate.
Qed.

(** C10.  When the transport call raises anything but a transport error,
    [get_tasks] raises that same exception.  The world it leaves has the
    gateway list with every flag cleared and, as only new event, the transport
    call: no disabling, no call to the scorer.  A flag that was set before the
    call is gone, so the list is not the one the call started with. *)
Theorem get_tasks_propagates_other_exceptions target hotkey n w e :
  gateway_api_get_tasks (at_transport w) target hotkey n = Raises e ->
  is_Http3Exception e = false ->
  exists w',
    get_tasks target hotkey n w = (Raises e, w') /\
    _gateways w' = reset_disabled (_gateways w) /\
    Forall (fun g => disabled g = false) (_gateways w') /\
    history w' = history w ++ [EvGetTasks target hotkey n (Raises e)] /\
    score_calls [@EvGetTasks Score Keypair float target hotkey n (Raises e)] = [] /\
    ((exists g, In g (_gateways w) /\ disabled g = true) ->
     _gateways w' <> _gateways w).
Proof.
  intros Hout He. eexists.
  split; [rewrite get_tasks_run, (fetch_step_other _ _ _ _ _ Hout He); reflexivity|].
  simpl. split; [reflexivity|]. split; [apply reset_disabled_cleared|].
  split; [reflexivity|]. split; [reflexivity|].
  intros [g [Hin Hd]] Heq. apply reset_disabled_fixed in Heq.
  rewrite Forall_forall in Heq. rewrite (Heq g Hin) in Hd. discriminate.
Qed.


(** *** [max] *)

Section Max.

Context {A K : Type} (gt : K -> K -> bool) (key : A -> K).

Lemma max_from_app first l1 l2 :
  max_from gt key first (l1 ++ l2) = max_from gt key (max_from gt key first l1) l2.
Proof. unfold max_from. apply fold_left_app. Qed.

Lemma max_from_In first rest : In (max_from gt key first rest) (first :: rest).
Proof.
  revert first; induction rest as [|x rest IH]; intros first; [left; reflexivity|].
  unfold max_from in *. simpl fold_left.
  destruct (gt (key x) (key first)).
  - right. exact (IH x).
  - destruct (IH first) as [H|H]; [left; exact H | right; right; exact H].
Qed.

(** An element that nothing later beats stays the maximum. *)
Lemma max_from_stays best rest :
  (forall x, In x rest -> gt (key x) (key best) = false) ->
  max_from gt key best rest = best.
Proof.
  induction rest as [|x rest IH]; intros Hle; [reflexivity|].
  unfold max_from in *. simpl.
  rewrite (Hle x (or_introl eq_refl)). apply IH.
  intros y Hy. apply Hle. right. exact Hy.
Qed.

(** An element whose key beats every other key is the maximum, wherever it
    stands. *)
Lemma py_max_dominant pre top post :
  (forall a b, gt a b = true -> gt b a = false) ->
  (forall x, In x pre -> gt (key top) (key x) = true) ->
  (forall x, In x post -> gt (key top) (key x) = true) ->
  py_max gt key (pre ++ top :: post) = Returns top.
Proof.
  intros Hasym Hpre Hpost.
  assert (Hstay : max_from gt key top post = top).
  { apply max_from_stays. intros x Hx. apply Hasym, Hpost, Hx. }
  destruct pre as [|first pre]; simpl; [rewrite Hstay; reflexivity|].
  rewrite max_from_app. f_equal.
  assert (Hb : gt (key top) (key (max_from gt key first pre)) = true).
  { apply Hpre. apply max_from_In. }
  unfold max_from at 1. simpl. rewrite Hb. exact Hstay.
Qed.

(** Under a transitive, irreflexive comparison no element beats the maximum. *)
Lemma max_from_upper_bound first rest :
  (forall a b, gt a b = true -> gt b a = false) ->
  (forall a b c, gt a b = true -> gt b c = true -> gt a c = true) ->
  forall x, In x (first :: rest) ->
    gt (key x) (key (max_from gt key first rest)) = false.
Proof.
  intros Hasym Htrans.
  assert (Hirr : forall a, gt a a = false).
  { intros a. destruct (gt a a) eqn:Ha; [|reflexivity].
    rewrite (Hasym a a Ha) in Ha. discriminate. }
  assert (Hgen : forall l best (Q : A -> Prop),
             (forall x, Q x -> gt (key x) (key best) = false) ->
             forall x, Q x \/ In x l ->
               gt (key x) (key (max_from gt key best l)) = false).
  { induction l as [|y l IH]; intros best Q HQ x Hx.
    - destruct Hx as [Hx|[]]. exact (HQ x Hx).
    - unfold max_from in *. simpl fold_left.
      destruct (gt (key y) (key best)) eqn:Hy.
      + apply (IH y (fun z => Q z \/ z = y)).
        * intros z [Hz| ->]; [|apply Hirr].
          destruct (gt (key z) (key y)) eqn:Hzy; [|reflexivity].
          pose proof (HQ z Hz) as Hzb.
          rewrite (Htrans _ _ _ Hzy Hy) in Hzb. discriminate.
        * destruct Hx as [Hx|[<-|Hx]]; [left; left; exact Hx | left; right; reflexivity | right; exact Hx].
      + apply (IH best (fun z => Q z \/ z = y)).
        * intros z [Hz| ->]; [exact (HQ z Hz) | exact Hy].
        * destruct Hx as [Hx|[<-|Hx]]; [left; left; exact Hx | left; right; reflexivity | right; exact Hx]. }
  intros x Hx. apply (Hgen rest first (fun z => z = first)).
  - intros z ->. apply Hirr.
  - destruct Hx as [<-|Hx]; [left; reflexivity | right; exact Hx].
Qed.

End Max.

(** Two runs of [max] over lists related element by element, by a relation
    that implies equal keys, end on related elements. *)
Lemma max_from_related {A B K : Type} (gt : K -> K -> bool)
    (keyA : A -> K) (keyB : B -> K) (R : A -> B -> Prop) :
  (forall a b, R a b -> keyA a = keyB b) ->
  forall rest1 rest2, Forall2 R rest1 rest2 ->
  forall first1 first2, R first1 first2 ->
    R (max_from gt keyA first1 rest1) (max_from gt keyB first2 rest2).
Proof.
  intros Hkey rest1 rest2 Hrest.
  induction Hrest as [|x1 x2 rest1 rest2 Hx Hrest IH]; intros first1 first2 Hfirst.
  - exact Hfirst.
  - unfold max_from in *. simpl.
    rewrite (Hkey _ _ Hx), (Hkey _ _ Hfirst).
    destruct (gt (keyB x2) (keyB first2)); apply IH; assumption.
Qed.

(** Related lists are related position by position. *)
Lemma Forall2_positions {A B : Type} (P : A -> B -> Prop) (l1 : list A) (l2 : list B) :
  Forall2 P l1 l2 ->
  Forall2 (fun a b => P a b /\ exists i, nth_error l1 i = Some a /\ nth_error l2 i = Some b)
    l1 l2.
Proof.
  induction 1 as [|a b l1 l2 Hab Hrest IH]; constructor.
  - split; [exact Hab|]. exists 0%nat. split; reflexivity.
  - eapply Forall2_impl; [|exact IH].
    intros a' b' [HP [i [H1 H2]]]. split; [exact HP|].
    exists (S i). split; assumption.
Qed.


(** *** [get_best_gateway] *)

Lemma get_best_gateway_nil w :
  _gateways w = [] -> get_best_gateway w = (Returns None, w).
Proof.
  intros Hgs. unfold get_best_gateway, bind, get_gateways.
  rewrite Hgs. reflexivity.
Qed.

(** A maximum above the minimum score is returned as it is; the world does
    not change. *)
Lemma get_best_gateway_best w best :
  py_max score_gt (@score Score) (_gateways w) = Returns best ->
  score_eq (score best) GATEWAY_MIN_SCORE = false ->
  get_best_gateway w = (Returns (Some best), w).
Proof.
  intros Hmax Hne. unfold get_best_gateway, bind, get_gateways, lift.
  destruct (_gateways w) as [|first rest]; [discriminate|].
  simpl py_not. cbv iota. rewrite Hmax, Hne. reflexivity.
Qed.

(** A maximum equal to the minimum score hands the choice to the random
    source: the result is the gateway at the index drawn. *)
Lemma get_best_gateway_random w best :
  py_max score_gt (@score Score) (_gateways w) = Returns best ->
  score_eq (score best) GATEWAY_MIN_SCORE = true ->
  get_best_gateway w =
  (match nth_error (_gateways w) (rd_randbelow w (List.length (_gateways w))) with
   | Some g => Returns (Some g)
   | None => Raises (IndexError "list index out of range")
   end,
   after_draw w (List.length (_gateways w))).
Proof.
  intros Hmax Heq. unfold get_best_gateway, bind, get_gateways, lift, after_draw.
  destruct (_gateways w) as [|first rest] eqn:Hgs; [discriminate|].
  simpl py_not. cbv iota. rewrite Hmax, Heq.
  unfold rd_choice. change (py_not (first :: rest)) with false.
  cbv beta iota. rewrite Hgs.
  destruct (nth_error _ _); reflexivity.
Qed.

(** The gateway whose score beats the minimum and every other score is
    returned, whatever its flag. *)
Lemma get_best_gateway_dominant w i g :
  gt_asymmetric -> gt_excludes_eq ->
  nth_error (_gateways w) i = Some g ->
  score_gt (score g) GATEWAY_MIN_SCORE = true ->
  (forall j h, j <> i -> nth_error (_gateways w) j = Some h ->
               score_gt (score g) (score h) = true) ->
  get_best_gateway w = (Returns (Some g), w).
Proof.
  intros Hasym Hexcl Hi Hmin Hothers.
  destruct (nth_error_split _ _ Hi) as [pre [post [Hgs Hlen]]].
  apply get_best_gateway_best; [|apply Hexcl; exact Hmin].
  rewrite Hgs. apply py_max_dominant; [exact Hasym| |].
  - intros x Hx. destruct (In_nth_error _ _ Hx) as [j Hj].
    assert (Hlt : (j < List.length pre)%nat) by (apply nth_error_Some; congruence).
    apply (Hothers j); [lia|].
    rewrite Hgs, nth_error_app1; [exact Hj | exact Hlt].
  - intros x Hx. destruct (In_nth_error _ _ Hx) as [j Hj].
    apply (Hothers (List.length pre + S j)%nat); [lia|].
    rewrite Hgs, nth_error_app2 by lia.
    replace (List.length pre + S j - List.length pre)%nat with (S j) by lia.
    exact Hj.
Qed.

(** C5.  On an empty gateway list [get_best_gateway] returns [None]: it
    raises nothing and changes nothing. *)
Theorem get_best_gateway_empty w :
  _gateways w = [] ->
  get_best_gateway w = (Returns None, w).
Proof. apply get_best_gateway_nil. Qed.

(** C6.  When the gateway at some position has a score above the minimum
    score and above the score at every other position, [get_best_gateway]
    returns that gateway and leaves the world, gateway list included, as it
    was.  The comparison is assumed asymmetric, and [>] to exclude [==]. *)
Theorem get_best_gateway_unique_maximum w i g :
  gt_asymmetric -> gt_excludes_eq ->
  _gateways w <> [] ->
  nth_error (_gateways w) i = Some g ->
  score_gt (score g) GATEWAY_MIN_SCORE = true ->
  (forall j h, j <> i -> nth_error (_gateways w) j = Some h ->
               score_gt (score g) (score h) = true) ->
  exists w',
    get_best_gateway w = (Returns (Some g), w') /\
    w' = w /\ _gateways w' = _gateways w.
Proof.
  intros Hasym Hexcl _ Hi Hmin Hothers. exists w.
  split; [|split; reflexivity].
  apply (get_best_gateway_dominant w i g); assumption.
Qed.

(** C7.  When the gateway list is not empty and its maximum score is the
    minimum score, [get_best_gateway] returns the gateway of the full list at
    the index the random source draws, whichever gateway [max] had picked;
    the gateway list is unchanged and the draw is the only new event.  The
    comparison is assumed to be a strict total order, and the draw to be
    below the length. *)
Theorem get_best_gateway_all_minimum w m :
  gt_asymmetric -> gt_transitive -> gt_total ->
  _gateways w <> [] ->
  is_max_score m (_gateways w) ->
  score_eq m GATEWAY_MIN_SCORE = true ->
  (rd_randbelow w (List.length (_gateways w)) < List.length (_gateways w))%nat ->
  exists g,
    nth_error (_gateways w) (rd_randbelow w (List.length (_gateways w))) = Some g /\
    get_best_gateway w = (Returns (Some g), after_draw w (List.length (_gateways w))) /\
    _gateways (after_draw w (List.length (_gateways w))) = _gateways w.
Proof.
  intros Hasym Htrans Htotal Hne [[g0 [Hg0 Hm0]] Hmax] Hmin Hdraw.
  destruct (nth_error (_gateways w) (rd_randbelow w (List.length (_gateways w))))
    as [g|] eqn:Hnth; [|apply nth_error_None in Hnth; lia].
  exists g. split; [reflexivity|]. split; [|reflexivity].
  destruct (_gateways w) as [|first rest] eqn:Hgs; [congruence|].
  rewrite <- Hgs in *.
  rewrite (get_best_gateway_random w (max_from score_gt (@score Score) first rest)).
  - rewrite Hnth. reflexivity.
  - rewrite Hgs. reflexivity.
  - replace (score (max_from score_gt (@score Score) first rest)) with m; [exact Hmin|].
    apply Htotal.
    + rewrite <- Hm0. rewrite Hgs in Hg0.
      apply (max_from_upper_bound score_gt (@score Score) first rest Hasym Htrans g0 Hg0).
    + apply Hmax. rewrite Hgs. apply max_from_In.
Qed.

(** C9.  On two gateway lists that differ at most in the [disabled] flags,
    with the same draw, [get_best_gateway] picks the same position.  In
    particular a gateway with [disabled = true] whose score beats the minimum
    score and every other score is the one returned. *)
Theorem get_best_gateway_ignores_disabled w1 w2 :
  gt_asymmetric -> gt_excludes_eq ->
  same_but_disabled (_gateways w1) (_gateways w2) ->
  rd_randbelow w1 (List.length (_gateways w1)) =
    rd_randbelow w2 (List.length (_gateways w2)) ->
  same_position (_gateways w1) (_gateways w2)
    (fst (get_best_gateway w1)) (fst (get_best_gateway w2)) /\
  (forall i g,
     nth_error (_gateways w1) i = Some g ->
     disabled g = true ->
     score_gt (score g) GATEWAY_MIN_SCORE = true ->
     (forall j h, j <> i -> nth_error (_gateways w1) j = Some h ->
                  score_gt (score g) (score h) = true) ->
     get_best_gateway w1 = (Returns (Some g), w1)).
Proof.
  intros Hasym Hexcl Hsame Hdraw. split.
  - unfold same_but_disabled in Hsame.
    pose proof (Forall2_positions _ _ _ Hsame) as Hpos.
    pose proof (Forall2_length Hsame) as Hlen.
    destruct (_gateways w1) as [|first1 rest1] eqn:Hgs1;
      destruct (_gateways w2) as [|first2 rest2] eqn:Hgs2;
      try discriminate Hlen.
    + rewrite (get_best_gateway_nil w1 Hgs1), (get_best_gateway_nil w2 Hgs2).
      exact I.
    + apply Forall2_cons_iff in Hpos. destruct Hpos as [Hfirst Hrest].
      pose proof (max_from_related score_gt (@score Score) (@score Score) _
                    (fun a b H => proj2 (proj1 H)) rest1 rest2 Hrest
                    first1 first2 Hfirst) as Hrel.
      cbv beta in Hrel. destruct Hrel as [[_ Hscore] Hidx].
      assert (Hmax1 : py_max score_gt (@score Score) (_gateways w1) =
                      Returns (max_from score_gt (@score Score) first1 rest1))
        by (rewrite Hgs1; reflexivity).
      assert (Hmax2 : py_max score_gt (@score Score) (_gateways w2) =
                      Returns (max_from score_gt (@score Score) first2 rest2))
        by (rewrite Hgs2; reflexivity).
      destruct (score_eq (score (max_from score_gt (@score Score) first1 rest1))
                  GATEWAY_MIN_SCORE) eqn:Hmin.
      * rewrite (get_best_gateway_random w1 _ Hmax1 Hmin).
        rewrite Hscore in Hmin.
        rewrite (get_best_gateway_random w2 _ Hmax2 Hmin).
        simpl fst. rewrite Hgs1, Hgs2, <- Hdraw.
        set (k := rd_randbelow w1 (List.length (first1 :: rest1))).
        destruct (nth_error (first1 :: rest1) k) as [g1|] eqn:H1;
          destruct (nth_error (first2 :: rest2) k) as [g2|] eqn:H2.
        -- exists k. split; assumption.
        -- apply nth_error_None in H2.
           assert (k < List.length (first1 :: rest1))%nat
             by (apply nth_error_Some; congruence). lia.
        -- apply nth_error_None in H1.
           assert (k < List.length (first2 :: rest2))%nat
             by (apply nth_error_Some; congruence). lia.
        -- reflexivity.
      * rewrite (get_best_gateway_best w1 _ Hmax1 Hmin).
        rewrite Hscore in Hmin.
        rewrite (get_best_gateway_best w2 _ Hmax2 Hmin).
        exact Hidx.
  - intros i g Hi _ Hmin Hothers.
    apply (get_best_gateway_dominant w1 i g); assumption.
Qed.

(** *** [add_result] *)

(** C8.  [add_result] makes the wire-level task from the caller's task
    (id, prompt, gateway url as host), passes every other argument on as
    given, and calls the transport client's submission once.  Its outcome is
    the outcome of that call: a failure comes back as the same exception.
    The gateway list is untouched and the scorer is not called. *)
Theorem add_result_forwards hotkey task score0 miner_hotkey miner_uid miner_rating
    asset error w :
  exists args out w' evs,
    args = {| arg_validator_hotkey := hotkey;
              arg_task := {| id := GatewayOrganicTask.id task;
                             prompt := GatewayOrganicTask.prompt task;
                             gateway_host := GatewayOrganicTask.gateway_url task |};
              arg_score := score0;
              arg_miner_hotkey := miner_hotkey;
              arg_miner_uid := miner_uid;
              arg_miner_rating := miner_rating;
              arg_asset := asset;
              arg_error := error |} /\
    out = gateway_api_add_result w args /\
    add_result hotkey task score0 miner_hotkey miner_uid miner_rating asset error w =
      (out, w') /\
    (forall e, gateway_api_add_result w args = Raises e ->
       fst (add_result hotkey task score0 miner_hotkey miner_uid miner_rating
              asset error w) = Raises e) /\
    _gateways w' = _gateways w /\
    history w' = history w ++ evs /\
    add_result_calls evs = [(args, out)] /\
    score_calls evs = [].
Proof.
  do 4 eexists. split; [reflexivity|]. split; [reflexivity|].
  split; [reflexivity|]. split; [intros e He; simpl; exact He|].
  split; [reflexivity|]. split; [reflexivity|]. split; reflexivity.
Qed.

End Properties.

(** ** The properties at work in the concrete environment *)

Section Runs.

Import Example.
#[local] Existing Instance Example.env.
Local Open Scope string_scope.
Local Open Scope Z_scope.
Local Open Scope list_scope.

(** The integer comparison has the laws the properties ask for. *)
Lemma Z_gt_asymmetric : gt_asymmetric.
Proof. intros a b H. simpl in *. lia. Qed.

Lemma Z_gt_transitive : gt_transitive.
Proof. intros a b c H1 H2. simpl in *. lia. Qed.

Lemma Z_gt_total : gt_total.
Proof. intros a b H1 H2. simpl in *. lia. Qed.

Lemma Z_gt_excludes_eq : gt_excludes_eq.
Proof. intros a b H. simpl in *. lia. Qed.

(** The host has no work: it ends disabled, the other gateway does not. *)
Example fetch_without_work :
  let '(out, w') := get_tasks "a" "hk" 1 (start [gw "a" 5 false; gw "b" 1 true]) in
  out = Returns [] /\ _gateways w' = [gw "a" 5 true; gw "b" 1 false].
Proof. split; reflexivity. Qed.

(** The host is unreachable: nothing is raised, the old list is kept with its
    flags cleared and the host disabled, and the scorer still runs. *)
Example fetch_unreachable :
  let '(out, w') := get_tasks "down" "hk" 1 (start [gw "a" 5 true; gw "down" 3 false]) in
  out = Returns [] /\
  _gateways w' = [gw "a" 5 false; gw "down" 3 true] /\
  score_calls (history w') =
    [([gw "a" 5 false; gw "down" 3 true], [gw "a" 5 false; gw "down" 3 true])].
Proof. repeat split; reflexivity. Qed.

(** The host has work: nobody is disabled. *)
Example fetch_with_work :
  let '(out, w') := get_tasks "b" "hk" 1 (start [gw "a" 5 true; gw "b" 1 true]) in
  out = Returns [task1] /\ _gateways w' = [gw "a" 5 false; gw "b" 1 false].
Proof. split; reflexivity. Qed.

(** Two gateways under one url: the loop stops at the first. *)
Example fetch_duplicate_url :
  let '(out, w') := get_tasks "down" "hk" 1 (start [gw "down" 3 false; gw "down" 2 false]) in
  out = Returns [] /\ _gateways w' = [gw "down" 3 true; gw "down" 2 false].
Proof. split; reflexivity. Qed.

(** The first of several equal maxima wins. *)
Example best_first_of_ties :
  fst (get_best_gateway (start [gw "a" 2 false; gw "b" 7 false; gw "c" 7 false])) =
  Returns (Some (gw "b" 7 false)).
Proof. reflexivity. Qed.

Lemma get_tasks_empty_disables_target_witness :
  get_tasks "a" "hk" 1 w_idle = (Returns [], snd (get_tasks "a" "hk" 1 w_idle)) /\
  unique_urls (_gateways (at_disable "a" "hk" 1 w_idle)) /\
  In (gw "a" 5 true) (_gateways (snd (get_tasks "a" "hk" 1 w_idle))) /\
  flag_carried_over
    (disable_url "a" (_gateways (at_disable "a" "hk" 1 w_idle))) (gw "a" 5 true) /\
  (forall g, In g (disable_url "a" (_gateways (at_disable "a" "hk" 1 w_idle))) ->
             url g = "a" -> disabled g = true) /\
  (forall g', In g' (_gateways (snd (get_tasks "a" "hk" 1 w_idle))) -> url g' = "a" ->
              flag_carried_over
                (disable_url "a" (_gateways (at_disable "a" "hk" 1 w_idle))) g' ->
              disabled g' = true).
Proof.
  assert (Hrun : get_tasks "a" "hk" 1 w_idle =
                 (Returns [], snd (get_tasks "a" "hk" 1 w_idle)))
    by reflexivity.
  assert (Huniq : unique_urls (_gateways (at_disable "a" "hk" 1 w_idle))).
  { unfold unique_urls. simpl. repeat constructor; simpl; intuition discriminate. }
  split; [exact Hrun|]. split; [exact Huniq|].
  split; [left; reflexivity|].
  split; [exists (gw "a" 5 true); split; [left; reflexivity | split; reflexivity]|].
  exact (proj1 (proj2 (proj2 (proj2
           (get_tasks_empty_disables_target "a" "hk" 1 w_idle _ Hrun)))) Huniq).
Defined.

(** Without its provisos the property fails twice over.  With a scorer
    that answers in new objects the host without work ends enabled; and of
    two gateways under the url of an unreachable host only the first ends
    disabled, the scorer being the identity. *)
Lemma get_tasks_empty_target_enabled :
  (fst (get_tasks (env := Counter.env_fresh) "a" "hk" 1 w_idle) = Returns [] /\
   In (gw "a" 5 false)
      (_gateways (snd (get_tasks (env := Counter.env_fresh) "a" "hk" 1 w_idle))) /\
   url (gw "a" 5 false) = "a" /\ disabled (gw "a" 5 false) = false) /\
  (fst (get_tasks "down" "hk" 1 Counter.w_twins) = Returns [] /\
   In (gw "down" 2 false) (_gateways (snd (get_tasks "down" "hk" 1 Counter.w_twins))) /\
   url (gw "down" 2 false) = "down" /\ disabled (gw "down" 2 false) = false).
Proof.
  split.
  - split; [reflexivity|]. split; [left; reflexivity|]. split; reflexivity.
  - split; [reflexivity|]. split; [right; left; reflexivity|]. split; reflexivity.
Qed.

Lemma get_tasks_scores_exactly_once_witness :
  (forall e, gateway_api_get_tasks (at_transport w_down) "down" "hk" 1 = Raises e ->
             is_Http3Exception e = true) /\
  exists fetched w' evs,
    get_tasks "down" "hk" 1 w_down = (Returns fetched, w') /\
    history w' = history w_down ++ evs /\
    score_calls evs =
      [(_gateways (after_disable "down" fetched (at_disable "down" "hk" 1 w_down)),
        gateway_scorer_score
          (after_disable "down" fetched (at_disable "down" "hk" 1 w_down))
          (_gateways (after_disable "down" fetched (at_disable "down" "hk" 1 w_down))))] /\
    _gateways w' =
      gateway_scorer_score
        (after_disable "down" fetched (at_disable "down" "hk" 1 w_down))
        (_gateways (after_disable "down" fetched (at_disable "down" "hk" 1 w_down))) /\
    get_best_gateway w' =
      get_best_gateway
        (mkWorld
           (gateway_scorer_score
              (after_disable "down" fetched (at_disable "down" "hk" 1 w_down))
              (_gateways (after_disable "down" fetched (at_disable "down" "hk" 1 w_down))))
           (history w')).
Proof.
  assert (Hkind : forall e,
             gateway_api_get_tasks (at_transport w_down) "down" "hk" 1 = Raises e ->
             is_Http3Exception e = true).
  { intros e He. vm_compute in He. inversion He. reflexivity. }
  split; [exact Hkind|].
  exact (get_tasks_scores_exactly_once "down" "hk" 1 w_down Hkind).
Defined.

Lemma get_tasks_absorbs_transport_error_witness :
  gateway_api_get_tasks (at_transport w_down) "down" "hk" 1 =
    Raises (Http3Exception "connection lost") /\
  exists w1 w',
    fetch_step "down" "hk" 1 w_down = (Returns [], w1) /\
    _gateways w1 = _gateways (at_transport w_down) /\
    get_tasks "down" "hk" 1 w_down = (Returns [], w') /\
    w' = after_update (after_disable "down" [] w1) /\
    _gateways w' =
      gateway_scorer_score (after_disable "down" [] w1)
        (disable_url "down" (reset_disabled (_gateways w_down))).
Proof.
  split; [reflexivity|].
  exact (get_tasks_absorbs_transport_error "down" "hk" 1 w_down "connection lost" eq_refl).
Defined.

Lemma get_tasks_resets_flags_first_witness :
  gateway_api_get_tasks (at_transport w_down) "down" "hk" 1 =
    Raises (Http3Exception "connection lost") /\
  is_Http3Exception (Http3Exception "connection lost") = true /\
  Forall (fun g => disabled g = false) (_gateways (at_transport w_down)) /\
  (exists evs input output,
    history (snd (get_tasks "down" "hk" 1 w_down)) = history w_down ++ evs /\
    score_calls evs = [(input, output)] /\
    input = disable_url "down" (reset_disabled (_gateways w_down)) /\
    (forall g, In g input -> disabled g = true -> url g = "down") /\
    (forall g, In g (_gateways w_down) -> url g <> "down" ->
               In (set_disabled false g) input)) /\
  In (gw "a" 5 true) (_gateways (snd (get_tasks "a" "hk" 1 w_idle))) /\
  get_tasks "b" "hk" 1 (snd (get_tasks "a" "hk" 1 w_idle)) =
    (Returns [task1], snd (get_tasks "b" "hk" 1 (snd (get_tasks "a" "hk" 1 w_idle)))) /\
  In (gw "a" 5 false) (_gateways (at_transport (snd (get_tasks "a" "hk" 1 w_idle)))) /\
  Forall (fun g => disabled g = false)
    (_gateways (after_disable "b" [task1]
                  (at_disable "b" "hk" 1 (snd (get_tasks "a" "hk" 1 w_idle))))).
Proof.
  split; [reflexivity|]. split; [reflexivity|].
  split; [exact (proj1 (proj2 (get_tasks_resets_flags_first "down" "hk" 1 w_down)))|].
  split.
  { exact (proj1 (proj2 (proj2 (proj2 (proj2
             (get_tasks_resets_flags_first "down" "hk" 1 w_down)))))
             (Http3Exception "connection lost") eq_refl eq_refl). }
  assert (Hin : In (gw "a" 5 true) (_gateways (snd (get_tasks "a" "hk" 1 w_idle))))
    by (left; reflexivity).
  split; [exact Hin|]. split; [reflexivity|].
  pose proof (proj2 (proj2 (proj2 (proj2 (proj2 (proj2 (proj2
                (get_tasks_resets_flags_first "b" "hk" 1
                   (snd (get_tasks "a" "hk" 1 w_idle)))))))))
                "a" "hk" 1 w_idle (gw "a" 5 true) eq_refl Hin eq_refl) as [Hclear Hnext].
  split; [exact Hclear|].
  refine (Hnext [task1] _ _ eq_refl _ eq_refl _).
  - discriminate.
  - repeat constructor.
Defined.

(** A cycle that fetches tasks does not always leave everybody enabled:
    when the transport's answer itself lists a gateway as disabled, that flag
    is taken over.  Host ["a"] ends the first cycle disabled, the second
    cycle fetches a task from host ["b"], and ["a"] is still disabled in the
    final list, the scorer being the identity. *)
Lemma get_tasks_listed_flag_survives :
  fst Counter.relay_cycle1 = Returns [] /\
  In (gw "a" 5 true) (_gateways (snd Counter.relay_cycle1)) /\
  fst Counter.relay_cycle2 = Returns [task1] /\
  In (gw "a" 5 true) (_gateways (snd Counter.relay_cycle2)) /\
  disabled (gw "a" 5 true) = true.
Proof.
  split; [reflexivity|]. split; [left; reflexivity|].
  split; [reflexivity|]. split; [left; reflexivity|]. reflexivity.
Qed.

Lemma get_tasks_propagates_other_exceptions_witness :
  gateway_api_get_tasks (at_transport w_mixed) "c" "hk" 1 = Raises key_error /\
  is_Http3Exception key_error = false /\
  exists w',
    get_tasks "c" "hk" 1 w_mixed = (Raises key_error, w') /\
    _gateways w' = reset_disabled (_gateways w_mixed) /\
    Forall (fun g => disabled g = false) (_gateways w') /\
    history w' = history w_mixed ++ [EvGetTasks "c" "hk" 1 (Raises key_error)] /\
    score_calls [@EvGetTasks Z string Z "c" "hk" 1 (Raises key_error)] = [] /\
    ((exists g, In g (_gateways w_mixed) /\ disabled g = true) ->
     _gateways w' <> _gateways w_mixed).
Proof.
  split; [reflexivity|]. split; [reflexivity|].
  exact (get_tasks_propagates_other_exceptions "c" "hk" 1 w_mixed key_error
           eq_refl eq_refl).
Defined.

Lemma get_best_gateway_empty_witness :
  _gateways (start []) = [] /\
  get_best_gateway (start []) = (Returns None, start []).
Proof.
  split; [reflexivity|].
  exact (get_best_gateway_empty (start []) eq_refl).
Defined.

Lemma get_best_gateway_unique_maximum_witness :
  gt_asymmetric /\
  gt_excludes_eq /\
  _gateways w_top <> [] /\
  nth_error (_gateways w_top) 1 = Some (gw "a" 5 true) /\
  score_gt (score (gw "a" 5 true)) GATEWAY_MIN_SCORE = true /\
  (forall j h, j <> 1%nat -> nth_error (_gateways w_top) j = Some h ->
               score_gt (score (gw "a" 5 true)) (score h) = true) /\
  exists w',
    get_best_gateway w_top = (Returns (Some (gw "a" 5 true)), w') /\
    w' = w_top /\ _gateways w' = _gateways w_top.
Proof.
  assert (Hne : _gateways w_top <> []) by discriminate.
  assert (Hothers : forall j h, j <> 1%nat -> nth_error (_gateways w_top) j = Some h ->
                                score_gt (score (gw "a" 5 true)) (score h) = true).
  { intros [|[|[|j]]] h Hj Hnth; simpl in Hnth; try congruence;
      try (inversion Hnth; reflexivity).
    destruct j; discriminate. }
  split; [exact Z_gt_asymmetric|]. split; [exact Z_gt_excludes_eq|].
  split; [exact Hne|]. split; [reflexivity|]. split; [reflexivity|].
  split; [exact Hothers|].
  exact (get_best_gateway_unique_maximum w_top 1 (gw "a" 5 true)
           Z_gt_asymmetric Z_gt_excludes_eq Hne eq_refl eq_refl Hothers).
Defined.

Lemma get_best_gateway_all_minimum_witness :
  gt_asymmetric /\
  gt_transitive /\
  gt_total /\
  _gateways w_unproven <> [] /\
  is_max_score 0 (_gateways w_unproven) /\
  score_eq 0 GATEWAY_MIN_SCORE = true /\
  (rd_randbelow w_unproven (List.length (_gateways w_unproven)) <
   List.length (_gateways w_unproven))%nat /\
  exists g,
    nth_error (_gateways w_unproven)
      (rd_randbelow w_unproven (List.length (_gateways w_unproven))) = Some g /\
    get_best_gateway w_unproven =
      (Returns (Some g), after_draw w_unproven (List.length (_gateways w_unproven))) /\
    _gateways (after_draw w_unproven (List.length (_gateways w_unproven))) =
      _gateways w_unproven.
Proof.
  assert (Hne : _gateways w_unproven <> []) by discriminate.
  assert (Hmax : is_max_score 0 (_gateways w_unproven)).
  { split.
    - exists (gw "a" 0 false). split; [left; reflexivity | reflexivity].
    - intros g Hin. simpl in Hin.
      destruct Hin as [<-|[<-|[<-|[]]]]; reflexivity. }
  assert (Hdraw : (rd_randbelow w_unproven (List.length (_gateways w_unproven)) <
                   List.length (_gateways w_unproven))%nat) by (vm_compute; lia).
  split; [exact Z_gt_asymmetric|]. split; [exact Z_gt_transitive|].
  split; [exact Z_gt_total|]. split; [exact Hne|]. split; [exact Hmax|].
  split; [reflexivity|]. split; [exact Hdraw|].
  exact (get_best_gateway_all_minimum w_unproven 0
           Z_gt_asymmetric Z_gt_transitive Z_gt_total Hne Hmax eq_refl Hdraw).
Defined.

(** With the draw at [1] the gateway returned is ["b"], where [max] alone
    would have kept ["a"]. *)
Example best_all_minimum_draw :
  fst (get_best_gateway w_unproven) = Returns (Some (gw "b" 0 false)) /\
  py_max score_gt (@score Z) (_gateways w_unproven) = Returns (gw "a" 0 false).
Proof. split; reflexivity. Qed.

Lemma get_best_gateway_ignores_disabled_witness :
  gt_asymmetric /\
  gt_excludes_eq /\
  same_but_disabled (_gateways w_mixed) (_gateways w_idle) /\
  rd_randbelow w_mixed (List.length (_gateways w_mixed)) =
    rd_randbelow w_idle (List.length (_gateways w_idle)) /\
  same_position (_gateways w_mixed) (_gateways w_idle)
    (fst (get_best_gateway w_mixed)) (fst (get_best_gateway w_idle)) /\
  (forall i g,
     nth_error (_gateways w_mixed) i = Some g ->
     disabled g = true ->
     score_gt (score g) GATEWAY_MIN_SCORE = true ->
     (forall j h, j <> i -> nth_error (_gateways w_mixed) j = Some h ->
                  score_gt (score g) (score h) = true) ->
     get_best_gateway w_mixed = (Returns (Some g), w_mixed)).
Proof.
  assert (Hsame : same_but_disabled (_gateways w_mixed) (_gateways w_idle)).
  { repeat constructor. }
  split; [exact Z_gt_asymmetric|]. split; [exact Z_gt_excludes_eq|].
  split; [exact Hsame|]. split; [reflexivity|].
  exact (get_best_gateway_ignores_disabled w_mixed w_idle
           Z_gt_asymmetric Z_gt_excludes_eq Hsame eq_refl).
Defined.

(** The disabled gateway with the top score is the one returned. *)
Example best_is_disabled :
  fst (get_best_gateway w_mixed) = Returns (Some (gw "a" 5 true)) /\
  fst (get_best_gateway w_idle) = Returns (Some (gw "a" 5 false)).
Proof. split; reflexivity. Qed.

(** A failed submission comes back to the caller as it was raised. *)
Example add_result_failure :
  fst (add_result "hk" organic1 None None None None None
         (Some "generation failed") (start [gw "a" 5 false])) =
  Raises (Http3Exception "stream reset").
Proof. reflexivity. Qed.

End Runs.

(** ** Further properties of the manager *)

Section MoreProperties.

Context {Score Keypair float : Type} {env : Environment Score Keypair float}.

Implicit Types (w : World Score Keypair float) (gs : list (Gateway Score))
  (g : Gateway Score) (target : string) (hotkey : Keypair) (n : Z).

(** *** What [get_tasks] appends to the history *)

(** The events of the disable step and the re-scoring, in full. *)
Lemma after_steps_events target fetched w1 :
  history (after_update (after_disable target fetched w1)) =
  history w1 ++
    (if py_not fetched then [EvLog (GatewayDisabled target)] else []) ++
    EvScore (_gateways (after_disable target fetched w1))
            (_gateways (after_update (after_disable target fetched w1)))
    :: map (fun g => EvLog (GatewayUpdated g))
         (_gateways (after_update (after_disable target fetched w1))).
Proof.
  rewrite after_update_run. simpl.
  destruct fetched as [|t ts].
  - rewrite after_disable_empty. simpl. rewrite <- app_assoc. reflexivity.
  - rewrite after_disable_nonempty. reflexivity.
Qed.

Lemma transport_calls_app (evs1 evs2 : list (Event Score Keypair float)) :
  transport_calls (evs1 ++ evs2) = transport_calls evs1 ++ transport_calls evs2.
Proof.
  induction evs1 as [|ev evs1 IH]; simpl; [reflexivity|].
  destruct ev; simpl; rewrite IH; reflexivity.
Qed.

Lemma draws_app (evs1 evs2 : list (Event Score Keypair float)) :
  draws (evs1 ++ evs2) = draws evs1 ++ draws evs2.
Proof.
  induction evs1 as [|ev evs1 IH]; simpl; [reflexivity|].
  destruct ev; simpl; rewrite IH; reflexivity.
Qed.

Lemma add_result_calls_app (evs1 evs2 : list (Event Score Keypair float)) :
  add_result_calls (evs1 ++ evs2) = add_result_calls evs1 ++ add_result_calls evs2.
Proof.
  induction evs1 as [|ev evs1 IH]; simpl; [reflexivity|].
  destruct ev; simpl; rewrite IH; reflexivity.
Qed.

Lemma log_records_app (evs1 evs2 : list (Event Score Keypair float)) :
  log_records (evs1 ++ evs2) = log_records evs1 ++ log_records evs2.
Proof.
  induction evs1 as [|ev evs1 IH]; simpl; [reflexivity|].
  destruct ev; simpl; rewrite IH; reflexivity.
Qed.

(** The "Gateway updated" lines are log records and nothing else. *)
Lemma updated_lines gs :
  transport_calls (map (fun g => @EvLog Score Keypair float (GatewayUpdated g)) gs) = [] /\
  draws (map (fun g => @EvLog Score Keypair float (GatewayUpdated g)) gs) = [] /\
  add_result_calls (map (fun g => @EvLog Score Keypair float (GatewayUpdated g)) gs) = [] /\
  log_records (map (fun g => @EvLog Score Keypair float (GatewayUpdated g)) gs) =
    map (@GatewayUpdated Score) gs.
Proof.
  induction gs as [|g gs [IH1 [IH2 [IH3 IH4]]]]; simpl; [repeat split|].
  repeat split; try assumption. rewrite IH4. reflexivity.
Qed.

(** Every run of [get_tasks], branch by branch: its outcome, the list it
    leaves, and the events it appends. *)
Lemma get_tasks_trace target hotkey n w :
  exists evs,
    history (snd (get_tasks target hotkey n w)) =
      history w ++
        EvGetTasks target hotkey n
          (gateway_api_get_tasks (at_transport w) target hotkey n) :: evs /\
    transport_calls evs = [] /\ draws evs = [] /\ add_result_calls evs = [] /\
    match gateway_api_get_tasks (at_transport w) target hotkey n with
    | Returns res =>
        fst (get_tasks target hotkey n w) = Returns (tasks res) /\
        log_records evs =
          (if py_not (tasks res) then [GatewayDisabled target] else []) ++
          map (@GatewayUpdated Score) (_gateways (snd (get_tasks target hotkey n w)))
    | Raises e =>
        if is_Http3Exception e then
          fst (get_tasks target hotkey n w) = Returns [] /\
          log_records evs =
            FailedFetching e :: GatewayDisabled target ::
            map (@GatewayUpdated Score) (_gateways (snd (get_tasks target hotkey n w)))
        else
          fst (get_tasks target hotkey n w) = Raises e /\ evs = []
    end.
Proof.
  rewrite get_tasks_run.
  destruct (gateway_api_get_tasks (at_transport w) target hotkey n) as [res|e] eqn:Hout.
  - rewrite (fetch_step_returns _ _ _ _ _ Hout). simpl fst. simpl snd.
    rewrite after_steps_events. simpl history. rewrite <- app_assoc. simpl app.
    eexists. split; [reflexivity|].
    destruct (updated_lines
      (_gateways (after_update (after_disable target (tasks res)
         (mkWorld (gateways res)
            (history w ++ [EvGetTasks target hotkey n (Returns res)]))))))
      as [H1 [H2 [H3 H4]]].
    destruct (tasks res) as [|t ts]; simpl; rewrite ?H1, ?H2, ?H3, ?H4; repeat split.
  - destruct (is_Http3Exception e) eqn:He.
    + rewrite (fetch_step_http3 _ _ _ _ _ Hout He). simpl fst. simpl snd.
      rewrite after_steps_events. simpl history. rewrite <- app_assoc. simpl app.
      eexists. split; [reflexivity|].
      destruct (updated_lines
        (_gateways (after_update (after_disable target []
           (mkWorld (reset_disabled (_gateways w))
              (history w ++ [EvGetTasks target hotkey n (Raises e);
                             EvLog (FailedFetching e)]))))))
        as [H1 [H2 [H3 H4]]].
      simpl; rewrite ?H1, ?H2, ?H3, ?H4; repeat split.
    + rewrite (fetch_step_other _ _ _ _ _ Hout He). simpl.
      exists []. repeat split.
Qed.

(** X1.  One run of [get_tasks] is one attempt: whatever the transport
    answers, the call to it is made exactly once, with the arguments of
    [get_tasks], and the run submits no result and draws no random number. *)
Theorem get_tasks_single_attempt target hotkey n w :
  exists evs,
    history (snd (get_tasks target hotkey n w)) = history w ++ evs /\
    transport_calls evs =
      [(target, hotkey, n, gateway_api_get_tasks (at_transport w) target hotkey n)] /\
    add_result_calls evs = [] /\
    draws evs = [].
Proof.
  destruct (get_tasks_trace target hotkey n w) as [evs [Hh [Ht [Hd [Ha _]]]]].
  eexists. split; [exact Hh|]. simpl. rewrite Ht, Hd, Ha. repeat split.
Qed.

(** X2.  What [get_tasks] gives back depends on the transport's answer alone:
    the task list exactly as the transport returned it, the empty list after
    a transport error, the exception itself after any other exception. *)
Theorem get_tasks_result target hotkey n w :
  fst (get_tasks target hotkey n w) =
  match gateway_api_get_tasks (at_transport w) target hotkey n with
  | Returns res => Returns (tasks res)
  | Raises e => if is_Http3Exception e then Returns [] else Raises e
  end.
Proof.
  destruct (get_tasks_trace target hotkey n w) as [evs [_ [_ [_ [_ H]]]]].
  destruct (gateway_api_get_tasks (at_transport w) target hotkey n) as [res|e].
  - exact (proj1 H).
  - destruct (is_Http3Exception e); exact (proj1 H).
Qed.

(** X3.  The log of a run that returns: one error record holding the
    exception when the transport failed, one "disabled" record for the target
    exactly when the task list is empty, then one "updated" record for each
    gateway of the final list, in its order. *)
Theorem get_tasks_log target hotkey n w fetched w' :
  get_tasks target hotkey n w = (Returns fetched, w') ->
  exists evs,
    history w' = history w ++ evs /\
    log_records evs =
      match gateway_api_get_tasks (at_transport w) target hotkey n with
      | Returns _ => []
      | Raises e => [FailedFetching e]
      end ++
      (if py_not fetched then [GatewayDisabled target] else []) ++
      map (@GatewayUpdated Score) (_gateways w').
Proof.
  intros Hrun.
  destruct (get_tasks_trace target hotkey n w) as [evs [Hh [_ [_ [_ H]]]]].
  rewrite Hrun in Hh, H. simpl in Hh, H.
  eexists. split; [exact Hh|]. simpl.
  destruct (gateway_api_get_tasks (at_transport w) target hotkey n) as [res|e].
  - destruct H as [Hf Hl]. inversion Hf; subst. exact Hl.
  - destruct (is_Http3Exception e).
    + destruct H as [Hf Hl]. inversion Hf; subst. exact Hl.
    + destruct H as [Hf _]. discriminate.
Qed.


(** The one call to the scorer after a transport error, with its input. *)
Lemma scorer_call_after_error target hotkey n w e :
  gateway_api_get_tasks (at_transport w) target hotkey n = Raises e ->
  is_Http3Exception e = true ->
  exists evs output,
    history (snd (get_tasks target hotkey n w)) = history w ++ evs /\
    score_calls evs =
      [(disable_url target (reset_disabled (_gateways w)), output)].
Proof.
  intros Hout He. rewrite get_tasks_run, (fetch_step_http3 _ _ _ _ _ Hout He).
  simpl snd. rewrite after_steps_events. simpl history. rewrite <- app_assoc.
  do 2 eexists. split; [reflexivity|].
  simpl. rewrite score_calls_updated. reflexivity.
Qed.

(** The one call to the scorer after the transport returned, with its input. *)
Lemma scorer_call_after_success target hotkey n w res :
  gateway_api_get_tasks (at_transport w) target hotkey n = Returns res ->
  exists evs output,
    history (snd (get_tasks target hotkey n w)) = history w ++ evs /\
    score_calls evs =
      [(if py_not (tasks res) then disable_url target (gateways res)
        else gateways res, output)].
Proof.
  intros Hout. rewrite get_tasks_run, (fetch_step_returns _ _ _ _ _ Hout).
  simpl snd. rewrite after_steps_events. simpl history. rewrite <- app_assoc.
  destruct (tasks res) as [|t ts]; do 2 eexists; (split; [reflexivity|]);
    simpl; rewrite score_calls_updated; reflexivity.
Qed.

(** *** The list handed to the scorer *)

Lemma reset_disabled_urls gs :
  map (@url Score) (reset_disabled gs) = map (@url Score) gs /\
  map (@score Score) (reset_disabled gs) = map (@score Score) gs.
Proof.
  unfold reset_disabled. rewrite !map_map. split; reflexivity.
Qed.

Lemma disable_url_urls target gs :
  map (@url Score) (disable_url target gs) = map (@url Score) gs /\
  map (@score Score) (disable_url target gs) = map (@score Score) gs.
Proof.
  induction gs as [|g gs [IHu IHs]]; simpl; [split; reflexivity|].
  destruct (String.eqb (url g) target); simpl; [split; reflexivity|].
  rewrite IHu, IHs. split; reflexivity.
Qed.

Lemma has_url_reset target gs :
  has_url target (reset_disabled gs) = has_url target gs.
Proof.
  unfold has_url, reset_disabled.
  induction gs as [|g gs IH]; simpl; [reflexivity|]. rewrite IH. reflexivity.
Qed.

Lemma count_disabled_cleared gs :
  Forall (fun g => disabled g = false) gs -> count_disabled gs = 0%nat.
Proof.
  unfold count_disabled. induction 1 as [|g gs Hg _ IH]; simpl; [reflexivity|].
  rewrite Hg. exact IH.
Qed.

Lemma count_disabled_disable_url target gs :
  Forall (fun g => disabled g = false) gs ->
  count_disabled (disable_url target gs) = if has_url target gs then 1%nat else 0%nat.
Proof.
  induction 1 as [|g gs Hg Hrest IH]; simpl; [reflexivity|].
  destruct (String.eqb (url g) target); simpl.
  - unfold count_disabled. simpl.
    fold (count_disabled gs). rewrite (count_disabled_cleared gs Hrest). reflexivity.
  - unfold count_disabled in *. simpl. rewrite Hg. exact IH.
Qed.

(** A gateway that is disabled already is left as it is by the disable step. *)
Lemma disable_url_keeps_disabled target gs g :
  In g gs -> disabled g = true -> In g (disable_url target gs).
Proof.
  induction gs as [|g0 gs IH]; simpl; [tauto|].
  intros [->|Hin] Hd.
  - destruct (String.eqb (url g) target); [|left; reflexivity].
    left. destruct g as [u s d]. simpl in Hd. subst d. reflexivity.
  - destruct (String.eqb (url g0) target); right; auto.
Qed.

(** X4.  After a transport error the scorer is handed the gateways the
    manager had, in their order, with their urls and scores: none is added,
    dropped or moved.  Exactly one of them is disabled when the target url is
    among them, and none otherwise. *)
Theorem get_tasks_error_keeps_gateways target hotkey n w e :
  gateway_api_get_tasks (at_transport w) target hotkey n = Raises e ->
  is_Http3Exception e = true ->
  exists evs input output,
    history (snd (get_tasks target hotkey n w)) = history w ++ evs /\
    score_calls evs = [(input, output)] /\
    map (@url Score) input = map (@url Score) (_gateways w) /\
    map (@score Score) input = map (@score Score) (_gateways w) /\
    count_disabled input = if has_url target (_gateways w) then 1%nat else 0%nat.
Proof.
  intros Hout He.
  destruct (scorer_call_after_error target hotkey n w e Hout He)
    as [evs [output [Hh Hs]]].
  exists evs, (disable_url target (reset_disabled (_gateways w))), output.
  split; [exact Hh|]. split; [exact Hs|].
  destruct (disable_url_urls target (reset_disabled (_gateways w))) as [Hu1 Hs1].
  destruct (reset_disabled_urls (_gateways w)) as [Hu2 Hs2].
  split; [congruence|]. split; [congruence|].
  rewrite count_disabled_disable_url by apply reset_disabled_cleared.
  rewrite has_url_reset. reflexivity.
Qed.


(** X5.  When the transport returns, the scorer is handed the transport's
    gateways, in their order, with their urls and scores.  The reset does not
    reach them: a gateway the transport returned disabled is handed over
    disabled, whether tasks came with it or not. *)
Theorem get_tasks_success_keeps_transport_list target hotkey n w res :
  gateway_api_get_tasks (at_transport w) target hotkey n = Returns res ->
  exists evs input output,
    history (snd (get_tasks target hotkey n w)) = history w ++ evs /\
    score_calls evs = [(input, output)] /\
    map (@url Score) input = map (@url Score) (gateways res) /\
    map (@score Score) input = map (@score Score) (gateways res) /\
    (forall g, In g (gateways res) -> disabled g = true -> In g input) /\
    (tasks res <> [] -> input = gateways res).
Proof.
  intros Hout.
  destruct (scorer_call_after_success target hotkey n w res Hout)
    as [evs [output [Hh Hs]]].
  do 3 eexists. split; [exact Hh|]. split; [exact Hs|].
  destruct (disable_url_urls target (gateways res)) as [Hu1 Hs1].
  destruct (tasks res) as [|t ts]; simpl.
  - split; [exact Hu1|]. split; [exact Hs1|].
    split; [|congruence].
    intros g Hin Hd. apply disable_url_keeps_disabled; assumption.
  - repeat split. intros g Hin _. exact Hin.
Qed.

(** *** The flags a call starts with *)

Lemma reset_disabled_idempotent gs :
  reset_disabled (reset_disabled gs) = reset_disabled gs.
Proof. unfold reset_disabled. rewrite map_map. reflexivity. Qed.

Lemma reset_disabled_same gs1 gs2 :
  same_but_disabled gs1 gs2 -> reset_disabled gs1 = reset_disabled gs2.
Proof.
  unfold same_but_disabled, reset_disabled.
  induction 1 as [|g1 g2 gs1 gs2 [Hu Hs] _ IH]; simpl; [reflexivity|].
  rewrite IH. f_equal. unfold set_disabled. rewrite Hu, Hs. reflexivity.
Qed.

(** The fetch step looks at the world it starts in only after the reset. *)
Lemma fetch_step_at_transport target hotkey n w :
  fetch_step target hotkey n w = fetch_step target hotkey n (at_transport w).
Proof.
  assert (Hsame : at_transport (at_transport w) = at_transport w).
  { unfold at_transport. simpl. rewrite reset_disabled_idempotent. reflexivity. }
  destruct (gateway_api_get_tasks (at_transport w) target hotkey n) as [res|e] eqn:Hout.
  - rewrite (fetch_step_returns _ _ _ _ _ Hout).
    rewrite <- Hsame in Hout.
    rewrite (fetch_step_returns _ _ _ _ _ Hout). reflexivity.
  - destruct (is_Http3Exception e) eqn:He.
    + rewrite (fetch_step_http3 _ _ _ _ _ Hout He).
      rewrite <- Hsame in Hout.
      rewrite (fetch_step_http3 _ _ _ _ _ Hout He).
      simpl. rewrite reset_disabled_idempotent. reflexivity.
    + rewrite (fetch_step_other _ _ _ _ _ Hout He).
      rewrite <- Hsame in Hout.
      rewrite (fetch_step_other _ _ _ _ _ Hout He).
      simpl. rewrite reset_disabled_idempotent. reflexivity.
Qed.

(** X6.  The flags the manager holds when [get_tasks] starts have no
    influence on the run: from two worlds with the same history whose
    gateway lists differ at most in the flags, [get_tasks] has the same
    outcome and leaves the same world, flags included, whatever the
    collaborators are. *)
Theorem get_tasks_forgets_flags target hotkey n w1 w2 :
  history w1 = history w2 ->
  same_but_disabled (_gateways w1) (_gateways w2) ->
  get_tasks target hotkey n w1 = get_tasks target hotkey n w2.
Proof.
  intros Hh Hsame.
  assert (Hw : at_transport w1 = at_transport w2).
  { unfold at_transport. rewrite Hh, (reset_disabled_same _ _ Hsame). reflexivity. }
  rewrite !get_tasks_run.
  rewrite (fetch_step_at_transport target hotkey n w1).
  rewrite (fetch_step_at_transport target hotkey n w2).
  rewrite Hw. reflexivity.
Qed.

(** *** More on [get_best_gateway] *)

(** X7.  [get_best_gateway] only reads: it leaves the gateway list as it
    is, calls neither the transport nor the scorer, logs nothing, and appends
    to the history at most the one draw it makes. *)
Theorem get_best_gateway_reads_only w :
  exists evs,
    history (snd (get_best_gateway w)) = history w ++ evs /\
    _gateways (snd (get_best_gateway w)) = _gateways w /\
    (evs = [] \/
     evs = [EvRandBelow (List.length (_gateways w))
              (rd_randbelow w (List.length (_gateways w)))]) /\
    transport_calls evs = [] /\ score_calls evs = [] /\
    add_result_calls evs = [] /\ log_records evs = [].
Proof.
  destruct (_gateways w) as [|first rest] eqn:Hgs.
  - rewrite (get_best_gateway_nil w Hgs). exists []. simpl.
    rewrite app_nil_r. repeat split; auto.
  - assert (Hmax : py_max score_gt (@score Score) (_gateways w) =
                   Returns (max_from score_gt (@score Score) first rest))
      by (rewrite Hgs; reflexivity).
    destruct (score_eq (score (max_from score_gt (@score Score) first rest))
                GATEWAY_MIN_SCORE) eqn:Hmin.
    + rewrite (get_best_gateway_random w _ Hmax Hmin). unfold after_draw. simpl.
      rewrite Hgs. eexists. split; [reflexivity|]. repeat split; auto.
    + rewrite (get_best_gateway_best w _ Hmax Hmin). exists []. simpl.
      rewrite app_nil_r. repeat split; auto.
Qed.

(** The outcomes of [get_best_gateway], case by case. *)
Lemma get_best_gateway_cases w :
  match fst (get_best_gateway w) with
  | Returns None => _gateways w = []
  | Returns (Some g) => In g (_gateways w)
  | Raises _ =>
      _gateways w <> [] /\
      (List.length (_gateways w) <= rd_randbelow w (List.length (_gateways w)))%nat
  end.
Proof.
  destruct (_gateways w) as [|first rest] eqn:Hgs.
  - rewrite (get_best_gateway_nil w Hgs). reflexivity.
  - assert (Hmax : py_max score_gt (@score Score) (_gateways w) =
                   Returns (max_from score_gt (@score Score) first rest))
      by (rewrite Hgs; reflexivity).
    destruct (score_eq (score (max_from score_gt (@score Score) first rest))
                GATEWAY_MIN_SCORE) eqn:Hmin.
    + rewrite (get_best_gateway_random w _ Hmax Hmin). simpl fst. rewrite Hgs.
      destruct (nth_error (first :: rest)
                  (rd_randbelow w (List.length (first :: rest)))) as [g|] eqn:Hnth.
      * exact (nth_error_In _ _ Hnth).
      * split; [discriminate|]. apply nth_error_None. exact Hnth.
    + rewrite (get_best_gateway_best w _ Hmax Hmin). simpl.
      apply max_from_In.
Qed.

(** X8.  What [get_best_gateway] can give: nothing exactly when the list is
    empty, otherwise a gateway of the list; it raises only when the random
    source hands out an index that is not below the length. *)
Theorem get_best_gateway_outcome w :
  (fst (get_best_gateway w) = Returns None <-> _gateways w = []) /\
  (forall g, fst (get_best_gateway w) = Returns (Some g) -> In g (_gateways w)) /\
  (forall e, fst (get_best_gateway w) = Raises e ->
     _gateways w <> [] /\
     (List.length (_gateways w) <= rd_randbelow w (List.length (_gateways w)))%nat).
Proof.
  pose proof (get_best_gateway_cases w) as Hcases.
  split; [split|split].
  - intros Hnone. rewrite Hnone in Hcases. exact Hcases.
  - intros Hnil. rewrite (get_best_gateway_nil w Hnil). reflexivity.
  - intros g Hsome. rewrite Hsome in Hcases. exact Hcases.
  - intros e Hraise. rewrite Hraise in Hcases. exact Hcases.
Qed.


(** Under a strict total order [max] stops at the first of the greatest
    elements: everything before it is smaller, nothing after it is greater. *)
Lemma max_from_first_greatest {A K : Type} (gt : K -> K -> bool) (key : A -> K) :
  (forall a b c, gt a b = true -> gt b c = true -> gt a c = true) ->
  (forall a b, gt a b = false -> gt b a = false -> a = b) ->
  forall (rest before : list A) (best : A) (after : list A),
    (forall x, In x before -> gt (key best) (key x) = true) ->
    (forall x, In x after -> gt (key x) (key best) = false) ->
    exists pre post,
      before ++ best :: after ++ rest = pre ++ max_from gt key best rest :: post /\
      (forall x, In x pre -> gt (key (max_from gt key best rest)) (key x) = true) /\
      (forall x, In x post -> gt (key x) (key (max_from gt key best rest)) = false).
Proof.
  intros Htrans Htotal.
  induction rest as [|y rest IH]; intros before best after Hbefore Hafter.
  - exists before, after. rewrite app_nil_r. repeat split; assumption.
  - unfold max_from in *. simpl fold_left.
    destruct (gt (key y) (key best)) eqn:Hy.
    + destruct (IH (before ++ best :: after) y []) as [pre [post [Heq [Hpre Hpost]]]].
      * intros x Hx. apply in_app_or in Hx. destruct Hx as [Hx|[<-|Hx]].
        -- exact (Htrans _ _ _ Hy (Hbefore x Hx)).
        -- exact Hy.
        -- destruct (gt (key y) (key x)) eqn:Hyx; [reflexivity|].
           destruct (gt (key x) (key y)) eqn:Hxy.
           ++ pose proof (Hafter x Hx) as Hx'.
              rewrite (Htrans _ _ _ Hxy Hy) in Hx'. discriminate.
           ++ pose proof (Htotal _ _ Hyx Hxy) as Hk.
              pose proof (Hafter x Hx) as Hx'. rewrite <- Hk, Hy in Hx'.
              discriminate.
      * intros x [].
      * exists pre, post. split; [|split; assumption].
        rewrite <- Heq. rewrite <- !app_assoc. reflexivity.
    + destruct (IH before best (after ++ [y])) as [pre [post [Heq [Hpre Hpost]]]].
      * exact Hbefore.
      * intros x Hx. apply in_app_or in Hx. destruct Hx as [Hx|[<-|[]]].
        -- exact (Hafter x Hx).
        -- exact Hy.
      * exists pre, post. split; [|split; assumption].
        rewrite <- Heq. rewrite <- !app_assoc. reflexivity.
Qed.

(** X9.  When the maximum score is not the minimum score, the gateway
    returned is the first one that has the maximum score: every gateway
    before it in the list scores strictly less.  Nothing is drawn and the
    world is unchanged.  The comparison is assumed to be a strict total
    order. *)
Theorem get_best_gateway_first_of_ties w m :
  gt_asymmetric -> gt_transitive -> gt_total ->
  is_max_score m (_gateways w) ->
  score_eq m GATEWAY_MIN_SCORE = false ->
  exists pre g post,
    _gateways w = pre ++ g :: post /\
    get_best_gateway w = (Returns (Some g), w) /\
    score g = m /\
    (forall x, In x pre -> score_gt m (score x) = true).
Proof.
  intros Hasym Htrans Htotal [[g0 [Hg0 Hm0]] Hmax] Hmin.
  destruct (_gateways w) as [|first rest] eqn:Hgs; [destruct Hg0|].
  destruct (max_from_first_greatest score_gt (@score Score) Htrans Htotal
              rest [] first [])
    as [pre [post [Heq [Hpre Hpost]]]]; try (intros x []).
  simpl in Heq.
  assert (Hm : score (max_from score_gt (@score Score) first rest) = m).
  { apply Htotal.
    - apply Hmax. apply max_from_In.
    - rewrite <- Hm0.
      apply (max_from_upper_bound score_gt (@score Score) first rest Hasym Htrans g0 Hg0). }
  exists pre, (max_from score_gt (@score Score) first rest), post.
  split; [exact Heq|]. split; [|split; [exact Hm|]].
  - apply get_best_gateway_best; [rewrite Hgs; reflexivity | rewrite Hm; exact Hmin].
  - intros x Hx. rewrite <- Hm. exact (Hpre x Hx).
Qed.

(** X10.  Selection after a fetch looks at the scorer's answer only: once
    [get_tasks] has returned, its one call to the scorer was made in the
    world the disable step left, on the list of that world; the gateway list
    is what the scorer answers there; [get_best_gateway] gives nothing
    exactly when that answer is empty, and any gateway it gives is one of
    that answer. *)
Theorem get_best_gateway_after_get_tasks target hotkey n w fetched w' :
  get_tasks target hotkey n w = (Returns fetched, w') ->
  exists evs,
    history w' = history w ++ evs /\
    score_calls evs =
      [(_gateways (after_disable target fetched (at_disable target hotkey n w)),
        gateway_scorer_score
          (after_disable target fetched (at_disable target hotkey n w))
          (_gateways (after_disable target fetched (at_disable target hotkey n w))))] /\
    _gateways w' =
      gateway_scorer_score
        (after_disable target fetched (at_disable target hotkey n w))
        (_gateways (after_disable target fetched (at_disable target hotkey n w))) /\
    (fst (get_best_gateway w') = Returns None <->
     gateway_scorer_score
       (after_disable target fetched (at_disable target hotkey n w))
       (_gateways (after_disable target fetched (at_disable target hotkey n w))) = []) /\
    (forall g, fst (get_best_gateway w') = Returns (Some g) ->
               In g (gateway_scorer_score
                       (after_disable target fetched (at_disable target hotkey n w))
                       (_gateways (after_disable target fetched
                                     (at_disable target hotkey n w))))).
Proof.
  intros Hrun.
  pose proof (get_tasks_final_list target hotkey n w fetched w' Hrun) as Hfinal.
  rewrite <- Hfinal. unfold at_disable in Hfinal.
  rewrite get_tasks_run in Hrun.
  destruct (fetch_step target hotkey n w) as [[fetched1|e] w1] eqn:Hfetch;
    [|discriminate].
  inversion Hrun; subst fetched1 w'. clear Hrun. simpl snd in Hfinal.
  assert (Hw1 : exists evs1, history w1 = history w ++ evs1 /\ score_calls evs1 = []).
  { destruct (gateway_api_get_tasks (at_transport w) target hotkey n) as [res|e] eqn:Hout.
    - rewrite (fetch_step_returns _ _ _ _ _ Hout) in Hfetch. inversion Hfetch; subst.
      eexists. split; reflexivity.
    - destruct (is_Http3Exception e) eqn:He.
      + rewrite (fetch_step_http3 _ _ _ _ _ Hout He) in Hfetch. inversion Hfetch; subst.
        eexists. split; reflexivity.
      + rewrite (fetch_step_other _ _ _ _ _ Hout He) in Hfetch. discriminate. }
  destruct Hw1 as [evs1 [Hh1 Hs1]].
  destruct (after_steps_history target fetched w1) as [evs2 [Hh2 Hs2]].
  exists (evs1 ++ evs2).
  split; [rewrite Hh2, Hh1, app_assoc; reflexivity|].
  split; [unfold at_disable; rewrite Hfetch; simpl snd;
          rewrite score_calls_app, Hs1, Hs2; reflexivity|].
  split; [reflexivity|].
  pose proof (get_best_gateway_cases (after_update (after_disable target fetched w1)))
    as Hout.
  split; [split|].
  - intros Hnone. rewrite Hnone in Hout. exact Hout.
  - intros Hnil. rewrite (get_best_gateway_nil _ Hnil). reflexivity.
  - intros g Hsome. rewrite Hsome in Hout. exact Hout.
Qed.

End MoreProperties.

(** ** Properties of the load-test script *)

Section ScriptProperties.

Import LoadTest.
Local Open Scope string_scope.
Local Open Scope list_scope.

Context {float : Type} {env : ScriptEnv float}.

(** *** [_browserish_headers] *)

Lemma mod_3_cases (i : Z) : (i mod 3 = 0 \/ i mod 3 = 1 \/ i mod 3 = 2)%Z.
Proof. pose proof (Z.mod_pos_bound i 3). lia. Qed.

Lemma user_agent_of_pool (ua_idx : Z) :
  exists ua,
    py_getitem BROWSER_UAS (ua_idx mod Z.of_nat (List.length BROWSER_UAS)) = Returns ua /\
    ua_at ua_idx = Some ua.
Proof.
  unfold ua_at. change (Z.of_nat (List.length BROWSER_UAS)) with 3%Z.
  destruct (mod_3_cases ua_idx) as [H|[H|H]]; rewrite H; eexists; split; reflexivity.
Qed.

Lemma browserish_headers_run url ua_idx scheme netloc :
  urlsplit url = Returns (scheme, netloc) ->
  exists ua,
    ua_at ua_idx = Some ua /\
    _browserish_headers url ua_idx =
    Returns [
      ("User-Agent", ua);
      ("Accept", "text/html,application/xhtml+xml,application/xml;q=0.9,application/json;q=0.8,*/*;q=0.7");
      ("Accept-Language", "en-US,en;q=0.9");
      ("Referer", ((scheme ++ "://" ++ netloc) ++ "/")%string);
      ("Origin", (scheme ++ "://" ++ netloc)%string);
      ("Connection", "keep-alive");
      ("Content-Type", "application/x-www-form-urlencoded")
    ].
Proof.
  intros Hsplit. destruct (user_agent_of_pool ua_idx) as [ua [Hget Hua]].
  exists ua. split; [exact Hua|].
  unfold _browserish_headers. rewrite Hsplit. cbn [and_then].
  rewrite Hget. reflexivity.
Qed.

(** X11.  For every integer [ua_idx], negative ones included, the headers of
    a url that splits are built without an index error, and their user agent
    is the entry of the pool at [ua_idx mod 3]: it comes back after three
    attempts and is never the one of the attempt before.  [Referer] is
    [Origin] followed by a slash. *)
Theorem browserish_headers_rotation url ua_idx scheme netloc :
  urlsplit url = Returns (scheme, netloc) ->
  exists headers ua,
    _browserish_headers url ua_idx = Returns headers /\
    header_get headers "User-Agent" = Some ua /\
    ua_at ua_idx = Some ua /\
    In ua BROWSER_UAS /\
    ua_at (ua_idx + 3) = Some ua /\
    ua_at (ua_idx + 1) <> Some ua /\
    header_get headers "Origin" = Some (scheme ++ "://" ++ netloc)%string /\
    header_get headers "Referer" = Some ((scheme ++ "://" ++ netloc) ++ "/")%string.
Proof.
  intros Hsplit.
  destruct (browserish_headers_run url ua_idx scheme netloc Hsplit) as [ua [Hua Hrun]].
  eexists. exists ua. split; [exact Hrun|].
  split; [reflexivity|]. split; [exact Hua|].
  split; [exact (nth_error_In _ _ Hua)|].
  split; [|split; [|split; reflexivity]].
  - unfold ua_at in *. rewrite Z.add_mod, Z.mod_same, Z.add_0_r, Z.mod_mod by lia.
    exact Hua.
  - unfold ua_at in *. rewrite Z.add_mod by lia.
    change (1 mod 3)%Z with 1%Z.
    destruct (mod_3_cases ua_idx) as [H|[H|H]]; rewrite H in *;
      simpl in *; inversion Hua; subst; discriminate.
Qed.

(** *** [sample_prompts] *)

(** X12.  Under the library's contract for [shuffle] and [sample],
    [sample_prompts] raises exactly when [n] is negative and there are lines.
    Otherwise it returns [min(n, len(lines))] lines, all of them among the
    given ones, and every given line once when [n] reaches their number. *)
Theorem sample_prompts_outcome (lines : list string) (n : Z) (seed : option Z) :
  random_contract ->
  match sample_prompts lines n seed with
  | Raises e => (n < 0)%Z /\ lines <> [] /\ exists msg, e = ValueError msg
  | Returns picked =>
      ((0 <= n)%Z \/ lines = []) /\
      List.length picked = Z.to_nat (Z.min n (Z.of_nat (List.length lines))) /\
      (forall x, In x picked -> In x lines) /\
      ((Z.of_nat (List.length lines) <= n)%Z -> Permutation lines picked)
  end.
Proof.
  intros [Hshuffle [Hsample Hraise]]. unfold sample_prompts.
  destruct lines as [|line lines]; simpl py_not; cbv iota.
  - split; [right; reflexivity|]. split; [simpl; lia|].
    split; [intros x []|]. intros _. constructor.
  - set (all := line :: lines).
    destruct (n >=? Z.of_nat (List.length all))%Z eqn:Hn.
    + assert (Hge : (Z.of_nat (List.length all) <= n)%Z) by lia.
      pose proof (Hshuffle seed all) as Hperm.
      split; [left; lia|]. split; [|split].
      * rewrite <- (Permutation_length Hperm). lia.
      * intros x Hx. apply (Permutation_in x (Permutation_sym Hperm)). exact Hx.
      * intros _. exact Hperm.
    + assert (Hlt : (n < Z.of_nat (List.length all))%Z) by lia.
      destruct (Z_lt_ge_dec n 0) as [Hneg|Hpos].
      * destruct (Hraise seed all n (or_introl Hneg)) as [msg ->].
        split; [exact Hneg|]. split; [discriminate|]. exists msg. reflexivity.
      * destruct (Hsample seed all n) as [r [-> [Hlen Hin]]]; [lia|].
        split; [left; lia|]. split; [rewrite Hlen; lia|].
        split; [exact Hin|]. intros Hle. lia.
Qed.

(** *** [_reduce_response] *)

Lemma py_get_usable (v : PyValue float) (k : string) :
  usable v = true ->
  py_get (py_or v (PDict [])) k = Returns (dict_get (fields_of v) k).
Proof.
  unfold usable, py_or.
  destruct v as [|b|z|f|s|items|items]; simpl; intros H.
  - reflexivity.
  - destruct b; [discriminate | reflexivity].
  - destruct (z =? 0)%Z; [reflexivity | discriminate].
  - destruct (float_is_zero f); [reflexivity | discriminate].
  - destruct (String.eqb s ""); [reflexivity | discriminate].
  - destruct items; [reflexivity | discriminate].
  - destruct items; reflexivity.
Qed.

Lemma py_get_unusable (v : PyValue float) (k : string) :
  usable v = false -> exists e, py_get (py_or v (PDict [])) k = Raises e.
Proof.
  unfold usable, py_or.
  destruct v as [|b|z|f|s|items|items]; simpl; intros H; try discriminate.
  - destruct b; [eexists; reflexivity | discriminate].
  - destruct (z =? 0)%Z; [discriminate | eexists; reflexivity].
  - destruct (float_is_zero f); [discriminate | eexists; reflexivity].
  - destruct (String.eqb s ""); [discriminate | eexists; reflexivity].
  - destruct items; [discriminate | eexists; reflexivity].
Qed.

(** The two kinds of entry [_reduce_response] makes. *)
Lemma reduce_response_cases (prompt body : string) :
  exists entry,
    _reduce_response prompt body = Returns (prompt, entry) /\
    dict_get entry "prompt" = PStr prompt /\
    truthy (dict_get entry "error") = negb (reducible body) /\
    (reducible body = false ->
     entry = [("prompt", PStr prompt); ("error", PBool true);
              ("response_raw", PStr body)]) /\
    (reducible body = true ->
     map fst entry = ["prompt"; "clip"; "attempts"; "elapsed_s"; "validation_score";
                      "iqa"; "alignment_score"; "ssim"; "lpips"]).
Proof.
  unfold _reduce_response, reduce_body, reducible.
  destruct (json_loads body) as [d|e]; simpl and_then.
  2:{ eexists. split; [reflexivity|]. repeat split; try reflexivity; discriminate. }
  destruct d as [| | | | | |items]; simpl;
    try (eexists; split; [reflexivity|]; repeat split; try reflexivity; discriminate).
  destruct (usable (dict_get items "gen")) eqn:Hgen.
  - destruct (usable (dict_get items "validation")) eqn:Hval.
    + rewrite !(py_get_usable _ _ Hgen). simpl and_then.
      rewrite !(py_get_usable _ _ Hval). simpl.
      eexists. split; [reflexivity|]. repeat split; try reflexivity; discriminate.
    + rewrite !(py_get_usable _ _ Hgen). simpl and_then.
      destruct (py_get_unusable _ "score" Hval) as [e ->]. simpl.
      eexists. split; [reflexivity|]. repeat split; try reflexivity; discriminate.
  - destruct (py_get_unusable _ "score" Hgen) as [e ->]. simpl.
    eexists. split; [reflexivity|]. repeat split; try reflexivity; discriminate.
Qed.

(** The entry made of a reducible body. *)
Lemma reduce_response_reads (prompt body : string) :
  reducible body = true ->
  _reduce_response prompt body =
  Returns (prompt, [
    ("prompt", PStr prompt);
    ("clip", dict_get (section body "gen") "score");
    ("attempts", dict_get (section body "gen") "attempts");
    ("elapsed_s", dict_get (section body "gen") "elapsed_s");
    ("validation_score", dict_get (section body "validation") "score");
    ("iqa", dict_get (section body "validation") "iqa");
    ("alignment_score", dict_get (section body "validation") "alignment_score");
    ("ssim", dict_get (section body "validation") "ssim");
    ("lpips", dict_get (section body "validation") "lpips")
  ]).
Proof.
  unfold _reduce_response, reduce_body, reducible, section.
  destruct (json_loads body) as [d|e]; [|discriminate].
  destruct d as [| | | | | |items]; try discriminate.
  intros H. apply andb_true_iff in H. destruct H as [Hgen Hval].
  simpl and_then.
  rewrite !(py_get_usable _ _ Hgen). simpl and_then.
  rewrite !(py_get_usable _ _ Hval). reflexivity.
Qed.

(** X13.  [_reduce_response] never raises and hands the prompt back.  The
    entry is the error entry, with the body under ["response_raw"], exactly
    when the body is not JSON, or its JSON is not an object, or ["gen"] or
    ["validation"] holds something truthy that is not an object.  In every
    other case the entry has the nine result keys and no ["error"] key,
    whatever keys the object has itself. *)
Theorem reduce_response_outcome (prompt body : string) :
  exists entry,
    _reduce_response prompt body = Returns (prompt, entry) /\
    dict_get entry "prompt" = PStr prompt /\
    truthy (dict_get entry "error") = negb (reducible body) /\
    (reducible body = false ->
     entry = [("prompt", PStr prompt); ("error", PBool true);
              ("response_raw", PStr body)]) /\
    (reducible body = true ->
     map fst entry = ["prompt"; "clip"; "attempts"; "elapsed_s"; "validation_score";
                      "iqa"; "alignment_score"; "ssim"; "lpips"] /\
     dict_get entry "error" = PNone).
Proof.
  destruct (reduce_response_cases prompt body) as [entry [Hrun [Hp [He [Hbad Hgood]]]]].
  exists entry. repeat split; try assumption.
  - exact (Hgood H).
  - rewrite (reduce_response_reads prompt body H) in Hrun.
    inversion Hrun; subst entry. reflexivity.
Qed.

(** X14.  From a reducible body each field is read from its section:
    ["clip"], ["attempts"] and ["elapsed_s"] from ["gen"], the other five
    from ["validation"], with [None] for a key the section lacks.  A section
    that is absent, [null] or otherwise falsy reads as an empty one. *)
Theorem reduce_response_fields (prompt body : string) :
  reducible body = true ->
  _reduce_response prompt body =
  Returns (prompt, [
    ("prompt", PStr prompt);
    ("clip", dict_get (section body "gen") "score");
    ("attempts", dict_get (section body "gen") "attempts");
    ("elapsed_s", dict_get (section body "gen") "elapsed_s");
    ("validation_score", dict_get (section body "validation") "score");
    ("iqa", dict_get (section body "validation") "iqa");
    ("alignment_score", dict_get (section body "validation") "alignment_score");
    ("ssim", dict_get (section body "validation") "ssim");
    ("lpips", dict_get (section body "validation") "lpips")
  ]) /\
  (forall key, (key = "gen" \/ key = "validation") ->
     forall d, json_loads body = Returns (PDict d) ->
     truthy (dict_get d key) = false -> section body key = []).
Proof.
  unfold _reduce_response, reduce_body, reducible, section.
  destruct (json_loads body) as [d|e] eqn:Hjson; [|discriminate].
  destruct d as [| | | | | |items]; try discriminate.
  intros H. pose proof (reduce_response_reads prompt body) as Hreads.
  unfold _reduce_response, reduce_body, reducible, section in Hreads.
  rewrite Hjson in Hreads.
  split.
  - exact (Hreads H).
  - intros key _ d Hd Hfalsy. inversion Hd; subst d.
    unfold fields_of. destruct (dict_get items key); try reflexivity.
    simpl in Hfalsy. destruct items0; [reflexivity | discriminate].
Qed.


(** *** [post_prompt] *)

(** The entry [post_prompt] makes of what the [try] block ran into, once
    the payload and the request are built. *)
Lemma post_prompt_run url prompt timeout ua_idx h payload u scheme netloc :
  encode_payload prompt = Returns payload ->
  new_request url = Returns u ->
  urlsplit url = Returns (scheme, netloc) ->
  exists req,
    req_url req = url /\ req_data req = payload /\
    req_method req = "POST" /\
    header_get (req_headers req) "User-Agent" = ua_at ua_idx /\
    match urlopen h req timeout with
    | FetchBody body =>
        exists entry,
          _reduce_response prompt body = Returns (prompt, entry) /\
          post_prompt url prompt timeout ua_idx h =
          (Returns (prompt, entry), h ++ [SUrlopen req timeout (FetchBody body)])
    | FetchHTTPError code (Returns text) =>
        post_prompt url prompt timeout ua_idx h =
        (Returns (prompt, [("prompt", PStr prompt); ("error", PBool true);
                           ("status", code); ("response_raw", PStr text)]),
         h ++ [SUrlopen req timeout (FetchHTTPError code (Returns text))])
    | FetchHTTPError code (Raises e) =>
        post_prompt url prompt timeout ua_idx h =
        (Raises e, h ++ [SUrlopen req timeout (FetchHTTPError code (Raises e))])
    | FetchFailed e =>
        post_prompt url prompt timeout ua_idx h =
        (Returns (prompt, [("prompt", PStr prompt); ("error", PBool true);
                           ("exception", PStr (py_repr e))]),
         h ++ [SUrlopen req timeout (FetchFailed e)])
    end.
Proof.
  intros Henc Hreq Hsplit.
  destruct (browserish_headers_run url ua_idx scheme netloc Hsplit) as [ua [Hua Hheaders]].
  unfold post_prompt. rewrite Henc, Hreq, Hheaders.
  match type of Hheaders with
  | _ = Returns ?hs => exists (mkRequest url payload "POST" hs)
  end.
  split; [reflexivity|]. split; [reflexivity|]. split; [reflexivity|].
  split; [simpl; symmetry; exact Hua|].
  cbv zeta.
  match goal with |- match ?f with _ => _ end => destruct f as [body|code [text|e]|e] end.
  - destruct (reduce_response_cases prompt body) as [entry [Hred _]].
    exists entry. split; [exact Hred|]. rewrite Hred. reflexivity.
  - reflexivity.
  - reflexivity.
  - reflexivity.
Qed.

(** X15.  [post_prompt] raises only when the request cannot be built (the
    encoding of the prompt into the payload, the constructor or the
    splitting of the url raises, and then nothing is sent) or when the body
    of an [HTTPError] cannot be read.  Whatever else happens to the one
    request it sends, whose data is the encoded prompt, comes back as an
    entry for the prompt, with a true ["error"] unless a body arrived that
    is reducible. *)
Theorem post_prompt_outcome url prompt timeout ua_idx h :
  match post_prompt url prompt timeout ua_idx h with
  | (Raises e, h') =>
      (encode_payload prompt = Raises e /\ h' = h) \/
      (new_request url = Raises e /\ h' = h) \/
      (urlsplit url = Raises e /\ h' = h) \/
      (exists req code,
         urlopen h req timeout = FetchHTTPError code (Raises e) /\
         h' = h ++ [SUrlopen req timeout (FetchHTTPError code (Raises e))])
  | (Returns (pr, entry), h') =>
      pr = prompt /\
      dict_get entry "prompt" = PStr prompt /\
      exists req,
        encode_payload prompt = Returns (req_data req) /\
        req_url req = url /\
        h' = h ++ [SUrlopen req timeout (urlopen h req timeout)] /\
        truthy (dict_get entry "error") =
          match urlopen h req timeout with
          | FetchBody body => negb (reducible body)
          | _ => true
          end
  end.
Proof.
  destruct (encode_payload prompt) as [payload|e] eqn:Henc.
  2:{ unfold post_prompt. rewrite Henc. left. split; reflexivity. }
  destruct (new_request url) as [u|e] eqn:Hreq.
  2:{ unfold post_prompt. rewrite Henc, Hreq. right. left. split; reflexivity. }
  destruct (urlsplit url) as [[scheme netloc]|e] eqn:Hsplit.
  2:{ unfold post_prompt, _browserish_headers. rewrite Henc, Hreq, Hsplit. simpl.
      right. right. left. split; reflexivity. }
  destruct (post_prompt_run url prompt timeout ua_idx h payload u scheme netloc
              Henc Hreq Hsplit)
    as [req [Hurl [Hdata [_ [_ Hrun]]]]].
  destruct (urlopen h req timeout) as [body|code [text|e]|e] eqn:Hfetch.
  - destruct Hrun as [entry [Hred ->]].
    destruct (reduce_response_cases prompt body) as [entry' [Hred' [Hp [He _]]]].
    rewrite Hred in Hred'. inversion Hred'; subst entry'.
    split; [reflexivity|]. split; [exact Hp|].
    exists req. rewrite Hfetch, Hdata.
    split; [reflexivity|]. split; [exact Hurl|]. split; [reflexivity | exact He].
  - rewrite Hrun. split; [reflexivity|]. split; [reflexivity|].
    exists req. rewrite Hfetch, Hdata.
    split; [reflexivity|]. split; [exact Hurl|]. split; reflexivity.
  - rewrite Hrun. right. right. right. exists req, code.
    split; [exact Hfetch | reflexivity].
  - rewrite Hrun. split; [reflexivity|]. split; [reflexivity|].
    exists req. rewrite Hfetch, Hdata.
    split; [reflexivity|]. split; [exact Hurl|]. split; reflexivity.
Qed.


(** *** [post_with_retries] *)

Lemma posts_app (evs1 evs2 : list (SEvent float)) :
  posts (evs1 ++ evs2) = posts evs1 ++ posts evs2.
Proof.
  induction evs1 as [|ev evs1 IH]; simpl; [reflexivity|].
  destruct ev; simpl; rewrite IH; reflexivity.
Qed.

Lemma backoffs_app (evs1 evs2 : list (SEvent float)) :
  backoffs (evs1 ++ evs2) = backoffs evs1 ++ backoffs evs2.
Proof.
  induction evs1 as [|ev evs1 IH]; simpl; [reflexivity|].
  destruct ev as [| |[r|b a]]; simpl; rewrite IH; reflexivity.
Qed.

Lemma jitters_app (evs1 evs2 : list (SEvent float)) :
  jitters (evs1 ++ evs2) = jitters evs1 ++ jitters evs2.
Proof.
  induction evs1 as [|ev evs1 IH]; simpl; [reflexivity|].
  destruct ev as [| |[r|b a]]; simpl; rewrite IH; reflexivity.
Qed.

Lemma randoms_app (evs1 evs2 : list (SEvent float)) :
  randoms (evs1 ++ evs2) = randoms evs1 ++ randoms evs2.
Proof.
  induction evs1 as [|ev evs1 IH]; simpl; [reflexivity|].
  destruct ev; simpl; rewrite IH; reflexivity.
Qed.

(** The sleeps after a failed attempt, as events: what they add, and the
    sleep that raised when one did. *)
Lemma pause_after_events (out : list (string * PyValue float)) (attempt retries : Z)
    (backoff_s : float) (h : list (SEvent float)) :
  exists evs,
    snd (pause_after out attempt retries backoff_s h) = h ++ evs /\
    posts evs = [] /\
    randoms evs = jitters evs /\
    List.length (jitters evs) =
      (if (py_eq_int (dict_get out "status") 403 && (attempt <? retries)%Z)%bool
       then 1%nat else 0%nat) /\
    match fst (pause_after out attempt retries backoff_s h) with
    | Returns _ =>
        backoffs evs = (if (attempt <? retries)%Z then [(backoff_s, attempt)] else [])
    | Raises e =>
        (attempt <? retries)%Z = true /\
        exists front d,
          evs = front ++ [SSleep d] /\
          time_sleep (h ++ front) d = Raises e /\
          ((d = Backoff backoff_s attempt /\ backoffs evs = [(backoff_s, attempt)]) \/
           ((exists r, d = Jitter r) /\ backoffs evs = []))
    end.
Proof.
  unfold pause_after, sleep.
  destruct (attempt <? retries)%Z; rewrite ?andb_true_r, ?andb_false_r.
  - destruct (py_eq_int (dict_get out "status") 403).
    + destruct (time_sleep (h ++ [SRandom (random_random h)])
                  (Jitter (random_random h))) as [u|e] eqn:Hjit.
      * destruct (time_sleep ((h ++ [SRandom (random_random h)]) ++
                                [SSleep (Jitter (random_random h))])
                    (Backoff backoff_s attempt)) as [u'|e] eqn:Hback.
        -- exists [SRandom (random_random h); SSleep (Jitter (random_random h));
                   SSleep (Backoff backoff_s attempt)].
           simpl. split; [rewrite <- !app_assoc; reflexivity|]. repeat split.
        -- exists [SRandom (random_random h); SSleep (Jitter (random_random h));
                   SSleep (Backoff backoff_s attempt)].
           simpl. split; [rewrite <- !app_assoc; reflexivity|].
           split; [reflexivity|]. split; [reflexivity|]. split; [reflexivity|].
           split; [reflexivity|].
           exists [SRandom (random_random h); SSleep (Jitter (random_random h))],
                  (Backoff backoff_s attempt).
           split; [reflexivity|]. split.
           ++ rewrite <- Hback. f_equal. rewrite <- app_assoc. reflexivity.
           ++ left. split; reflexivity.
      * exists [SRandom (random_random h); SSleep (Jitter (random_random h))].
        simpl. split; [rewrite <- !app_assoc; reflexivity|].
        split; [reflexivity|]. split; [reflexivity|]. split; [reflexivity|].
        split; [reflexivity|].
        exists [SRandom (random_random h)], (Jitter (random_random h)).
        split; [reflexivity|]. split; [exact Hjit|].
        right. split; [eexists; reflexivity | reflexivity].
    + destruct (time_sleep h (Backoff backoff_s attempt)) as [u|e] eqn:Hback.
      * exists [SSleep (Backoff backoff_s attempt)]. simpl. repeat split.
      * exists [SSleep (Backoff backoff_s attempt)]. simpl.
        split; [reflexivity|]. split; [reflexivity|]. split; [reflexivity|].
        split; [reflexivity|]. split; [reflexivity|].
        exists [], (Backoff backoff_s attempt).
        split; [reflexivity|]. split; [rewrite app_nil_r; exact Hback|].
        left. split; reflexivity.
  - exists []. simpl. rewrite app_nil_r. repeat split.
Qed.

Section Retry.

Variables (url prompt : string) (timeout : float) (retries : Z) (backoff_s : float).
Hypothesis Haccepted : url_accepted url.
Hypothesis Hreadable : errors_readable.

(** One attempt, when the url is accepted and error bodies can be read: the
    exception of the encoding, or one post and its entry. *)
Lemma post_prompt_step (attempt : Z) (h : list (SEvent float)) :
  match encode_payload prompt with
  | Raises e => post_prompt url prompt timeout attempt h = (Raises e, h)
  | Returns payload =>
      exists req entry,
        post_prompt url prompt timeout attempt h =
          (Returns (prompt, entry), h ++ [SUrlopen req timeout (urlopen h req timeout)]) /\
        req_url req = url /\
        header_get (req_headers req) "User-Agent" = ua_at attempt /\
        dict_get entry "prompt" = PStr prompt /\
        (truthy (dict_get entry "error") = true ->
         py_eq_int (dict_get entry "status") 403 = is_403 (req, urlopen h req timeout)) /\
        (truthy (dict_get entry "error") = false ->
         exists body, urlopen h req timeout = FetchBody body /\ reducible body = true)
  end.
Proof.
  destruct (encode_payload prompt) as [payload|e] eqn:Henc.
  2:{ unfold post_prompt. rewrite Henc. reflexivity. }
  destruct Haccepted as [[u Hreq] [[scheme netloc] Hsplit]].
  destruct (post_prompt_run url prompt timeout attempt h payload u scheme netloc
              Henc Hreq Hsplit)
    as [req [Hurl [_ [_ [Hua Hrun]]]]].
  exists req.
  destruct (urlopen h req timeout) as [body|code [text|e]|e] eqn:Hfetch.
  - destruct Hrun as [entry [Hred Hrun]].
    destruct (reduce_response_cases prompt body) as [entry' [Hred' [Hp [He [Hbad _]]]]].
    rewrite Hred in Hred'. inversion Hred'; subst entry'.
    exists entry. split; [exact Hrun|]. split; [exact Hurl|].
    split; [exact Hua|]. split; [exact Hp|].
    split.
    + intros Herr. rewrite Herr in He. symmetry in He. apply negb_true_iff in He.
      rewrite (Hbad He). reflexivity.
    + intros Herr. rewrite Herr in He. symmetry in He. apply negb_false_iff in He.
      exists body. split; [reflexivity | exact He].
  - eexists. split; [exact Hrun|]. split; [exact Hurl|].
    split; [exact Hua|]. split; [reflexivity|].
    split; [reflexivity | discriminate].
  - exfalso. exact (Hreadable h req timeout code e Hfetch).
  - eexists. split; [exact Hrun|]. split; [exact Hurl|].
    split; [exact Hua|]. split; [reflexivity|].
    split; [reflexivity | discriminate].
Qed.

(** The loop over the attempts [s], ..., [s + len - 1], the last of them
    being attempt [retries]. *)
Lemma attempt_loop_run (len s : nat) (last : option (string * list (string * PyValue float)))
    (h : list (SEvent float)) :
  (Z.of_nat s + Z.of_nat len = retries + 1)%Z ->
  exists evs,
    snd (attempt_loop url prompt timeout retries backoff_s
           (map Z.of_nat (seq s len)) last h) = h ++ evs /\
    map (fun p => header_get (req_headers (fst p)) "User-Agent") (posts evs) =
      map (fun j => ua_at (Z.of_nat j)) (seq s (List.length (posts evs))) /\
    randoms evs = jitters evs /\
    (List.length (posts evs) <= len)%nat /\
    match fst (attempt_loop url prompt timeout retries backoff_s
                 (map Z.of_nat (seq s len)) last h) with
    | Returns (pr, out) =>
        (len = 0%nat /\ evs = [] /\ last = Some (pr, out)) \/
        (pr = prompt /\ dict_get out "prompt" = PStr prompt /\
         (1 <= List.length (posts evs))%nat /\
         (truthy (dict_get out "error") = true -> List.length (posts evs) = len) /\
         (truthy (dict_get out "error") = false ->
          exists front req body,
            posts evs = front ++ [(req, FetchBody body)] /\ reducible body = true) /\
         backoffs evs =
           map (fun j => (backoff_s, Z.of_nat j)) (seq s (List.length (posts evs) - 1)) /\
         List.length (jitters evs) =
           List.length (filter is_403 (removelast (posts evs))))
    | Raises e =>
        (len = 0%nat /\ evs = [] /\ last = None) \/
        (len <> 0%nat /\ evs = [] /\ encode_payload prompt = Raises e) \/
        (exists front d,
           evs = front ++ [SSleep d] /\
           time_sleep (h ++ front) d = Raises e /\
           (1 <= List.length (posts evs) < len)%nat /\
           List.length (jitters evs) = List.length (filter is_403 (posts evs)) /\
           ((d = Backoff backoff_s (Z.of_nat (s + List.length (posts evs) - 1)) /\
             backoffs evs =
               map (fun j => (backoff_s, Z.of_nat j)) (seq s (List.length (posts evs)))) \/
            ((exists r, d = Jitter r) /\
             backoffs evs =
               map (fun j => (backoff_s, Z.of_nat j))
                 (seq s (List.length (posts evs) - 1)))))
    end.
Proof.
  revert s last h. induction len as [|len IH]; intros s last h Hsum.
  - exists []. rewrite app_nil_r.
    destruct last as [[pr out]|]; simpl.
    + split; [reflexivity|]. split; [reflexivity|]. split; [reflexivity|].
      split; [lia|]. left. repeat split.
    + split; [reflexivity|]. split; [reflexivity|]. split; [reflexivity|].
      split; [lia|]. left. repeat split.
  - simpl seq. simpl map. simpl attempt_loop.
    pose proof (post_prompt_step (Z.of_nat s) h) as Hstep.
    destruct (encode_payload prompt) as [payload|e] eqn:Henc.
    2:{ rewrite Hstep. exists []. simpl. rewrite app_nil_r.
        split; [reflexivity|]. split; [reflexivity|]. split; [reflexivity|].
        split; [lia|]. right. left. split; [discriminate|]. split; reflexivity. }
    destruct Hstep as [req [entry [Hpost [_ [Hua [Hprompt [H403 Hgood]]]]]]].
    rewrite Hpost.
    set (fetch := urlopen h req timeout) in *.
    destruct (truthy (dict_get entry "error")) eqn:Herr; simpl negb; cbv iota.
    + destruct (pause_after_events entry (Z.of_nat s) retries backoff_s
                  (h ++ [SUrlopen req timeout fetch]))
        as [pe [Hpause [Hpp [Hpr [Hpj Hpres]]]]].
      rewrite (H403 eq_refl) in Hpj.
      destruct (pause_after entry (Z.of_nat s) retries backoff_s
                  (h ++ [SUrlopen req timeout fetch])) as [[u|e] h2] eqn:Hpa;
        simpl in Hpause, Hpres; subst h2.
      * destruct (IH (S s) (Some (prompt, entry))
                    ((h ++ [SUrlopen req timeout fetch]) ++ pe))
          as [evs' [Hh' [Huas [Hrs [Hle Hres]]]]]; [lia|].
        exists ([SUrlopen req timeout fetch] ++ pe ++ evs').
        split; [rewrite Hh', <- !app_assoc; reflexivity|].
        rewrite !posts_app, !backoffs_app, !randoms_app, !jitters_app, !length_app.
        rewrite Hpp, Hpres, Hpr, Hpj. simpl posts. simpl backoffs. simpl randoms.
        simpl jitters. simpl app. simpl List.length.
        split; [simpl; rewrite Hua, Huas; reflexivity|].
        split; [rewrite Hrs; reflexivity|]. split; [lia|].
        destruct (fst (attempt_loop url prompt timeout retries backoff_s
                         (map Z.of_nat (seq (S s) len)) (Some (prompt, entry))
                         ((h ++ [SUrlopen req timeout fetch]) ++ pe)))
          as [[pr out]|e].
        -- right.
           destruct Hres as [[Hlen [Hevs Hlast]]|
                             [Hpr' [Hp' [Hk [Hall [Hok [Hbs Hjs]]]]]]].
           ++ subst len evs'. inversion Hlast; subst pr out. simpl.
              assert (Hlt : (Z.of_nat s <? retries)%Z = false) by lia.
              rewrite Hlt, andb_false_r. simpl.
              split; [reflexivity|]. split; [exact Hprompt|]. split; [lia|].
              split; [reflexivity|]. split; [congruence|]. split; reflexivity.
           ++ assert (Hlt : (Z.of_nat s <? retries)%Z = true) by lia.
              rewrite Hlt, andb_true_r.
              split; [exact Hpr'|]. split; [exact Hp'|]. split; [lia|].
              split; [intros Ht; rewrite (Hall Ht); reflexivity|].
              split.
              { intros Hf. destruct (Hok Hf) as [front [req' [body [Hl Hred]]]].
                exists ((req, fetch) :: front), req', body. split; [|exact Hred].
                rewrite Hl. reflexivity. }
              split.
              { simpl. rewrite Hbs.
                destruct (List.length (posts evs')) as [|k'] eqn:Hk'; [lia|].
                simpl. rewrite Nat.sub_0_r. reflexivity. }
              destruct (posts evs') as [|p ps] eqn:Hps; [simpl in Hk; lia|].
              rewrite Hjs.
              change (removelast ((req, fetch) :: p :: ps))
                with ((req, fetch) :: removelast (p :: ps)).
              cbn [filter]. destruct (is_403 (req, fetch)); reflexivity.
        -- right. right.
           destruct Hres as [[_ [_ Hlast]]|[[_ [_ Hraise]]|
                             [front [d [Hevs [Hsleep [Hk [Hjs Hbs]]]]]]]];
             [discriminate | congruence |].
           assert (Hlt : (Z.of_nat s <? retries)%Z = true) by lia.
           rewrite Hlt, andb_true_r.
           exists ([SUrlopen req timeout fetch] ++ pe ++ front), d.
           split; [rewrite Hevs, <- !app_assoc; reflexivity|].
           split; [rewrite <- Hsleep; f_equal; rewrite <- !app_assoc; reflexivity|].
           split; [lia|].
           split; [rewrite Hjs; cbn [filter];
                   destruct (is_403 (req, fetch)); reflexivity|].
           destruct Hbs as [[Hd Hbs]|[Hd Hbs]].
           ++ left. split.
              ** rewrite Hd. f_equal. f_equal. lia.
              ** rewrite Hbs. reflexivity.
           ++ right. split; [exact Hd|]. rewrite Hbs.
              destruct (List.length (posts evs')) as [|k'] eqn:Hk'; [lia|].
              simpl. rewrite Nat.sub_0_r. reflexivity.
      * destruct Hpres as [Hlt [front [d [Hpe [Hsleep Hbs]]]]].
        rewrite Hlt, andb_true_r in Hpj.
        exists ([SUrlopen req timeout fetch] ++ pe).
        split; [rewrite <- !app_assoc; reflexivity|].
        rewrite !posts_app, !backoffs_app, !randoms_app, !jitters_app.
        rewrite Hpp, Hpr. simpl posts. simpl backoffs. simpl randoms.
        simpl jitters. simpl app. simpl List.length.
        split; [simpl; rewrite Hua; reflexivity|].
        split; [reflexivity|]. split; [lia|].
        right. right.
        exists ([SUrlopen req timeout fetch] ++ front), d.
        split; [rewrite Hpe, <- !app_assoc; reflexivity|].
        split; [rewrite <- Hsleep; f_equal; rewrite <- !app_assoc; reflexivity|].
        split; [lia|].
        split; [rewrite Hpj; cbn [filter];
                destruct (is_403 (req, fetch)); reflexivity|].
        destruct Hbs as [[Hd Hbs]|[Hd Hbs]].
        -- left. split.
           ++ rewrite Hd. f_equal. f_equal. lia.
           ++ rewrite Hbs. reflexivity.
        -- right. split; [exact Hd|]. rewrite Hbs. reflexivity.
    + exists [SUrlopen req timeout fetch]. simpl. split; [reflexivity|].
      split; [rewrite Hua; reflexivity|]. split; [reflexivity|]. split; [lia|].
      right. split; [reflexivity|]. split; [exact Hprompt|]. split; [lia|].
      split; [congruence|]. split.
      { intros _. destruct (Hgood eq_refl) as [body [Hb Hred]].
        exists [], req, body. split; [|exact Hred]. simpl. rewrite Hb. reflexivity. }
      split; reflexivity.
Qed.


Lemma py_range_of_nat (k : nat) : py_range (Z.of_nat k) = map Z.of_nat (seq 0 k).
Proof. unfold py_range. rewrite Nat2Z.id. reflexivity. Qed.

Lemma backoffs_of_range (k : nat) :
  map (fun j => (backoff_s, Z.of_nat j)) (seq 0 k) =
  map (fun a => (backoff_s, a)) (py_range (Z.of_nat k)).
Proof. rewrite py_range_of_nat, map_map. reflexivity. Qed.

(** The whole of [post_with_retries] when [retries] is not negative. *)
Lemma post_with_retries_run (h : list (SEvent float)) :
  (0 <= retries)%Z ->
  exists r evs,
    post_with_retries url prompt timeout retries backoff_s h = (r, h ++ evs) /\
    map (fun p => header_get (req_headers (fst p)) "User-Agent") (posts evs) =
      map ua_at (py_range (Z.of_nat (List.length (posts evs)))) /\
    randoms evs = jitters evs /\
    (Z.of_nat (List.length (posts evs)) <= retries + 1)%Z /\
    match r with
    | Returns (pr, out) =>
        pr = prompt /\
        dict_get out "prompt" = PStr prompt /\
        (1 <= Z.of_nat (List.length (posts evs)))%Z /\
        (truthy (dict_get out "error") = true ->
         Z.of_nat (List.length (posts evs)) = (retries + 1)%Z) /\
        (truthy (dict_get out "error") = false ->
         exists front req body,
           posts evs = front ++ [(req, FetchBody body)] /\ reducible body = true) /\
        backoffs evs =
          map (fun a => (backoff_s, a))
            (py_range (Z.of_nat (List.length (posts evs)) - 1)) /\
        List.length (jitters evs) = List.length (filter is_403 (removelast (posts evs)))
    | Raises e =>
        (evs = [] /\ encode_payload prompt = Raises e) \/
        (exists front d,
           evs = front ++ [SSleep d] /\
           time_sleep (h ++ front) d = Raises e /\
           (1 <= Z.of_nat (List.length (posts evs)) <= retries)%Z /\
           List.length (jitters evs) = List.length (filter is_403 (posts evs)) /\
           ((d = Backoff backoff_s (Z.of_nat (List.length (posts evs)) - 1) /\
             backoffs evs =
               map (fun a => (backoff_s, a))
                 (py_range (Z.of_nat (List.length (posts evs))))) \/
            ((exists r0, d = Jitter r0) /\
             backoffs evs =
               map (fun a => (backoff_s, a))
                 (py_range (Z.of_nat (List.length (posts evs)) - 1)))))
    end.
Proof.
  intros Hretries. unfold post_with_retries, py_range at 1.
  destruct (attempt_loop_run (Z.to_nat (retries + 1)) 0 None h)
    as [evs [Hh [Huas [Hrs [Hle Hres]]]]]; [lia|].
  assert (Hpred : forall k : nat,
             map (fun j => (backoff_s, Z.of_nat j)) (seq 0 (k - 1)) =
             map (fun a => (backoff_s, a)) (py_range (Z.of_nat k - 1))).
  { intros k. rewrite backoffs_of_range. unfold py_range.
    replace (Z.to_nat (Z.of_nat (k - 1))) with (Z.to_nat (Z.of_nat k - 1)) by lia.
    reflexivity. }
  destruct (attempt_loop url prompt timeout retries backoff_s
              (map Z.of_nat (seq 0 (Z.to_nat (retries + 1)))) None h)
    as [r h'] eqn:Hrun; simpl in Hh, Hres. subst h'.
  exists r, evs. split; [reflexivity|].
  split; [rewrite Huas, py_range_of_nat, map_map; reflexivity|].
  split; [exact Hrs|]. split; [lia|].
  destruct r as [[pr out]|e].
  - destruct Hres as [[Hlen _]|[Hpr [Hp [Hk [Hall [Hok [Hbs Hjs]]]]]]]; [lia|].
    split; [exact Hpr|]. split; [exact Hp|]. split; [lia|].
    split; [intros Ht; rewrite (Hall Ht); lia|]. split; [exact Hok|].
    split; [rewrite Hbs; apply Hpred | exact Hjs].
  - destruct Hres as [[Hlen _]|[[_ [Hevs Hraise]]|
                      [front [d [Hevs [Hsleep [Hk [Hjs Hbs]]]]]]]]; [lia| |].
    + left. split; assumption.
    + right. exists front, d. split; [exact Hevs|]. split; [exact Hsleep|].
      split; [lia|]. split; [exact Hjs|].
      destruct Hbs as [[Hd Hbs]|[Hd Hbs]].
      * left. split.
        -- rewrite Hd. f_equal. lia.
        -- rewrite Hbs. apply backoffs_of_range.
      * right. split; [exact Hd|]. rewrite Hbs. apply Hpred.
Qed.

(** X16.  With [retries] not negative, a url the library accepts and error
    bodies that can be read, [post_with_retries] makes at most [retries + 1]
    posts.  When it returns, it returns an entry for the prompt after at
    least one post: an entry with a true ["error"] only after all
    [retries + 1] posts, any other entry from the last post, which received
    a reducible body.  When it raises, either the prompt could not be
    encoded and nothing happened, or a sleep raised, the last event, after
    at least one and at most [retries] posts.  It returns whenever the prompt
    can be encoded and no sleep raises. *)
Theorem post_with_retries_attempts (h : list (SEvent float)) :
  (0 <= retries)%Z ->
  exists r evs,
    post_with_retries url prompt timeout retries backoff_s h = (r, h ++ evs) /\
    (Z.of_nat (List.length (posts evs)) <= retries + 1)%Z /\
    match r with
    | Returns (pr, out) =>
        pr = prompt /\
        dict_get out "prompt" = PStr prompt /\
        (1 <= Z.of_nat (List.length (posts evs)))%Z /\
        (truthy (dict_get out "error") = true ->
         Z.of_nat (List.length (posts evs)) = (retries + 1)%Z) /\
        (truthy (dict_get out "error") = false ->
         exists front req body,
           posts evs = front ++ [(req, FetchBody body)] /\ reducible body = true)
    | Raises e =>
        (evs = [] /\ encode_payload prompt = Raises e) \/
        (exists front d,
           evs = front ++ [SSleep d] /\
           time_sleep (h ++ front) d = Raises e /\
           (1 <= Z.of_nat (List.length (posts evs)) <= retries)%Z)
    end /\
    (encodable prompt -> sleeps_return -> exists out, r = Returns (prompt, out)).
Proof.
  intros Hretries.
  destruct (post_with_retries_run h Hretries)
    as [r [evs [Hrun [_ [_ [Hle Hres]]]]]].
  exists r, evs. split; [exact Hrun|]. split; [exact Hle|].
  destruct r as [[pr out]|e].
  - destruct Hres as [Hpr [Hp [Hk [Hall [Hok _]]]]].
    split; [repeat split; assumption|].
    intros _ _. exists out. rewrite Hpr. reflexivity.
  - split.
    + destruct Hres as [Henc|[front [d [Hevs [Hsleep [Hk _]]]]]].
      * left. exact Henc.
      * right. exists front, d. repeat split; try assumption; lia.
    + intros [payload Henc] Hsleeps. exfalso.
      destruct Hres as [[_ Hraise]|[front [d [_ [Hsleep _]]]]].
      * congruence.
      * rewrite Hsleeps in Hsleep. discriminate.
Qed.

(** X17.  The posts of one [post_with_retries] carry the user agents of the
    pool in rotation: the post of attempt [j], counted from 0, has the entry
    at [j mod 3]. *)
Theorem post_with_retries_user_agents (h : list (SEvent float)) :
  (0 <= retries)%Z ->
  exists r evs,
    post_with_retries url prompt timeout retries backoff_s h = (r, h ++ evs) /\
    map (fun p => header_get (req_headers (fst p)) "User-Agent") (posts evs) =
      map ua_at (py_range (Z.of_nat (List.length (posts evs)))).
Proof.
  intros Hretries.
  destruct (post_with_retries_run h Hretries)
    as [r [evs [Hrun [Huas _]]]].
  exists r, evs. split; assumption.
Qed.

(** X18.  The backoff is slept for [backoff_s * 2 ** j] after the post of
    attempt [j].  When [post_with_retries] returns, it was slept once after
    every post but the last: no sleep follows the post whose entry is
    returned.  When [post_with_retries] raises, either the last event is the
    backoff after the last post made, which raised, and every post was
    followed by its backoff; or no backoff follows the last post made, the
    jitter before it having raised or nothing having been posted at all. *)
Theorem post_with_retries_backoff (h : list (SEvent float)) :
  (0 <= retries)%Z ->
  exists r evs,
    post_with_retries url prompt timeout retries backoff_s h = (r, h ++ evs) /\
    match r with
    | Returns _ =>
        backoffs evs =
          map (fun a => (backoff_s, a))
            (py_range (Z.of_nat (List.length (posts evs)) - 1))
    | Raises e =>
        (exists front,
           evs = front ++
                 [SSleep (Backoff backoff_s (Z.of_nat (List.length (posts evs)) - 1))] /\
           time_sleep (h ++ front)
             (Backoff backoff_s (Z.of_nat (List.length (posts evs)) - 1)) = Raises e /\
           backoffs evs =
             map (fun a => (backoff_s, a))
               (py_range (Z.of_nat (List.length (posts evs))))) \/
        ((evs = [] \/
          exists front r0,
            evs = front ++ [SSleep (Jitter r0)] /\
            time_sleep (h ++ front) (Jitter r0) = Raises e) /\
         backoffs evs =
           map (fun a => (backoff_s, a))
             (py_range (Z.of_nat (List.length (posts evs)) - 1)))
    end.
Proof.
  intros Hretries.
  destruct (post_with_retries_run h Hretries)
    as [r [evs [Hrun [_ [_ [_ Hres]]]]]].
  exists r, evs. split; [exact Hrun|].
  destruct r as [[pr out]|e].
  - destruct Hres as [_ [_ [_ [_ [_ [Hbs _]]]]]]. exact Hbs.
  - destruct Hres as [[Hevs _]|[front [d [Hevs [Hsleep [_ [_ Hbs]]]]]]].
    + right. split; [left; exact Hevs|]. rewrite Hevs. reflexivity.
    + destruct Hbs as [[Hd Hbs]|[[r0 Hd] Hbs]].
      * left. exists front. rewrite <- Hd. repeat split; assumption.
      * right. split; [|exact Hbs]. right. exists front, r0.
        rewrite <- Hd. split; assumption.
Qed.

(** X19.  [random.random] is consulted for the jitter only: each draw is
    slept as jitter and nothing else is drawn.  When [post_with_retries]
    returns, the jitter was slept once for every post answered by a 403 that
    is not the last post, and never otherwise.  When it raises, the jitter
    was slept, or raised, once for every post answered by a 403, the last
    post made included. *)
Theorem post_with_retries_jitter (h : list (SEvent float)) :
  (0 <= retries)%Z ->
  exists r evs,
    post_with_retries url prompt timeout retries backoff_s h = (r, h ++ evs) /\
    randoms evs = jitters evs /\
    match r with
    | Returns _ =>
        List.length (jitters evs) = List.length (filter is_403 (removelast (posts evs)))
    | Raises _ =>
        List.length (jitters evs) = List.length (filter is_403 (posts evs))
    end.
Proof.
  intros Hretries.
  destruct (post_with_retries_run h Hretries)
    as [r [evs [Hrun [_ [Hrs [_ Hres]]]]]].
  exists r, evs. split; [exact Hrun|]. split; [exact Hrs|].
  destruct r as [[pr out]|e].
  - destruct Hres as [_ [_ [_ [_ [_ [_ Hjs]]]]]]. exact Hjs.
  - destruct Hres as [[Hevs _]|[front [d [_ [_ [_ [Hjs _]]]]]]].
    + rewrite Hevs. reflexivity.
    + exact Hjs.
Qed.

(** X20.  A body that arrives and is reducible ends the loop at once, even
    when its object has an ["error"] key of its own: one post, no sleep, and
    an entry without ["error"].  Only a prompt that cannot be encoded keeps
    the post from being made: the exception of the encoding is raised then,
    and nothing happens. *)
Theorem post_with_retries_first_success (h : list (SEvent float)) (body : string) :
  (0 <= retries)%Z ->
  (forall req, req_url req = url -> urlopen h req timeout = FetchBody body) ->
  reducible body = true ->
  match encode_payload prompt with
  | Returns _ =>
      exists req entry,
        post_with_retries url prompt timeout retries backoff_s h =
          (Returns (prompt, entry), h ++ [SUrlopen req timeout (FetchBody body)]) /\
        dict_get entry "error" = PNone
  | Raises e =>
      post_with_retries url prompt timeout retries backoff_s h = (Raises e, h)
  end.
Proof.
  intros Hretries Hfetch Hred.
  unfold post_with_retries, py_range.
  destruct (Z.to_nat (retries + 1)) as [|k] eqn:Hk; [lia|].
  simpl seq. simpl map. simpl attempt_loop.
  destruct (encode_payload prompt) as [payload|e] eqn:Henc.
  2:{ unfold post_prompt. rewrite Henc. reflexivity. }
  destruct Haccepted as [[u Hreq] [[scheme netloc] Hsplit]].
  destruct (post_prompt_run url prompt timeout 0 h payload u scheme netloc
              Henc Hreq Hsplit)
    as [req [Hurl [_ [_ [_ Hrun]]]]].
  rewrite (Hfetch req Hurl) in Hrun. destruct Hrun as [entry [Hentry Hrun]].
  rewrite (reduce_response_reads prompt body Hred) in Hentry.
  inversion Hentry; subst entry. clear Hentry.
  eexists req, _. rewrite Hrun.
  split; reflexivity.
Qed.

End Retry.

(** X21.  With [retries] negative the loop has no attempt to make: nothing is
    posted or slept, and returning the unbound locals raises
    [UnboundLocalError]. *)
Theorem post_with_retries_negative (url prompt : string) (timeout : float)
    (retries : Z) (backoff_s : float) (h : list (SEvent float)) :
  (retries < 0)%Z ->
  exists msg,
    post_with_retries url prompt timeout retries backoff_s h =
      (Raises (PyException "UnboundLocalError" msg), h).
Proof.
  intros Hneg. unfold post_with_retries, py_range.
  replace (Z.to_nat (retries + 1)) with 0%nat by lia.
  eexists. reflexivity.
Qed.

End ScriptProperties.

(** ** The further properties at work *)

Section MoreRuns.

Import Example MoreExample LoadTest.
#[local] Existing Instance Example.env.
#[local] Existing Instance ScriptExample.env.
Local Open Scope string_scope.
Local Open Scope Z_scope.
Local Open Scope list_scope.

(** *** The manager *)

Lemma get_tasks_log_witness :
  get_tasks "down" "hk" 1 w_down =
    (Returns [], snd (get_tasks "down" "hk" 1 w_down)) /\
  exists evs,
    history (snd (get_tasks "down" "hk" 1 w_down)) = history w_down ++ evs /\
    log_records evs =
      match gateway_api_get_tasks (at_transport w_down) "down" "hk" 1 with
      | Returns _ => []
      | Raises e => [FailedFetching e]
      end ++
      (if py_not (@nil GatewayTask) then [GatewayDisabled "down"] else []) ++
      map (@GatewayUpdated Z) (_gateways (snd (get_tasks "down" "hk" 1 w_down))).
Proof.
  split; [reflexivity|].
  exact (get_tasks_log "down" "hk" 1 w_down [] _ eq_refl).
Defined.

Lemma get_tasks_error_keeps_gateways_witness :
  gateway_api_get_tasks (at_transport w_down) "down" "hk" 1 =
    Raises (Http3Exception "connection lost") /\
  is_Http3Exception (Http3Exception "connection lost") = true /\
  exists evs input output,
    history (snd (get_tasks "down" "hk" 1 w_down)) = history w_down ++ evs /\
    score_calls evs = [(input, output)] /\
    map (@url Z) input = map (@url Z) (_gateways w_down) /\
    map (@score Z) input = map (@score Z) (_gateways w_down) /\
    count_disabled input = if has_url "down" (_gateways w_down) then 1%nat else 0%nat.
Proof.
  split; [reflexivity|]. split; [reflexivity|].
  exact (get_tasks_error_keeps_gateways "down" "hk" 1 w_down
           (Http3Exception "connection lost") eq_refl eq_refl).
Defined.

Lemma get_tasks_success_keeps_transport_list_witness :
  gateway_api_get_tasks (Environment := Counter.env_relay)
    (at_transport w_mixed) "b" "hk" 1 =
    Returns {| tasks := [task1]; gateways := [gw "a" 5 true; gw "b" 1 false] |} /\
  exists evs input output,
    history (snd (get_tasks (env := Counter.env_relay) "b" "hk" 1 w_mixed)) =
      history w_mixed ++ evs /\
    score_calls evs = [(input, output)] /\
    map (@url Z) input = map (@url Z) [gw "a" 5 true; gw "b" 1 false] /\
    map (@score Z) input = map (@score Z) [gw "a" 5 true; gw "b" 1 false] /\
    (forall g, In g [gw "a" 5 true; gw "b" 1 false] -> disabled g = true -> In g input) /\
    ([task1] <> [] -> input = [gw "a" 5 true; gw "b" 1 false]).
Proof.
  split; [reflexivity|].
  exact (get_tasks_success_keeps_transport_list (env := Counter.env_relay)
           "b" "hk" 1 w_mixed
           {| tasks := [task1]; gateways := [gw "a" 5 true; gw "b" 1 false] |} eq_refl).
Defined.

Lemma get_tasks_forgets_flags_witness :
  history w_mixed = history w_idle /\
  same_but_disabled (_gateways w_mixed) (_gateways w_idle) /\
  get_tasks "down" "hk" 1 w_mixed = get_tasks "down" "hk" 1 w_idle.
Proof.
  assert (Hsame : same_but_disabled (_gateways w_mixed) (_gateways w_idle)).
  { repeat constructor. }
  split; [reflexivity|]. split; [exact Hsame|].
  exact (get_tasks_forgets_flags "down" "hk" 1 w_mixed w_idle eq_refl Hsame).
Defined.

Lemma get_best_gateway_first_of_ties_witness :
  gt_asymmetric /\ gt_transitive /\ gt_total /\
  is_max_score 7 (_gateways w_ties) /\
  score_eq 7 GATEWAY_MIN_SCORE = false /\
  exists pre g post,
    _gateways w_ties = pre ++ g :: post /\
    get_best_gateway w_ties = (Returns (Some g), w_ties) /\
    score g = 7 /\
    (forall x, In x pre -> score_gt 7 (score x) = true).
Proof.
  assert (Hmax : is_max_score 7 (_gateways w_ties)).
  { split.
    - exists (gw "b" 7 true). split; [right; left; reflexivity | reflexivity].
    - intros g Hin. simpl in Hin.
      destruct Hin as [<-|[<-|[<-|[]]]]; reflexivity. }
  split; [exact Z_gt_asymmetric|]. split; [exact Z_gt_transitive|].
  split; [exact Z_gt_total|]. split; [exact Hmax|]. split; [reflexivity|].
  exact (get_best_gateway_first_of_ties w_ties 7
           Z_gt_asymmetric Z_gt_transitive Z_gt_total Hmax eq_refl).
Defined.

(** Of the two gateways with score 7 the earlier one is returned. *)
Example best_of_ties :
  fst (get_best_gateway w_ties) = Returns (Some (gw "b" 7 true)).
Proof. reflexivity. Qed.

Lemma get_best_gateway_after_get_tasks_witness :
  get_tasks "down" "hk" 1 w_down =
    (Returns [], snd (get_tasks "down" "hk" 1 w_down)) /\
  exists evs,
    history (snd (get_tasks "down" "hk" 1 w_down)) = history w_down ++ evs /\
    score_calls evs =
      [(_gateways (after_disable "down" [] (at_disable "down" "hk" 1 w_down)),
        gateway_scorer_score
          (after_disable "down" [] (at_disable "down" "hk" 1 w_down))
          (_gateways (after_disable "down" [] (at_disable "down" "hk" 1 w_down))))] /\
    _gateways (snd (get_tasks "down" "hk" 1 w_down)) =
      gateway_scorer_score
        (after_disable "down" [] (at_disable "down" "hk" 1 w_down))
        (_gateways (after_disable "down" [] (at_disable "down" "hk" 1 w_down))) /\
    (fst (get_best_gateway (snd (get_tasks "down" "hk" 1 w_down))) = Returns None <->
     gateway_scorer_score
       (after_disable "down" [] (at_disable "down" "hk" 1 w_down))
       (_gateways (after_disable "down" [] (at_disable "down" "hk" 1 w_down))) = []) /\
    (forall g, fst (get_best_gateway (snd (get_tasks "down" "hk" 1 w_down))) =
               Returns (Some g) ->
               In g (gateway_scorer_score
                       (after_disable "down" [] (at_disable "down" "hk" 1 w_down))
                       (_gateways (after_disable "down" []
                                     (at_disable "down" "hk" 1 w_down))))).
Proof.
  split; [reflexivity|].
  exact (get_best_gateway_after_get_tasks "down" "hk" 1 w_down [] _ eq_refl).
Defined.

(** *** The script *)

Lemma script_url_accepted : url_accepted "https://example.org/gen".
Proof. split; eexists; reflexivity. Qed.

Lemma script_errors_readable : errors_readable.
Proof.
  intros h req timeout code e. simpl. unfold ScriptExample.network.
  destruct (List.length h) as [|[|[|[|[|k]]]]]; discriminate.
Qed.

Lemma script_random_contract : random_contract.
Proof.
  split; [|split].
  - intros seed l. simpl. apply Permutation_rev.
  - intros seed l k Hk. simpl.
    replace ((k <? 0) || (Z.of_nat (List.length l) <? k))%bool with false
      by (symmetry; apply orb_false_iff; split; lia).
    eexists. split; [reflexivity|]. split.
    + apply firstn_length_le. lia.
    + intros x Hx. rewrite <- (firstn_skipn (Z.to_nat k) l).
      apply in_or_app. left. exact Hx.
  - intros seed l k Hk. simpl.
    replace ((k <? 0) || (Z.of_nat (List.length l) <? k))%bool with true
      by (symmetry; apply orb_true_iff; lia).
    eexists. reflexivity.
Qed.

(** Three attempts: a 403, a 500, a result. *)
Example script_three_attempts :
  fst (post_with_retries "https://example.org/gen" "a red chair" 120 2 1 []) =
    Returns ("a red chair",
             [("prompt", PStr "a red chair"); ("clip", PInt 31); ("attempts", PInt 2);
              ("elapsed_s", PNone); ("validation_score", PNone); ("iqa", PNone);
              ("alignment_score", PNone); ("ssim", PNone); ("lpips", PNone)]) /\
  map (fun p => header_get (req_headers (fst p)) "User-Agent")
    (posts (snd (post_with_retries "https://example.org/gen" "a red chair" 120 2 1 []))) =
    map Some BROWSER_UAS /\
  backoffs (snd (post_with_retries "https://example.org/gen" "a red chair" 120 2 1 [])) =
    [(1, 0); (1, 1)] /\
  jitters (snd (post_with_retries "https://example.org/gen" "a red chair" 120 2 1 [])) =
    [0].
Proof. repeat split; reflexivity. Qed.

(** With no retry the 403 is returned, and nothing is slept. *)
Example script_no_retry :
  post_with_retries "https://example.org/gen" "a red chair" 120 0 1 [] =
  (Returns ("a red chair",
            [("prompt", PStr "a red chair"); ("error", PBool true);
             ("status", PInt 403); ("response_raw", PStr "blocked")]),
   [SUrlopen
      (mkRequest "https://example.org/gen" "prompt=a red chair" "POST"
         [("User-Agent", nth 0 BROWSER_UAS "");
          ("Accept", "text/html,application/xhtml+xml,application/xml;q=0.9,application/json;q=0.8,*/*;q=0.7");
          ("Accept-Language", "en-US,en;q=0.9");
          ("Referer", "https://example.org/");
          ("Origin", "https://example.org");
          ("Connection", "keep-alive");
          ("Content-Type", "application/x-www-form-urlencoded")])
      120 (FetchHTTPError (PInt 403) (Returns "blocked"))]).
Proof. reflexivity. Qed.

(** A negative backoff: the first post is answered by a 403, the jitter is
    drawn and slept, and the backoff raises.  One post, two sleeps, and the
    exception of the second leaves [post_with_retries]. *)
Example script_negative_backoff :
  fst (post_with_retries "https://example.org/gen" "a red chair" 120 2 (-1) []) =
    Raises (ValueError "sleep length must be non-negative") /\
  List.length
    (posts (snd (post_with_retries "https://example.org/gen" "a red chair" 120 2 (-1) [])))
    = 1%nat /\
  sleeps (snd (post_with_retries "https://example.org/gen" "a red chair" 120 2 (-1) [])) =
    [Jitter 0; Backoff (-1) 0].
Proof. repeat split; reflexivity. Qed.

(** A prompt that cannot be encoded: nothing is sent, by [post_prompt] or
    by the loop around it. *)
Example script_unencodable_prompt :
  post_prompt "https://example.org/gen" ScriptExample.lone_surrogate 120 0 [] =
    (Raises (PyException "UnicodeEncodeError" "surrogates not allowed"), []) /\
  post_with_retries "https://example.org/gen" ScriptExample.lone_surrogate 120 2 1 [] =
    (Raises (PyException "UnicodeEncodeError" "surrogates not allowed"), []).
Proof. split; reflexivity. Qed.

(** Bodies that are not an object, or whose section is a string. *)
Example reduce_odd_bodies :
  _reduce_response "p" "list" =
    Returns ("p", [("prompt", PStr "p"); ("error", PBool true);
                   ("response_raw", PStr "list")]) /\
  _reduce_response "p" "odd" =
    Returns ("p", [("prompt", PStr "p"); ("error", PBool true);
                   ("response_raw", PStr "odd")]) /\
  _reduce_response "p" "{" =
    Returns ("p", [("prompt", PStr "p"); ("error", PBool true);
                   ("response_raw", PStr "{")]).
Proof. repeat split; reflexivity. Qed.

Lemma browserish_headers_rotation_witness :
  urlsplit "https://example.org/gen" = Returns ("https", "example.org") /\
  exists headers ua,
    _browserish_headers "https://example.org/gen" (-1) = Returns headers /\
    header_get headers "User-Agent" = Some ua /\
    ua_at (-1) = Some ua /\
    In ua BROWSER_UAS /\
    ua_at (-1 + 3) = Some ua /\
    ua_at (-1 + 1) <> Some ua /\
    header_get headers "Origin" = Some ("https" ++ "://" ++ "example.org")%string /\
    header_get headers "Referer" =
      Some (("https" ++ "://" ++ "example.org") ++ "/")%string.
Proof.
  split; [reflexivity|].
  exact (browserish_headers_rotation "https://example.org/gen" (-1)
           "https" "example.org" eq_refl).
Defined.

Lemma sample_prompts_outcome_witness :
  random_contract /\
  match sample_prompts ["a"; "b"; "c"] 2 None with
  | Raises e => (2 < 0)%Z /\ ["a"; "b"; "c"] <> [] /\ exists msg, e = ValueError msg
  | Returns picked =>
      ((0 <= 2)%Z \/ ["a"; "b"; "c"] = []) /\
      List.length picked = Z.to_nat (Z.min 2 (Z.of_nat (List.length ["a"; "b"; "c"]))) /\
      (forall x, In x picked -> In x ["a"; "b"; "c"]) /\
      ((Z.of_nat (List.length ["a"; "b"; "c"]) <= 2)%Z -> Permutation ["a"; "b"; "c"] picked)
  end.
Proof.
  split; [exact script_random_contract|].
  exact (sample_prompts_outcome ["a"; "b"; "c"] 2 None script_random_contract).
Defined.

(** A negative [n] raises only when there are lines. *)
Example sample_negative :
  sample_prompts [] (-1) None = Returns [] /\
  sample_prompts ["a"] (-1) None =
    Raises (ValueError "Sample larger than population or is negative").
Proof. split; reflexivity. Qed.

Lemma reduce_response_fields_witness :
  reducible "ok" = true /\
  _reduce_response "a red chair" "ok" =
  Returns ("a red chair", [
    ("prompt", PStr "a red chair");
    ("clip", dict_get (section "ok" "gen") "score");
    ("attempts", dict_get (section "ok" "gen") "attempts");
    ("elapsed_s", dict_get (section "ok" "gen") "elapsed_s");
    ("validation_score", dict_get (section "ok" "validation") "score");
    ("iqa", dict_get (section "ok" "validation") "iqa");
    ("alignment_score", dict_get (section "ok" "validation") "alignment_score");
    ("ssim", dict_get (section "ok" "validation") "ssim");
    ("lpips", dict_get (section "ok" "validation") "lpips")
  ]).
Proof.
  split; [reflexivity|].
  exact (proj1 (reduce_response_fields "a red chair" "ok" eq_refl)).
Defined.

Lemma post_with_retries_attempts_witness :
  url_accepted "https://example.org/gen" /\
  errors_readable /\
  (0 <= 2)%Z /\
  exists r evs,
    post_with_retries "https://example.org/gen" "a red chair" 120 2 1 [] =
      (r, [] ++ evs) /\
    (Z.of_nat (List.length (posts evs)) <= 2 + 1)%Z /\
    match r with
    | Returns (pr, out) =>
        pr = "a red chair" /\
        dict_get out "prompt" = PStr "a red chair" /\
        (1 <= Z.of_nat (List.length (posts evs)))%Z /\
        (truthy (dict_get out "error") = true ->
         Z.of_nat (List.length (posts evs)) = (2 + 1)%Z) /\
        (truthy (dict_get out "error") = false ->
         exists front req body,
           posts evs = front ++ [(req, FetchBody body)] /\ reducible body = true)
    | Raises e =>
        (evs = [] /\ encode_payload "a red chair" = Raises e) \/
        (exists front d,
           evs = front ++ [SSleep d] /\
           time_sleep ([] ++ front) d = Raises e /\
           (1 <= Z.of_nat (List.length (posts evs)) <= 2)%Z)
    end /\
    (encodable "a red chair" -> sleeps_return -> exists out, r = Returns ("a red chair", out)).
Proof.
  assert (Hr : (0 <= 2)%Z) by lia.
  split; [exact script_url_accepted|]. split; [exact script_errors_readable|].
  split; [exact Hr|].
  exact (post_with_retries_attempts "https://example.org/gen" "a red chair" 120 2 1
           script_url_accepted script_errors_readable [] Hr).
Defined.

Lemma post_with_retries_user_agents_witness :
  url_accepted "https://example.org/gen" /\
  errors_readable /\
  (0 <= 2)%Z /\
  exists r evs,
    post_with_retries "https://example.org/gen" "a red chair" 120 2 1 [] = (r, [] ++ evs) /\
    map (fun p => header_get (req_headers (fst p)) "User-Agent") (posts evs) =
      map ua_at (py_range (Z.of_nat (List.length (posts evs)))).
Proof.
  assert (Hr : (0 <= 2)%Z) by lia.
  split; [exact script_url_accepted|]. split; [exact script_errors_readable|].
  split; [exact Hr|].
  exact (post_with_retries_user_agents "https://example.org/gen" "a red chair" 120 2 1
           script_url_accepted script_errors_readable [] Hr).
Defined.

Lemma post_with_retries_backoff_witness :
  url_accepted "https://example.org/gen" /\
  errors_readable /\
  (0 <= 2)%Z /\
  exists r evs,
    post_with_retries "https://example.org/gen" "a red chair" 120 2 (-1) [] =
      (r, [] ++ evs) /\
    match r with
    | Returns _ =>
        backoffs evs =
          map (fun a => (-1, a)) (py_range (Z.of_nat (List.length (posts evs)) - 1))
    | Raises e =>
        (exists front,
           evs = front ++
                 [SSleep (Backoff (-1) (Z.of_nat (List.length (posts evs)) - 1))] /\
           time_sleep ([] ++ front)
             (Backoff (-1) (Z.of_nat (List.length (posts evs)) - 1)) = Raises e /\
           backoffs evs =
             map (fun a => (-1, a)) (py_range (Z.of_nat (List.length (posts evs))))) \/
        ((evs = [] \/
          exists front r0,
            evs = front ++ [SSleep (Jitter r0)] /\
            time_sleep ([] ++ front) (Jitter r0) = Raises e) /\
         backoffs evs =
           map (fun a => (-1, a)) (py_range (Z.of_nat (List.length (posts evs)) - 1)))
    end.
Proof.
  assert (Hr : (0 <= 2)%Z) by lia.
  split; [exact script_url_accepted|]. split; [exact script_errors_readable|].
  split; [exact Hr|].
  exact (post_with_retries_backoff "https://example.org/gen" "a red chair" 120 2 (-1)
           script_url_accepted script_errors_readable [] Hr).
Defined.

Lemma post_with_retries_jitter_witness :
  url_accepted "https://example.org/gen" /\
  errors_readable /\
  (0 <= 2)%Z /\
  exists r evs,
    post_with_retries "https://example.org/gen" "a red chair" 120 2 (-1) [] =
      (r, [] ++ evs) /\
    randoms evs = jitters evs /\
    match r with
    | Returns _ =>
        List.length (jitters evs) = List.length (filter is_403 (removelast (posts evs)))
    | Raises _ =>
        List.length (jitters evs) = List.length (filter is_403 (posts evs))
    end.
Proof.
  assert (Hr : (0 <= 2)%Z) by lia.
  split; [exact script_url_accepted|]. split; [exact script_errors_readable|].
  split; [exact Hr|].
  exact (post_with_retries_jitter "https://example.org/gen" "a red chair" 120 2 (-1)
           script_url_accepted script_errors_readable [] Hr).
Defined.

Lemma post_with_retries_first_success_witness :
  url_accepted "https://example.org/gen" /\
  (0 <= 2)%Z /\
  (forall req, req_url req = "https://example.org/gen" ->
               urlopen [SRandom 0] req 120 = FetchBody "ok") /\
  reducible "ok" = true /\
  exists req entry,
    post_with_retries "https://example.org/gen" "a red chair" 120 2 1 [SRandom 0] =
      (Returns ("a red chair", entry),
       [SRandom 0] ++ [SUrlopen req 120 (FetchBody "ok")]) /\
    dict_get entry "error" = PNone.
Proof.
  assert (Hr : (0 <= 2)%Z) by lia.
  assert (Hfetch : forall req, req_url req = "https://example.org/gen" ->
                               urlopen [SRandom 0] req 120 = FetchBody "ok").
  { intros req _. reflexivity. }
  split; [exact script_url_accepted|]. split; [exact Hr|].
  split; [exact Hfetch|]. split; [reflexivity|].
  exact (post_with_retries_first_success "https://example.org/gen" "a red chair" 120 2 1
           script_url_accepted [SRandom 0] "ok" Hr Hfetch eq_refl).
Defined.

Lemma post_with_retries_negative_witness :
  (-1 < 0)%Z /\
  exists msg,
    post_with_retries "https://example.org/gen" "a red chair" 120 (-1) 1 [] =
      (Raises (PyException "UnboundLocalError" msg), []).
Proof.
  assert (Hneg : (-1 < 0)%Z) by lia.
  split; [exact Hneg|].
  exact (post_with_retries_negative "https://example.org/gen" "a red chair" 120 (-1) 1
           [] Hneg).
Defined.

End MoreRuns.
